(** * SMPP/HLR gateway: a shallow embedding of the submit pipeline,
      the session loop and the DLR builder, with the properties of the
      specification stated against it.

    Source files embedded (paths relative to smpp-hlr-gateway-dlv/):
    - src/hlr/client.py        [HLRClient._classify_result],
                               [HLRClient._sync_hlr_request],
                               [HLRClient.lookup]
    - src/hlr/cache.py         [HLRCache.get], [HLRCache.set]
    - src/smpp/pdu_builder.py  [generate_message_id], [format_smpp_date],
                               [build_dlr_text], [get_error_code_from_hlr],
                               [get_reason]
    - src/smpp/handler.py      [SubmitSMHandler.handle_submit_sm],
                               [SubmitSMHandler._send_DELIVRD_dlr]
    - src/smpp/server.py       [SMPPSession] (run loop, PDU dispatch, bind,
                               unbind, submit, enquire_link, send_deliver_sm)
    - main.py                  [Application._warmup_cache]
    - examples/test_client.py  [SimpleSmppClient] (the PDUs it sends)

    Modelling conventions.
    - A Python [dict] with string keys is a [gmap string pyval]; [d.get(k, v)]
      is [default v (d !! k)].
    - [bytes] is [list byte]; a [str] is a [string] (all strings the gateway
      handles are ASCII: addresses are decoded with errors='ignore', message
      ids are hexadecimal).
    - Unbounded Python integers are [Z]; [struct.pack('>I', v)] is partial
      and fails outside [0, 2^32).
    - Exceptions are explicit: a fallible function returns [option] or a
      dedicated outcome type; the place that catches is written out.
    - Calls to the logger and to the metrics registry are left out: they
      neither return a value the code uses nor change its control flow.
    - The event loop is represented by the list of tasks handed to
      [asyncio.create_task]; running a task is a separate function on the
      session state, and [event_loop] runs the pending tasks between the
      turns of the session loop, in an order given from outside.
    - Redis is the map of its keys, each with the instant it expires;
      every command is given the clock of the server and whether it comes
      back or raises. *)

From Stdlib Require Import ZArith List Ascii String Floats Uint63 Lia.
From Stdlib.Strings Require Import Byte.
From stdpp Require Import gmap strings.

Import ListNotations.
Local Open Scope string_scope.
Local Open Scope Z_scope.

(* ===================================================================== *)
(** * Python values                                                       *)
(* ===================================================================== *)

Module Py.

(** The values [json.loads] can produce, which is what an HLR record
    holds ([Dict[str, Any]] decoded from the provider's JSON or from the
    cache). *)
#[warnings="-register-all"] Inductive pyval : Type :=
| PNone
| PBool (b : bool)
| PInt (z : Z)
| PFloat (f : float)
| PStr (s : string)
| PList (l : list pyval)
| PDict (d : gmap string pyval).

(** [float(n)] for the small integer literals of the source (exact below
    2^53). *)
Definition float_of_small (n : Z) : float :=
  PrimFloat.of_uint63 (Uint63.of_Z n).

(** [v == n] for an integer literal [n >= 0].  [bool] is a subclass of
    [int] ([False == 0], [True == 1]); a float compares by value; every
    other type is unequal to an integer. *)
Definition eq_int (v : pyval) (n : Z) : bool :=
  match v with
  | PBool b => (if b then 1 else 0) =? n
  | PInt z => z =? n
  | PFloat f => PrimFloat.eqb f (float_of_small n)
  | PNone | PStr _ | PList _ | PDict _ => false
  end.

(** [v == s] for a string literal [s]. *)
Definition eq_str (v : pyval) (s : string) : bool :=
  match v with
  | PStr t => String.eqb t s
  | _ => false
  end.

(** [v >= n] for an integer literal [n >= 0]: a [TypeError] ([None]) when
    [v] is not a number. *)
Definition ge_int (v : pyval) (n : Z) : option bool :=
  match v with
  | PBool b => Some (n <=? (if b then 1 else 0))
  | PInt z => Some (n <=? z)
  | PFloat f => Some (PrimFloat.leb (float_of_small n) f)
  | PNone | PStr _ | PList _ | PDict _ => None
  end.

(** [bool(v)], the test of [if v:] and [if not v:]. *)
Definition truthy (v : pyval) : bool :=
  match v with
  | PNone => false
  | PBool b => b
  | PInt z => negb (z =? 0)
  | PFloat f => negb (PrimFloat.eqb f (float_of_small 0))
  | PStr s => negb (String.eqb s "")
  | PList l => match l with [] => false | _ => true end
  | PDict d => negb (bool_decide (d = ∅))
  end.

(** [d.get(k, dflt)] *)
Definition get (d : gmap string pyval) (k : string) (dflt : pyval) : pyval :=
  default dflt (d !! k).

End Py.

Import Py.

(* ===================================================================== *)
(** * src/hlr/client.py                                                   *)
(* ===================================================================== *)

Module HLRClient.

(** [HLRClient._classify_result]:
<<
    error = result.get("error", 0)
    status = result.get("status", 1)
    if error == 0 and status == 0: return "valid"
    else: return "invalid"
>> *)
Definition _classify_result (result : gmap string pyval) : string :=
  let error := Py.get result "error" (PInt 0) in
  let status := Py.get result "status" (PInt 1) in
  if eq_int error 0 && eq_int status 0 then "valid" else "invalid".

(** What the GET of [_sync_hlr_request] comes back with: a body that
    [response.json()] decodes, [httpx.TimeoutException], or any other
    failure ([raise_for_status], transport, undecodable body). *)
Inductive http_outcome : Type :=
| HttpJson (data : pyval)
| HttpTimeout
| HttpFailure.

(** How [await hlr_client.lookup(msisdn)] ends: it returns a value,
    raises [httpx.TimeoutException], or raises some other [Exception]. *)
Inductive lookup_outcome : Type :=
| Returned (hlr_result : pyval)
| RaisedTimeout
| RaisedError.

(** The record synthesised for an empty answer. *)
Definition empty_response (msisdn : string) : gmap string pyval :=
  <["number" := PStr msisdn]>
    (<["error" := PInt 1]>
       (<["status" := PInt 1]>
          (<["status_message" := PStr "Empty response from HLR"]> ∅))).

(** [_sync_hlr_request], given what the GET came back with.  [.get] on a
    value that is not a dict raises [AttributeError], which leaves through
    the last [except Exception: ... raise]. *)
Definition _sync_hlr_request (msisdn : string) (response : http_outcome)
  : lookup_outcome :=
  match response with
  | HttpTimeout => RaisedTimeout
  | HttpFailure => RaisedError
  | HttpJson (PDict data) =>
      let result := Py.get data msisdn (PDict ∅) in
      let result := if truthy result then result else PDict (empty_response msisdn) in
      match result with
      | PDict result =>
          let classification := _classify_result result in
          Returned (PDict (<["classification" := PStr classification]> result))
      | _ => RaisedError
      end
  | HttpJson _ => RaisedError
  end.

(** src/hlr/cache.py, [HLRCache._make_key]. *)
Definition _make_key (msisdn : string) : string := "hlr:" ++ msisdn.

(** One key of the Redis server: the value [json.loads] gives for the
    stored text, and the instant the key expires ([SETEX] stores the text
    with a time to live).  A key whose text does not decode, or is empty,
    is a key that is not there: [get] catches the error and returns
    [None]. *)
Record entry : Type := mk_entry {
  entry_data : pyval;
  entry_expires : Z
}.

(** What surrounds one Redis command: the clock of the server, in
    seconds, and whether the command comes back ([false]: it raises,
    the connection is lost or the command timed out). *)
Record redis_call : Type := mk_call {
  call_now : Z;
  call_ok : bool
}.

(** [HLRCache.get], with [redis] the attribute [self.redis]: [None]
    until [connect] has run, the keys of the server afterwards.
<<
    if not self.redis or settings.hlr_cache_ttl_seconds == 0: return None
    try:
        data = await self.redis.get(key)
        if data: return json.loads(data)
        else: return None
    except Exception: return None
>> *)
Definition cache_get (ttl : Z) (redis : option (gmap string entry))
    (call : redis_call) (msisdn : string) : option pyval :=
  match redis with
  | None => None
  | Some keys =>
      if ttl =? 0 then None
      else if negb (call_ok call) then None
      else
        match keys !! _make_key msisdn with
        | Some e =>
            if call_now call <? entry_expires e then Some (entry_data e)
            else None
        | None => None
        end
  end.

(** [HLRCache.set]:
<<
    if not self.redis or settings.hlr_cache_ttl_seconds == 0: return
    try:
        data = json.dumps(result)
        await self.redis.setex(key, settings.hlr_cache_ttl_seconds, data)
    except Exception: ...            # logged
>>
    The server refuses a time to live that is not positive; that error
    is swallowed like a lost connection. *)
Definition cache_set (ttl : Z) (redis : option (gmap string entry))
    (call : redis_call) (msisdn : string) (result : pyval)
  : option (gmap string entry) :=
  match redis with
  | None => None
  | Some keys =>
      if ttl =? 0 then Some keys
      else if call_ok call && (0 <? ttl) then
        Some (<[_make_key msisdn :=
                  {| entry_data := result;
                     entry_expires := call_now call + ttl |}]> keys)
      else Some keys
  end.

(** The Redis commands of one [lookup]: the first [cache.get], the
    second one taken under the semaphore, and the [cache.set]. *)
Record lookup_calls : Type := mk_calls {
  first_get : redis_call;
  second_get : redis_call;
  set_call : redis_call
}.

(** The part of [lookup] after both looks at the cache have missed: a
    fresh answer is cached before it is returned; a failure is raised
    again and caches nothing.  The detached [save_hlr_lookup] task
    writes to the database only and is left out. *)
Definition request_and_cache (ttl : Z) (redis : option (gmap string entry))
    (call : redis_call) (msisdn : string) (response : http_outcome)
  : lookup_outcome * option (gmap string entry) :=
  match _sync_hlr_request msisdn response with
  | Returned result => (Returned result, cache_set ttl redis call msisdn result)
  | failure => (failure, redis)
  end.

(** [HLRClient.lookup]: a truthy cached value is returned as it is, at
    the first look or at the second.  Both looks see the same keys: no
    other lookup of the number completes in between. *)
Definition lookup (ttl : Z) (redis : option (gmap string entry))
    (calls : lookup_calls) (msisdn : string) (response : http_outcome)
  : lookup_outcome * option (gmap string entry) :=
  let under_semaphore :=
    match cache_get ttl redis (second_get calls) msisdn with
    | Some cached =>
        if truthy cached then (Returned cached, redis)
        else request_and_cache ttl redis (set_call calls) msisdn response
    | None => request_and_cache ttl redis (set_call calls) msisdn response
    end in
  match cache_get ttl redis (first_get calls) msisdn with
  | Some cached =>
      if truthy cached then (Returned cached, redis) else under_semaphore
  | None => under_semaphore
  end.

End HLRClient.

Import HLRClient.

(* ===================================================================== *)
(** * src/smpp/pdu_builder.py                                             *)
(* ===================================================================== *)

Module PduBuilder.

(** ** [uuid.uuid4] and [str(UUID)] (Python standard library)

    [uuid4()] is [UUID(bytes=os.urandom(16), version=4)]: the 16 random
    bytes are read as a big-endian 128-bit integer, the variant bits are
    forced to RFC 4122 and the version nibble to 4.  [rnd] stands for
    [int.from_bytes(os.urandom(16))]. *)
Definition uuid4_int (rnd : Z) : Z :=
  let i := rnd mod 2 ^ 128 in
  let i := Z.land i (Z.lnot (Z.shiftl 0xc000 48)) in
  let i := Z.lor i (Z.shiftl 0x8000 48) in
  let i := Z.land i (Z.lnot (Z.shiftl 0xf000 64)) in
  Z.lor i (Z.shiftl 4 76).

Definition hex_alphabet : list ascii :=
  list_ascii_of_string "0123456789abcdef".

Definition hex_digit (n : Z) : ascii :=
  nth (Z.to_nat n) hex_alphabet "0"%char.

(** ['%0kx' % n] for [0 <= n < 16^k]: [k] lower-case digits, most
    significant first. *)
Fixpoint hex_digits (k : nat) (n : Z) : list ascii :=
  match k with
  | O => []
  | S k' => hex_digits k' (Z.shiftr n 4) ++ [hex_digit (Z.land n 15)]
  end.

(** [s[a:b]] on a list, for [0 <= a <= b]. *)
Definition slice {A} (a b : nat) (l : list A) : list A :=
  firstn (b - a) (skipn a l).

(** [UUID.__str__]:
    [hex = '%032x' % self.int] then
    ['%s-%s-%s-%s-%s' % (hex[:8], hex[8:12], hex[12:16], hex[16:20], hex[20:])]. *)
Definition uuid_str (i : Z) : string :=
  let hex := hex_digits 32 i in
  string_of_list_ascii
    (slice 0 8 hex ++ ["-"%char] ++ slice 8 12 hex ++ ["-"%char] ++
     slice 12 16 hex ++ ["-"%char] ++ slice 16 20 hex ++ ["-"%char] ++
     skipn 20 hex).

(** [generate_message_id]: [return str(uuid.uuid4())]. *)
Definition generate_message_id (rnd : Z) : string :=
  uuid_str (uuid4_int rnd).

(** ** Dates *)

(** A [datetime.datetime]; the class keeps its fields in range
    (1 <= year <= 9999, 1 <= month <= 12, ...). *)
Record datetime : Type := mk_datetime {
  dt_year : Z;
  dt_month : Z;
  dt_day : Z;
  dt_hour : Z;
  dt_minute : Z
}.

Definition datetime_in_range (dt : datetime) : Prop :=
  1 <= dt_year dt <= 9999 /\ 1 <= dt_month dt <= 12 /\
  1 <= dt_day dt <= 31 /\ 0 <= dt_hour dt <= 23 /\ 0 <= dt_minute dt <= 59.

Definition dec_digit (n : Z) : ascii :=
  ascii_of_nat (48 + Z.to_nat (n mod 10)).

(** A zero-padded two-digit decimal field of [strftime] ([%m], [%d],
    [%H], [%M]; [%y] on the year modulo 100). *)
Definition two_digits (n : Z) : list ascii :=
  [dec_digit (n / 10); dec_digit n].

(** [format_smpp_date]: [dt.strftime("%y%m%d%H%M")]. *)
Definition format_smpp_date (dt : datetime) : string :=
  string_of_list_ascii
    (two_digits (dt_year dt mod 100) ++ two_digits (dt_month dt) ++
     two_digits (dt_day dt) ++ two_digits (dt_hour dt) ++
     two_digits (dt_minute dt)).

(** [build_dlr_text].  The two calls of [datetime.now()] that fill in
    missing dates are the readings [now1] and [now2] of the clock. *)
Definition build_dlr_text (message_id stat err : string)
    (submit_date done_date : option datetime) (now1 now2 : datetime) : string :=
  let submit_date := default now1 submit_date in
  let done_date := default now2 done_date in
  "id:" ++ message_id ++ " " ++
  "sub:001 " ++
  "dlvrd:000 " ++
  "submit date:" ++ format_smpp_date submit_date ++ " " ++
  "done date:" ++ format_smpp_date done_date ++ " " ++
  "stat:" ++ stat ++ " " ++
  "err:" ++ err ++ " " ++
  "text:".

(** [get_error_code_from_hlr]: every branch of the source returns
    ["000"]; the branches are kept as written. *)
Definition get_error_code_from_hlr (hlr_result : gmap string pyval) : string :=
  let error := Py.get hlr_result "error" (PInt 0) in
  let status := Py.get hlr_result "status" (PInt 0) in
  let present := Py.get hlr_result "present" (PStr "na") in
  if eq_int status 1 then "000"
  else if eq_int error 1 then "000"
  else if eq_int error 2 then "000"
  else if eq_int error 191 || eq_int error 192 then "000"
  else if eq_int error 193 then "000"
  else if eq_str present "no" then "000"
  else "000".

(** [get_reason]: [error >= 191] raises [TypeError] ([None]) when the
    record's error is not a number. *)
Definition get_reason (hlr_result : gmap string pyval) : option string :=
  let error := Py.get hlr_result "error" (PInt 0) in
  if eq_int error 0 then Some "invalid_number"
  else match ge_int error 191 with
       | None => None
       | Some true => Some "invalid_number"
       | Some false => Some "invalid_number"
       end.

End PduBuilder.

Import PduBuilder.

(* ===================================================================== *)
(** * Bytes, [struct] and stream helpers                                  *)
(* ===================================================================== *)

Module Bytes.

Local Open Scope list_scope.

Definition to_Z (b : byte) : Z := Z.of_N (Byte.to_N b).

(** [bytes([z])[0]] for [0 <= z <= 255]. *)
Definition of_Z (z : Z) : byte := default x00 (Byte.of_N (Z.to_N z)).

Definition len {A} (l : list A) : Z := Z.of_nat (length l).

(** [struct.pack('>I', v)]: [struct.error] ([None]) outside [0, 2^32). *)
Definition pack_I (v : Z) : option (list byte) :=
  if (0 <=? v) && (v <? 2 ^ 32) then
    Some [of_Z (Z.land (Z.shiftr v 24) 255); of_Z (Z.land (Z.shiftr v 16) 255);
          of_Z (Z.land (Z.shiftr v 8) 255); of_Z (Z.land v 255)]
  else None.

(** [struct.pack('>IIII', a, b, c, d)] *)
Definition pack_IIII (a b c d : Z) : option (list byte) :=
  match pack_I a, pack_I b, pack_I c, pack_I d with
  | Some a', Some b', Some c', Some d' => Some (a' ++ b' ++ c' ++ d')
  | _, _, _, _ => None
  end.

Definition unpack_I (b0 b1 b2 b3 : byte) : Z :=
  Z.lor (Z.shiftl (to_Z b0) 24)
    (Z.lor (Z.shiftl (to_Z b1) 16) (Z.lor (Z.shiftl (to_Z b2) 8) (to_Z b3))).

(** [struct.unpack('>IIII', header)]: [struct.error] unless [header] has
    exactly 16 bytes. *)
Definition unpack_IIII (header : list byte) : option (Z * Z * Z * Z) :=
  match header with
  | [a0; a1; a2; a3; b0; b1; b2; b3; c0; c1; c2; c3; d0; d1; d2; d3] =>
      Some (unpack_I a0 a1 a2 a3, unpack_I b0 b1 b2 b3,
            unpack_I c0 c1 c2 c3, unpack_I d0 d1 d2 d3)
  | _ => None
  end.

(** [bytes.decode('ascii', errors='ignore')]: bytes above 127 are
    dropped. *)
Definition decode_ascii_ignore (bs : list byte) : string :=
  string_of_list_byte (List.filter (fun b => to_Z b <? 128) bs).

(** [str.encode('ascii')]: [UnicodeEncodeError] ([None]) on a character
    above 127. *)
Definition encode_ascii (s : string) : option (list byte) :=
  let bs := list_byte_of_string s in
  if forallb (fun b => to_Z b <? 128) bs then Some bs else None.

(** [body.split(b'\x00')] *)
Fixpoint split_nul (body : list byte) : list (list byte) :=
  match body with
  | [] => [[]]
  | b :: rest =>
      if Byte.eqb b x00 then [] :: split_nul rest
      else match split_nul rest with
           | field :: fields => (b :: field) :: fields
           | [] => [[b]]
           end
  end.

(** Position of the first NUL of a list, if any. *)
Fixpoint index_nul (l : list byte) : option Z :=
  match l with
  | [] => None
  | b :: rest =>
      if Byte.eqb b x00 then Some 0
      else option_map Z.succ (index_nul rest)
  end.

(** Python's clamping of a slice bound. *)
Definition clamp {A} (l : list A) (i : Z) : Z :=
  if i <? 0 then Z.max 0 (len l + i) else Z.min i (len l).

(** [body.find(b'\x00', start)]: the lowest index at or after [start]
    holding a NUL, or [-1]. *)
Definition find_nul (body : list byte) (start : Z) : Z :=
  let start := clamp body start in
  match index_nul (skipn (Z.to_nat start) body) with
  | Some k => start + k
  | None => -1
  end.

(** [body[a:b]], negative bounds counted from the end. *)
Definition py_slice {A} (l : list A) (a b : Z) : list A :=
  let a := clamp l a in
  let b := clamp l b in
  firstn (Z.to_nat (b - a)) (skipn (Z.to_nat a) l).

(** [body[i]]: [IndexError] ([None]) out of range. *)
Definition py_index (l : list byte) (i : Z) : option Z :=
  let i := if i <? 0 then len l + i else i in
  if (0 <=? i) && (i <? len l) then
    option_map to_Z (nth_error l (Z.to_nat i))
  else None.

(** [await reader.readexactly(n)] on the bytes the peer still sends
    before end of stream: the first [n] bytes and what remains, or
    [IncompleteReadError] ([None]) when fewer than [n] arrive. *)
Definition readexactly (n : Z) (stream : list byte)
  : option (list byte * list byte) :=
  if n <=? len stream then
    Some (firstn (Z.to_nat n) stream, skipn (Z.to_nat n) stream)
  else None.

End Bytes.

(* ===================================================================== *)
(** * src/config.py                                                       *)
(* ===================================================================== *)

(** The fields of [Settings] the embedded code reads. *)
Record Settings : Type := mk_settings {
  smpp_system_id : string;
  smpp_password : string;
  hlr_timeout_policy : string
}.

(** The defaults of src/config.py. *)
Definition default_settings : Settings :=
  {| smpp_system_id := "testuser";
     smpp_password := "testpass";
     hlr_timeout_policy := "reject" |}.

(* ===================================================================== *)
(** * src/smpp/handler.py                                                 *)
(* ===================================================================== *)

Module SubmitSMHandler.

Definition ESME_ROK : Z := 0x00000000.
Definition ESME_RINVDSTADR : Z := 0x0000000B.
Definition ESME_RSYSERR : Z := 0x00000008.

(** The dict [handle_submit_sm] returns:
    [{"command_status": ..., "message_id": ...}], where [message_id] is
    [None] or a [str]. *)
Record submit_result : Type := mk_result {
  command_status : Z;
  message_id : option string
}.

(** The coroutine [_send_DELIVRD_dlr(message_id, destination_addr,
    source_addr, hlr_result)] handed to [asyncio.create_task]. *)
Record dlr_task : Type := mk_task {
  task_message_id : string;
  task_destination_addr : string;
  task_source_addr : string;
  task_hlr_result : gmap string pyval
}.

(** [handle_submit_sm].  The first component is the returned value
    ([None] when the function falls off its end, which Python turns into
    a returned [None]); the second lists the tasks created by
    [asyncio.create_task], in order.

    [hlr_result.get(...)] on a value that is not a dict raises
    [AttributeError] inside the [try], which the [except Exception]
    clause catches. *)
Definition handle_submit_sm (settings : Settings) (rnd : Z)
    (lookup : lookup_outcome) (source_addr destination_addr : string)
    (short_message : list byte)
  : option submit_result * list dlr_task :=
  let message_id := generate_message_id rnd in
  let on_exception :=
    (Some {| command_status := ESME_RSYSERR; message_id := None |}, []) in
  match lookup with
  | Returned (PDict hlr_result) =>
      let classification := Py.get hlr_result "classification" (PStr "invalid") in
      if eq_str classification "valid" then
        (Some {| command_status := ESME_RINVDSTADR; message_id := None |}, [])
      else
        (Some {| command_status := ESME_ROK; message_id := Some message_id |},
         [ {| task_message_id := message_id;
              task_destination_addr := destination_addr;
              task_source_addr := source_addr;
              task_hlr_result := hlr_result |} ])
  | Returned _ => on_exception
  | RaisedTimeout =>
      if String.eqb (hlr_timeout_policy settings) "reject" then
        (Some {| command_status := ESME_RSYSERR; message_id := None |}, [])
      else (None, [])
  | RaisedError => on_exception
  end.

(** The [client_connection] the handler is built with: any object with
    a [send_deliver_sm(source_addr, destination_addr, short_message)]
    coroutine.  [C] is the state of that object. *)
Class Connection (C : Type) : Type := {
  send_deliver_sm : C -> string -> string -> list byte -> C
}.

(** [_send_DELIVRD_dlr], run by the event loop once the task's sleep is
    over.  [now1], [now2] are the clock readings of [build_dlr_text].
    An exception before the send ([TypeError] of [get_reason],
    [UnicodeEncodeError] of [encode]) is caught and logged by the
    [except Exception] clause: the connection is left as it was. *)
Definition _send_DELIVRD_dlr {C} `{Connection C}
    (task : dlr_task) (now1 now2 : datetime) (connection : C) : C :=
  let error_code := get_error_code_from_hlr (task_hlr_result task) in
  let dlr_text :=
    build_dlr_text (task_message_id task) "DELIVRD" error_code None None now1 now2 in
  match get_reason (task_hlr_result task) with
  | None => connection
  | Some reason =>
      match Bytes.encode_ascii dlr_text with
      | None => connection
      | Some short_message =>
          send_deliver_sm connection
            (task_destination_addr task) (task_source_addr task) short_message
      end
  end.

End SubmitSMHandler.

Import SubmitSMHandler.


(* ===================================================================== *)
(** * src/smpp/server.py                                                  *)
(* ===================================================================== *)

Module SMPPSession.

Import Bytes.
Local Open Scope list_scope.

Definition SMPP_CMD_BIND_TRANSMITTER : Z := 0x00000001.
Definition SMPP_CMD_BIND_TRANSMITTER_RESP : Z := 0x80000001.
Definition SMPP_CMD_BIND_RECEIVER : Z := 0x00000002.
Definition SMPP_CMD_BIND_RECEIVER_RESP : Z := 0x80000002.
Definition SMPP_CMD_BIND_TRANSCEIVER : Z := 0x00000009.
Definition SMPP_CMD_BIND_TRANSCEIVER_RESP : Z := 0x80000009.
Definition SMPP_CMD_UNBIND : Z := 0x00000006.
Definition SMPP_CMD_UNBIND_RESP : Z := 0x80000006.
Definition SMPP_CMD_SUBMIT_SM : Z := 0x00000004.
Definition SMPP_CMD_SUBMIT_SM_RESP : Z := 0x80000004.
Definition SMPP_CMD_ENQUIRE_LINK : Z := 0x00000015.
Definition SMPP_CMD_ENQUIRE_LINK_RESP : Z := 0x80000015.

Definition SMPP_ESME_RINVBNDSTS : Z := 0x00000004.
Definition SMPP_ESME_RINVPASWD : Z := 0x0000000E.
Definition SMPP_CMD_DELIVER_SM : Z := 0x00000005.
Definition SMPP_CMD_DELIVER_SM_RESP : Z := 0x80000005.

(** The fields of an [SMPPSession] that change, the bytes handed to
    [self.writer.write] so far (oldest first), and the DLR tasks of this
    session that [asyncio.create_task] has been given. *)
Record session : Type := mk_session {
  authenticated : bool;
  system_id : option string;
  sequence_number : Z;
  written : list byte;
  tasks : list dlr_task
}.

(** [SMPPSession.__init__] *)
Definition init : session :=
  {| authenticated := false; system_id := None; sequence_number := 1;
     written := []; tasks := [] |}.

(** How a method ends: by returning or by an exception that leaves it. *)
Inductive completion : Type := Normal | Raised.

Definition write (st : session) (data : list byte) : session :=
  {| authenticated := authenticated st; system_id := system_id st;
     sequence_number := sequence_number st;
     written := written st ++ data; tasks := tasks st |}.

(** [_send_response]: one [writer.write(header + body)]; the bounded
    [drain()] that follows for large bodies only waits.  [struct.error]
    leaves the method before anything is written. *)
Definition _send_response (st : session)
    (command_id command_status sequence : Z) (body : list byte)
  : session * completion :=
  let command_length := 16 + len body in
  match pack_IIII command_length command_id command_status sequence with
  | Some header => (write st (header ++ body), Normal)
  | None => (st, Raised)
  end.

(** [_send_error_response] *)
Definition _send_error_response (st : session)
    (command_id error_code sequence : Z) : session * completion :=
  _send_response st command_id error_code sequence [].

(** [_parse_bind_body] *)
Definition _parse_bind_body (body : list byte) : string * string :=
  let fields := split_nul body in
  let system_id :=
    match fields with
    | f0 :: _ => decode_ascii_ignore f0
    | [] => ""%string
    end in
  let password :=
    match fields with
    | _ :: f1 :: _ => decode_ascii_ignore f1
    | _ => ""%string
    end in
  (system_id, password).

(** [_handle_bind] *)
Definition _handle_bind (settings : Settings) (st : session)
    (body : list byte) (sequence resp_cmd : Z) : session * completion :=
  let '(sid, password) := _parse_bind_body body in
  if String.eqb sid (smpp_system_id settings)
     && String.eqb password (smpp_password settings) then
    let st := {| authenticated := true; system_id := Some sid;
                 sequence_number := sequence_number st;
                 written := written st; tasks := tasks st |} in
    _send_response st resp_cmd 0 sequence
      (list_byte_of_string "SMPPGateway" ++ [x00])
  else
    _send_error_response st resp_cmd SMPP_ESME_RINVPASWD sequence.

(** [_handle_unbind]: the flag is cleared after the response is sent,
    so not at all when sending raises. *)
Definition _handle_unbind (st : session) (sequence : Z)
  : session * completion :=
  match _send_response st SMPP_CMD_UNBIND_RESP 0 sequence [] with
  | (st, Normal) =>
      ({| authenticated := false; system_id := system_id st;
          sequence_number := sequence_number st;
          written := written st; tasks := tasks st |}, Normal)
  | (st, Raised) => (st, Raised)
  end.

(** [_handle_enquire_link]: the header is packed and written directly. *)
Definition _handle_enquire_link (st : session) (sequence : Z)
  : session * completion :=
  match pack_IIII 16 SMPP_CMD_ENQUIRE_LINK_RESP 0 sequence with
  | Some header => (write st header, Normal)
  | None => (st, Raised)
  end.

(** The dict [_parse_submit_sm] returns. *)
Record parsed_submit_sm : Type := mk_parsed {
  source_addr : string;
  destination_addr : string;
  short_message : list byte
}.

(** [_parse_submit_sm].  A missing NUL makes [find] return [-1], which
    the source then uses as an offset and as a slice bound; [body[offset]]
    raises [IndexError] ([None]) past the end. *)
Definition _parse_submit_sm (body : list byte) : option parsed_submit_sm :=
  let offset := 0 in
  let service_type_end := find_nul body offset in
  let offset := service_type_end + 1 in
  let offset := offset + 2 in
  let source_addr_end := find_nul body offset in
  let source_addr := decode_ascii_ignore (py_slice body offset source_addr_end) in
  let offset := source_addr_end + 1 in
  let offset := offset + 2 in
  let dest_addr_end := find_nul body offset in
  let destination_addr := decode_ascii_ignore (py_slice body offset dest_addr_end) in
  let offset := dest_addr_end + 1 in
  let offset := offset + 3 in
  let schedule_end := find_nul body offset in
  let offset := schedule_end + 1 in
  let validity_end := find_nul body offset in
  let offset := validity_end + 1 in
  let offset := offset + 4 in
  match py_index body offset with
  | None => None
  | Some sm_length =>
      let offset := offset + 1 in
      let short_message := py_slice body offset (offset + sm_length) in
      Some {| source_addr := source_addr;
              destination_addr := destination_addr;
              short_message := short_message |}
  end.

(** What a SubmitSM needs from outside the session: the outcome of the
    HLR lookup for a destination and the random bytes of [uuid4]. *)
Record submit_env : Type := mk_env {
  env_lookup : string -> lookup_outcome;
  env_urandom : Z
}.

(** [_handle_submit_sm].  The tasks the handler created stay scheduled
    whatever happens afterwards.  [result['command_status']] on a
    returned [None] raises [TypeError]. *)
Definition _handle_submit_sm (settings : Settings) (env : submit_env)
    (st : session) (body : list byte) (sequence : Z) : session * completion :=
  match _parse_submit_sm body with
  | None => (st, Raised)
  | Some parsed =>
      let '(result, created) :=
        handle_submit_sm settings (env_urandom env)
          (env_lookup env (destination_addr parsed))
          (source_addr parsed) (destination_addr parsed) (short_message parsed) in
      let st := {| authenticated := authenticated st; system_id := system_id st;
                   sequence_number := sequence_number st;
                   written := written st; tasks := tasks st ++ created |} in
      match result with
      | None => (st, Raised)
      | Some result =>
          let command_status := command_status result in
          let resp_body :=
            match message_id result with
            | Some (String c s as mid) =>
                option_map (fun b => b ++ [x00]) (encode_ascii mid)
            | Some EmptyString | None => Some [x00]
            end in
          match resp_body with
          | None => (st, Raised)
          | Some resp_body =>
              _send_response st SMPP_CMD_SUBMIT_SM_RESP command_status
                sequence resp_body
          end
      end
  end.

(** [_process_pdu] *)
Definition _process_pdu (settings : Settings) (env : submit_env)
    (st : session) (command_id command_status sequence : Z)
    (body : list byte) : session * completion :=
  if command_id =? SMPP_CMD_BIND_TRANSMITTER then
    _handle_bind settings st body sequence SMPP_CMD_BIND_TRANSMITTER_RESP
  else if command_id =? SMPP_CMD_BIND_RECEIVER then
    _handle_bind settings st body sequence SMPP_CMD_BIND_RECEIVER_RESP
  else if command_id =? SMPP_CMD_BIND_TRANSCEIVER then
    _handle_bind settings st body sequence SMPP_CMD_BIND_TRANSCEIVER_RESP
  else if command_id =? SMPP_CMD_UNBIND then
    _handle_unbind st sequence
  else if command_id =? SMPP_CMD_SUBMIT_SM then
    if authenticated st then
      _handle_submit_sm settings env st body sequence
    else
      _send_error_response st SMPP_CMD_SUBMIT_SM_RESP SMPP_ESME_RINVBNDSTS sequence
  else if command_id =? SMPP_CMD_ENQUIRE_LINK then
    _handle_enquire_link st sequence
  else if command_id =? SMPP_CMD_DELIVER_SM_RESP then
    (st, Normal)
  else
    (st, Normal).

(** The part of the loop body of [run] that reads one PDU:
<<
    header = await self.reader.readexactly(16)
    if not header: break
    command_length, command_id, command_status, sequence =
        struct.unpack('>IIII', header)
    body_length = command_length - 16
    body = b''
    if body_length > 0:
        body = await self.reader.readexactly(body_length)
>>
    [stream] is what the peer sends before it closes its side. *)
Inductive read_result : Type :=
| Pdu (command_length command_id command_status sequence : Z)
      (body rest : list byte)
| IncompleteRead
| EmptyHeader
| UnpackError.

Definition read_pdu (stream : list byte) : read_result :=
  match readexactly 16 stream with
  | None => IncompleteRead
  | Some ([], _) => EmptyHeader
  | Some (header, rest) =>
      match unpack_IIII header with
      | None => UnpackError
      | Some (command_length, command_id, command_status, sequence) =>
          let body_length := command_length - 16 in
          if body_length >? 0 then
            match readexactly body_length rest with
            | None => IncompleteRead
            | Some (body, rest) =>
                Pdu command_length command_id command_status sequence body rest
            end
          else
            Pdu command_length command_id command_status sequence [] rest
      end
  end.

(** One turn of the [while True] of [run]: every way of not getting a
    PDU, and every exception of [_process_pdu], ends in [break]. *)
Inductive turn : Type :=
| Continue (st : session) (rest : list byte)
| Break (st : session).

Definition run_turn (settings : Settings) (env : submit_env)
    (st : session) (stream : list byte) : turn :=
  match read_pdu stream with
  | Pdu _ command_id command_status sequence body rest =>
      match _process_pdu settings env st command_id command_status sequence body with
      | (st, Normal) => Continue st rest
      | (st, Raised) => Break st
      end
  | IncompleteRead | EmptyHeader | UnpackError => Break st
  end.

(** The loop of [run], by turns; [envs n] is the outside world as the
    [n]-th PDU of the session sees it.  [None] only when [fuel] runs
    out.  This is the loop on its own: the DLR tasks it creates are
    listed in [tasks] and not run; [event_loop] below runs them between
    the turns. *)
Fixpoint run_loop (fuel : nat) (settings : Settings)
    (envs : nat -> submit_env) (n : nat) (st : session)
    (stream : list byte) : option session :=
  match fuel with
  | O => None
  | S fuel =>
      match run_turn settings (envs n) st stream with
      | Break st => Some st
      | Continue st rest => run_loop fuel settings envs (S n) st rest
      end
  end.

(** [run]: the state of the session when the loop is left, after which
    [_handle_client] closes the writer.  Every turn that continues has
    taken at least the 16 bytes of a header off the stream, so
    [length stream + 1] turns are enough. *)
Definition run (settings : Settings) (envs : nat -> submit_env)
    (st : session) (stream : list byte) : option session :=
  run_loop (S (length stream)) settings envs 0 st stream.

(** The body of a DeliverSM as [send_deliver_sm] lays it out, up to the
    length octet; [bytes([sm_len])] raises [ValueError] ([None]) above
    255. *)
Definition deliver_sm_body (source_addr destination_addr : list byte)
    (short_message : list byte) : option (list byte) :=
  let sm_len := len short_message in
  if sm_len <=? 255 then
    Some ([x00] ++ [of_Z 1; of_Z 1] ++ source_addr ++ [x00] ++
          [of_Z 1; of_Z 1] ++ destination_addr ++ [x00] ++
          [of_Z 0x04] ++ [of_Z 0; of_Z 0] ++ [x00] ++ [x00] ++
          [of_Z 1; of_Z 0] ++ [of_Z 0] ++ [of_Z 0] ++
          [of_Z sm_len] ++ short_message)
  else None.

(** [send_deliver_sm].  Everything after the [authenticated] test is
    inside [try ... except Exception], so the method always returns;
    the sequence number is taken before the PDU is packed. *)
Definition send_deliver_sm (st : session)
    (source_addr destination_addr : string) (short_message : list byte)
  : session :=
  if negb (authenticated st) then st
  else
    match encode_ascii source_addr, encode_ascii destination_addr with
    | Some src, Some dst =>
        match deliver_sm_body src dst short_message with
        | None => st
        | Some body =>
            let sequence := sequence_number st in
            let st := {| authenticated := authenticated st;
                         system_id := system_id st;
                         sequence_number := sequence_number st + 1;
                         written := written st; tasks := tasks st |} in
            fst (_send_response st SMPP_CMD_DELIVER_SM 0 sequence body)
        end
    | _, _ => st
    end.

#[export] Instance session_connection : Connection session :=
  {| SubmitSMHandler.send_deliver_sm := send_deliver_sm |}.

(** A DLR task the event loop resumes once its sleep is over: its place
    among the tasks of the session that have not run yet, and the two
    clock readings of its [build_dlr_text]. *)
Record wakeup : Type := mk_wakeup {
  wake_task : nat;
  wake_now1 : datetime;
  wake_now2 : datetime
}.

(** The event loop runs one pending task.  From the end of its sleep to
    the [writer.write] of [send_deliver_sm] the task does not await, so
    what it does to the session is one step; a place that holds no task
    resumes nothing. *)
Definition run_task (w : wakeup) (st : session) (pending : list dlr_task)
  : session * list dlr_task :=
  match pending !! wake_task w with
  | Some task =>
      (_send_DELIVRD_dlr task (wake_now1 w) (wake_now2 w) st,
       delete (wake_task w) pending)
  | None => (st, pending)
  end.

Fixpoint run_tasks (ws : list wakeup) (st : session) (pending : list dlr_task)
  : session * list dlr_task :=
  match ws with
  | [] => (st, pending)
  | w :: ws =>
      let '(st, pending) := run_task w st pending in
      run_tasks ws st pending
  end.

(** The tasks a turn has created. *)
Definition created (before after : session) : list dlr_task :=
  drop (length (tasks before)) (tasks after).

(** [run] inside the event loop.  While a turn awaits (the two
    [readexactly], the HLR lookup of a SubmitSM) the event loop resumes
    the tasks [ready n], in that order; the turn changes the session
    only after its last await (no response of the session is drained),
    and before it reads nothing a task changes, so the tasks come first
    and the turn second.  A task created in a turn can run from the next
    await on.  The result is the session when the loop is left, with
    the tasks still pending. *)
Fixpoint event_loop (fuel : nat) (settings : Settings)
    (envs : nat -> submit_env) (ready : nat -> list wakeup) (n : nat)
    (st : session) (pending : list dlr_task) (stream : list byte)
  : option (session * list dlr_task) :=
  match fuel with
  | O => None
  | S fuel =>
      let '(st, pending) := run_tasks (ready n) st pending in
      match run_turn settings (envs n) st stream with
      | Break st' => Some (st', pending ++ created st st')
      | Continue st' rest =>
          event_loop fuel settings envs ready (S n) st'
            (pending ++ created st st') rest
      end
  end.

Definition run_in_event_loop (settings : Settings)
    (envs : nat -> submit_env) (ready : nat -> list wakeup)
    (st : session) (pending : list dlr_task) (stream : list byte)
  : option (session * list dlr_task) :=
  event_loop (S (length stream)) settings envs ready 0 st pending stream.

End SMPPSession.

(* ===================================================================== *)
(** * examples/test_client.py: the PDUs a peer sends                      *)
(* ===================================================================== *)

Module SimpleSmppClient.

Import Bytes.
Local Open Scope list_scope.

(** [_send_pdu]: header with [command_status = 0], then the body. *)
Definition pdu (command_id sequence : Z) (body : list byte) : list byte :=
  default [] (pack_IIII (16 + len body) command_id 0 sequence) ++ body.

(** The body [bind_transmitter] builds. *)
Definition bind_body (system_id password : string) : list byte :=
  list_byte_of_string system_id ++ [x00] ++
  list_byte_of_string password ++ [x00] ++ repeat x00 10.

(** The body [submit_sm] builds. *)
Definition submit_sm_body (source destination : string) (message : list byte)
  : list byte :=
  [x00] ++ [x01] ++ [x01] ++ list_byte_of_string source ++ [x00] ++
  [x01] ++ [x01] ++ list_byte_of_string destination ++ [x00] ++
  repeat x00 9 ++ [of_Z (len message)] ++ message.

End SimpleSmppClient.

(* ===================================================================== *)
(** * Regular expressions, for the DLR text format of the specification   *)
(* ===================================================================== *)

Module Regex.

Local Open Scope list_scope.

Inductive regex : Type :=
| Empty                                  (* matches nothing *)
| Eps                                    (* the empty string *)
| Class (p : ascii -> bool)              (* one character satisfying [p] *)
| Cat (r1 r2 : regex)
| Alt (r1 r2 : regex)
| Star (r : regex).

(** The language of a regular expression; [^...$] asks for the whole
    string to be in it. *)
Inductive matches : regex -> list ascii -> Prop :=
| MEps : matches Eps []
| MClass p c : p c = true -> matches (Class p) [c]
| MCat r1 r2 s1 s2 :
    matches r1 s1 -> matches r2 s2 -> matches (Cat r1 r2) (s1 ++ s2)
| MAltL r1 r2 s : matches r1 s -> matches (Alt r1 r2) s
| MAltR r1 r2 s : matches r2 s -> matches (Alt r1 r2) s
| MStarNil r : matches (Star r) []
| MStarCons r s1 s2 :
    matches r s1 -> matches (Star r) s2 -> matches (Star r) (s1 ++ s2).

(** A matcher by derivatives. *)
Fixpoint nullable (r : regex) : bool :=
  match r with
  | Empty => false
  | Eps => true
  | Class _ => false
  | Cat r1 r2 => nullable r1 && nullable r2
  | Alt r1 r2 => nullable r1 || nullable r2
  | Star _ => true
  end.

Fixpoint derive (c : ascii) (r : regex) : regex :=
  match r with
  | Empty => Empty
  | Eps => Empty
  | Class p => if p c then Eps else Empty
  | Cat r1 r2 =>
      if nullable r1 then Alt (Cat (derive c r1) r2) (derive c r2)
      else Cat (derive c r1) r2
  | Alt r1 r2 => Alt (derive c r1) (derive c r2)
  | Star r => Cat (derive c r) (Star r)
  end.

Fixpoint re_match (r : regex) (s : list ascii) : bool :=
  match s with
  | [] => nullable r
  | c :: s => re_match (derive c r) s
  end.

(** Derived forms. *)
Definition Chr (c : ascii) : regex := Class (Ascii.eqb c).

Fixpoint Lit (s : list ascii) : regex :=
  match s with
  | [] => Eps
  | c :: s => Cat (Chr c) (Lit s)
  end.

Definition Plus (r : regex) : regex := Cat r (Star r).

Fixpoint Rep (n : nat) (r : regex) : regex :=
  match n with
  | O => Eps
  | S n => Cat r (Rep n r)
  end.

(** Python's [\s] on a [str], for the characters below 256: the ASCII
    white space, the separators 0x1c-0x1f, NEL and the no-break space. *)
Definition is_space (c : ascii) : bool :=
  let n := nat_of_ascii c in
  ((9 <=? n) && (n <=? 13) || (28 <=? n) && (n <=? 32) ||
   (n =? 133) || (n =? 160))%nat.

(** [\S] *)
Definition non_space (c : ascii) : bool := negb (is_space c).

(** [\d] (below 256 the only decimal digits are 0-9). *)
Definition is_digit (c : ascii) : bool :=
  let n := nat_of_ascii c in ((48 <=? n) && (n <=? 57))%nat.

Definition lit (s : string) : regex := Lit (list_ascii_of_string s).

(** [^id:\S+ sub:001 dlvrd:000 submit date:\d{10} done date:\d{10} stat:DELIVRD err:000 text:$] *)
Definition dlr_regex : regex :=
  Cat (lit "id:")
   (Cat (Plus (Class non_space))
    (Cat (lit " sub:001 dlvrd:000 submit date:")
     (Cat (Rep 10 (Class is_digit))
      (Cat (lit " done date:")
       (Cat (Rep 10 (Class is_digit))
        (lit " stat:DELIVRD err:000 text:")))))).

(** [re.match(dlr_regex, text)] succeeds. *)
Definition matches_dlr_regex (text : string) : bool :=
  re_match dlr_regex (list_ascii_of_string text).

End Regex.

Import SMPPSession.
Import Regex.

(* ===================================================================== *)
(** * main.py                                                             *)
(* ===================================================================== *)

Module Application.

(** The loop of [_warmup_cache] over the rows [get_recent_lookups]
    returned, each a pair of [lookup['msisdn']] and
    [lookup['hlr_response']]: a row whose response is not a dict is
    skipped, every other one is given to [cache.set].  [calls n] is
    what surrounds the Redis command of row [n]. *)
Fixpoint warmup_rows (ttl : Z) (calls : nat -> redis_call) (n : nat)
    (redis : option (gmap string entry)) (lookups : list (string * pyval))
  : option (gmap string entry) :=
  match lookups with
  | [] => redis
  | lookup :: rest =>
      let redis :=
        match snd lookup with
        | PDict _ => cache_set ttl redis (calls n) (fst lookup) (snd lookup)
        | _ => redis
        end in
      warmup_rows ttl calls (S n) redis rest
  end.

Definition _warmup_cache (ttl : Z) (redis : option (gmap string entry))
    (calls : nat -> redis_call) (lookups : list (string * pyval))
  : option (gmap string entry) :=
  warmup_rows ttl calls 0 redis lookups.

End Application.

(* ===================================================================== *)
(** * Vocabulary of the statements                                        *)
(* ===================================================================== *)

Module Vocabulary.

Import Bytes.
Local Open Scope list_scope.

(** "The record's field [k] equals 0": the field is there and its value
    compares equal to [0]. *)
Definition field_equals_zero (result : gmap string pyval) (k : string) : Prop :=
  exists v, result !! k = Some v /\ eq_int v 0 = true.

(** The task [handle_submit_sm] creates when it accepts. *)
Definition accepted_task (rnd : Z) (source_addr destination_addr : string)
    (hlr_result : gmap string pyval) : dlr_task :=
  {| task_message_id := generate_message_id rnd;
     task_destination_addr := destination_addr;
     task_source_addr := source_addr;
     task_hlr_result := hlr_result |}.

(** The two shapes of what [handle_submit_sm] returns and creates. *)
Definition rejected (status : Z) : option submit_result * list dlr_task :=
  (Some {| command_status := status; message_id := None |}, []).

Definition accepted (rnd : Z) (source_addr destination_addr : string)
    (hlr_result : gmap string pyval) : option submit_result * list dlr_task :=
  (Some {| command_status := ESME_ROK;
           message_id := Some (generate_message_id rnd) |},
   [accepted_task rnd source_addr destination_addr hlr_result]).

(** The characters of a message id: lower-case hexadecimal digits and
    the hyphen. *)
Definition uuid_alphabet : list ascii := hex_alphabet ++ ["-"%char].

(** The response command of a bind is the request with the top bit set. *)
Definition bind_response (command_id : Z) : Z := command_id + 0x80000000.

Definition is_bind (command_id : Z) : Prop :=
  command_id = SMPP_CMD_BIND_TRANSMITTER \/
  command_id = SMPP_CMD_BIND_RECEIVER \/
  command_id = SMPP_CMD_BIND_TRANSCEIVER.

(** The test of [_handle_bind]. *)
Definition credentials_match (settings : Settings) (body : list byte) : bool :=
  String.eqb (fst (_parse_bind_body body)) (smpp_system_id settings) &&
  String.eqb (snd (_parse_bind_body body)) (smpp_password settings).

(** A world in which no SubmitSM is looked up successfully, for streams
    that hold no SubmitSM. *)
Definition quiet_env : submit_env :=
  {| env_lookup := fun _ => RaisedError; env_urandom := 0 |}.

(** A header-only response, and the response to a successful
    BIND_TRANSMITTER, as bytes. *)
Definition response (command_id command_status sequence : Z) : list byte :=
  default [] (pack_IIII 16 command_id command_status sequence).

Definition bind_ok_response (sequence : Z) : list byte :=
  default [] (pack_IIII 28 SMPP_CMD_BIND_TRANSMITTER_RESP 0 sequence) ++
  list_byte_of_string "SMPPGateway" ++ [x00].

(** The lookup results of tests/test_handler_logic.py. *)
Definition valid_record : gmap string pyval :=
  <["error" := PInt 0]>
    (<["status" := PInt 0]>
       (<["present" := PStr "yes"]>
          (<["classification" := PStr "valid"]> ∅))).

Definition invalid_record : gmap string pyval :=
  <["error" := PInt 1]>
    (<["status" := PInt 1]>
       (<["status_message" := PStr "Invalid Number"]>
          (<["classification" := PStr "invalid"]> ∅))).

(** A world whose HLR answers every lookup with [invalid_record], and
    one that answers with [valid_record]. *)
Definition invalid_env : submit_env :=
  {| env_lookup := fun _ => Returned (PDict invalid_record); env_urandom := 0 |}.

Definition valid_env : submit_env :=
  {| env_lookup := fun _ => Returned (PDict valid_record); env_urandom := 0 |}.

(** A DELIVER_SM as bytes, for addresses and a text that encode. *)
Definition deliver_sm (sequence : Z) (source_addr destination_addr : string)
    (text : string) : list byte :=
  let body :=
    default [] (deliver_sm_body (list_byte_of_string source_addr)
                  (list_byte_of_string destination_addr)
                  (list_byte_of_string text)) in
  default [] (pack_IIII (16 + len body) SMPP_CMD_DELIVER_SM 0 sequence) ++ body.

(** A SUBMIT_SM_RESP as bytes. *)
Definition submit_sm_resp (command_status sequence : Z) (body : list byte)
  : list byte :=
  default [] (pack_IIII (16 + len body) SMPP_CMD_SUBMIT_SM_RESP
                command_status sequence) ++ body.

(** A session bound as "testuser" that has written nothing yet. *)
Definition bound_session : session :=
  {| authenticated := true; system_id := Some "testuser";
     sequence_number := 1; written := []; tasks := [] |}.

End Vocabulary.

Import Vocabulary.

Module Predicates.

Import Bytes.
Local Open Scope list_scope.

(** Bytes that can stand in a C string: none of them is NUL. *)
Definition nul_free (bs : list byte) : Prop := Forall (fun b => b <> x00) bs.

(** Bytes that [decode('ascii', errors='ignore')] keeps. *)
Definition ascii_bytes (bs : list byte) : Prop :=
  Forall (fun b => to_Z b < 128) bs.

(** A [str] made of ASCII characters other than NUL. *)
Definition c_string (s : string) : Prop :=
  nul_free (list_byte_of_string s) /\ ascii_bytes (list_byte_of_string s).

(** Values Python orders against an [int]. *)
Definition is_number (v : pyval) : bool :=
  match v with
  | PBool _ | PInt _ | PFloat _ => true
  | PNone | PStr _ | PList _ | PDict _ => false
  end.

(** The command ids [_process_pdu] has a branch for. *)
Definition handled_command (command_id : Z) : bool :=
  (command_id =? SMPP_CMD_BIND_TRANSMITTER) ||
  (command_id =? SMPP_CMD_BIND_RECEIVER) ||
  (command_id =? SMPP_CMD_BIND_TRANSCEIVER) ||
  (command_id =? SMPP_CMD_UNBIND) ||
  (command_id =? SMPP_CMD_SUBMIT_SM) ||
  (command_id =? SMPP_CMD_ENQUIRE_LINK).

(** The entry a warmup leaves under a key: that of the last row, counted
    from [n], which is a dict for that key and whose [SETEX] came back. *)
Fixpoint last_warm (ttl : Z) (calls : nat -> redis_call) (n : nat)
    (lookups : list (string * pyval)) (key : string) : option entry :=
  match lookups with
  | [] => None
  | (msisdn, hlr_response) :: rest =>
      match last_warm ttl calls (S n) rest key with
      | Some e => Some e
      | None =>
          match hlr_response with
          | PDict _ =>
              if String.eqb (_make_key msisdn) key && call_ok (calls n)
              then Some {| entry_data := hlr_response;
                           entry_expires := call_now (calls n) + ttl |}
              else None
          | _ => None
          end
      end
  end.

(** A [GET] that finds a key expiring at [expires]: the command comes
    back, and the key is not gone yet. *)
Definition finds (call : redis_call) (expires : Z) : bool :=
  call_ok call && (call_now call <? expires).

(** A look at the cache that [lookup] takes for a miss: nothing comes
    back, or a value that is falsy. *)
Definition cache_miss (ttl : Z) (redis : option (gmap string entry))
    (call : redis_call) (msisdn : string) : Prop :=
  forall v, cache_get ttl redis call msisdn = Some v -> truthy v = false.

(** A SubmitSM-shaped body: what examples/test_client.py and
    [send_deliver_sm] both lay out, with empty service type, schedule
    and validity strings. *)
Definition sm_body (ton1 npi1 : byte) (source_addr : list byte)
    (ton2 npi2 : byte) (destination_addr : list byte)
    (esm_class protocol_id priority_flag : byte)
    (registered_delivery replace_if_present data_coding sm_default_msg_id : byte)
    (short_message tlvs : list byte) : list byte :=
  [x00] ++ [ton1; npi1] ++ source_addr ++ [x00] ++
  [ton2; npi2] ++ destination_addr ++ [x00] ++
  [esm_class; protocol_id; priority_flag] ++ [x00] ++ [x00] ++
  [registered_delivery; replace_if_present; data_coding; sm_default_msg_id] ++
  [of_Z (len short_message)] ++ short_message ++ tlvs.

(** [st'] is [st] with more bytes written and more tasks created, and
    the same sequence counter. *)
Definition extends (st st' : session) : Prop :=
  exists out new,
    written st' = written st ++ out /\
    tasks st' = tasks st ++ new /\
    sequence_number st' = sequence_number st.

(** A session that says it is authenticated carries the configured
    system id. *)
Definition bound_as_configured (settings : Settings) (st : session) : Prop :=
  authenticated st = true -> system_id st = Some (smpp_system_id settings).

End Predicates.

Import Predicates.

(* ===================================================================== *)
(** * Classification of HLR records                                       *)
(* ===================================================================== *)

Section Classification.

Implicit Types (result : gmap string pyval) (v : pyval).

Lemma classify_result_cases result :
  _classify_result result = "valid" \/ _classify_result result = "invalid".
Proof.
  unfold _classify_result.
  destruct (eq_int _ 0 && eq_int _ 0); [left | right]; reflexivity.
Qed.

Lemma classify_result_valid_bool result :
  _classify_result result = "valid" <->
  eq_int (Py.get result "error" (PInt 0)) 0 = true /\
  eq_int (Py.get result "status" (PInt 1)) 0 = true.
Proof.
  unfold _classify_result.
  destruct (eq_int (Py.get result "error" _) 0), (eq_int (Py.get result "status" _) 0);
    simpl; split; try tauto; try discriminate; intros [? ?]; discriminate.
Qed.

(** C2 (as stated, refuted): a record with [status = 0] and no [error]
    field is classified "valid" although its error field does not equal 0;
    and a record with [error = 0] and no [status] field is "invalid", so
    reading an absent field as 0 does not rescue the equivalence either. *)
Lemma classify_result_absent_fields :
  let only_status : gmap string pyval := {[ "status" := PInt 0 ]} in
  let only_error : gmap string pyval := {[ "error" := PInt 0 ]} in
  (_classify_result only_status = "valid" /\
   ~ field_equals_zero only_status "error") /\
  (_classify_result only_error = "invalid" /\
   only_error !! "status" = None) /\
  ~ (_classify_result only_status = "valid" <->
     field_equals_zero only_status "error" /\
     field_equals_zero only_status "status").
Proof.
  assert (Hne : ~ field_equals_zero ({[ "status" := PInt 0 ]} : gmap string pyval) "error").
  { intros [v [Hv _]]. vm_compute in Hv. discriminate. }
  cbv zeta. repeat split.
  - exact Hne.
  - intros [H _]. apply Hne, H. reflexivity.
Qed.

(** C2 (amended): [_classify_result] returns "valid" exactly when the
    error field is absent or equals 0 and the status field is present and
    equals 0; it returns "valid" or "invalid" on every record. *)
Theorem classify_result_valid_iff result :
  (_classify_result result = "valid" <->
     (result !! "error" = None \/ field_equals_zero result "error") /\
     field_equals_zero result "status") /\
  (_classify_result result = "valid" \/ _classify_result result = "invalid").
Proof.
  split; [| apply classify_result_cases].
  rewrite classify_result_valid_bool. unfold Py.get, field_equals_zero.
  destruct (result !! "error") as [e|], (result !! "status") as [s|]; simpl.
  - split.
    + intros [He Hs]. split; [right |]; eauto.
    + intros [[He | [v [Hv He]]] [w [Hw Hs]]]; [discriminate |].
      injection Hv as <-. injection Hw as <-. auto.
  - split.
    + intros [_ Hs]. discriminate.
    + intros [_ [w [Hw _]]]. discriminate.
  - split.
    + intros [_ Hs]. split; [left; reflexivity | eauto].
    + intros [_ [w [Hw Hs]]]. injection Hw as <-. auto.
  - split.
    + intros [_ Hs]. discriminate.
    + intros [_ [w [Hw _]]]. discriminate.
Qed.

End Classification.

(** C2 (amended), on the valid record of the tests and on a record
    that has a status but no error field. *)
Lemma classify_result_valid_iff_witness :
  _classify_result valid_record = "valid" /\
  _classify_result {[ "status" := PInt 0 ]} = "valid".
Proof.
  split.
  - apply (proj2 (proj1 (classify_result_valid_iff valid_record))).
    split; [right |]; exists (PInt 0); split; vm_compute; reflexivity.
  - apply (proj2 (proj1 (classify_result_valid_iff {[ "status" := PInt 0 ]}))).
    split; [left; vm_compute; reflexivity |].
    exists (PInt 0); split; vm_compute; reflexivity.
Defined.

(* ===================================================================== *)
(** * The submit pipeline: [handle_submit_sm]                             *)
(* ===================================================================== *)

Section SubmitPipeline.

Variables (settings : Settings) (rnd : Z).
Variables (source_addr destination_addr : string) (short_message : list byte).

Implicit Types (hlr_result : gmap string pyval).

Lemma handle_submit_sm_dict hlr_result :
  handle_submit_sm settings rnd (Returned (PDict hlr_result))
    source_addr destination_addr short_message =
  if eq_str (Py.get hlr_result "classification" (PStr "invalid")) "valid"
  then rejected ESME_RINVDSTADR
  else accepted rnd source_addr destination_addr hlr_result.
Proof. reflexivity. Qed.

(** C1: a lookup result classified "valid" is answered
    [ESME_RINVDSTADR] (0x0B) without message id and schedules no DLR
    task; one classified "invalid" is answered [ESME_ROK] (0x00) with the
    message id and schedules exactly one DLR task. *)
Theorem submit_valid_rejected_invalid_accepted hlr_result :
  (hlr_result !! "classification" = Some (PStr "valid") ->
   handle_submit_sm settings rnd (Returned (PDict hlr_result))
     source_addr destination_addr short_message =
   (Some {| command_status := 0x0B; message_id := None |}, [])) /\
  (hlr_result !! "classification" = Some (PStr "invalid") ->
   handle_submit_sm settings rnd (Returned (PDict hlr_result))
     source_addr destination_addr short_message =
   (Some {| command_status := 0x00;
            message_id := Some (generate_message_id rnd) |},
    [ {| task_message_id := generate_message_id rnd;
         task_destination_addr := destination_addr;
         task_source_addr := source_addr;
         task_hlr_result := hlr_result |} ])).
Proof.
  split; intros Hc; rewrite handle_submit_sm_dict; unfold Py.get;
    rewrite Hc; reflexivity.
Qed.

(** C3: when the lookup raises (a timeout under the policy "reject", or
    any other error) the answer is [ESME_RSYSERR] (0x08) without message
    id, and no DLR task is scheduled. *)
Theorem submit_lookup_error_rejected (outcome : lookup_outcome) :
  (outcome = RaisedTimeout /\ hlr_timeout_policy settings = "reject") \/
  outcome = RaisedError ->
  handle_submit_sm settings rnd outcome
    source_addr destination_addr short_message =
  (Some {| command_status := 0x08; message_id := None |}, []).
Proof.
  intros [[-> Hpolicy] | ->]; unfold handle_submit_sm; [rewrite Hpolicy |];
    reflexivity.
Qed.

(** C10: a lookup result without a "classification" key is treated as
    "invalid": [ESME_ROK] with the message id, and one DLR task. *)
Theorem submit_unclassified_accepted hlr_result :
  hlr_result !! "classification" = None ->
  handle_submit_sm settings rnd (Returned (PDict hlr_result))
    source_addr destination_addr short_message =
  (Some {| command_status := 0x00;
           message_id := Some (generate_message_id rnd) |},
   [ {| task_message_id := generate_message_id rnd;
        task_destination_addr := destination_addr;
        task_source_addr := source_addr;
        task_hlr_result := hlr_result |} ]).
Proof.
  intros Hc. rewrite handle_submit_sm_dict. unfold Py.get.
  rewrite Hc. reflexivity.
Qed.

(** Whatever the lookup does, at most one task is created, and one is
    created exactly when the answer is [ESME_ROK]. *)
Lemma handle_submit_sm_tasks (outcome : lookup_outcome) result created :
  handle_submit_sm settings rnd outcome
    source_addr destination_addr short_message = (result, created) ->
  (exists hlr_result,
     result = Some {| command_status := ESME_ROK;
                      message_id := Some (generate_message_id rnd) |} /\
     created = [accepted_task rnd source_addr destination_addr hlr_result]) \/
  (created = [] /\
   forall r, result = Some r ->
     command_status r <> ESME_ROK /\ message_id r = None).
Proof.
  unfold handle_submit_sm. intros H.
  destruct outcome as [v | |].
  - destruct v;
      try (injection H as <- <-; right; split; [reflexivity |];
           intros r [= <-]; split; [discriminate | reflexivity]).
    destruct (eq_str _ "valid"); injection H as <- <-.
    + right; split; [reflexivity |].
      intros r [= <-]; split; [discriminate | reflexivity].
    + left. eexists. split; reflexivity.
  - destruct (String.eqb _ "reject"); injection H as <- <-; right;
      (split; [reflexivity |]); intros r Hr; [| discriminate].
    injection Hr as <-. split; [discriminate | reflexivity].
  - injection H as <- <-; right; split; [reflexivity |].
    intros r [= <-]; split; [discriminate | reflexivity].
Qed.

End SubmitPipeline.

(** C1, on the two lookup results of tests/test_handler_logic.py. *)
Lemma submit_valid_rejected_invalid_accepted_witness :
  handle_submit_sm default_settings 0 (Returned (PDict valid_record))
    "1234" "13476841841" (list_byte_of_string "Test message") =
  (Some {| command_status := 0x0B; message_id := None |}, []) /\
  handle_submit_sm default_settings 0 (Returned (PDict invalid_record))
    "1234" "40722570240999" (list_byte_of_string "Test message") =
  (Some {| command_status := 0x00;
           message_id := Some (generate_message_id 0) |},
   [ {| task_message_id := generate_message_id 0;
        task_destination_addr := "40722570240999";
        task_source_addr := "1234";
        task_hlr_result := invalid_record |} ]).
Proof.
  split.
  - apply (proj1 (submit_valid_rejected_invalid_accepted default_settings 0
                    "1234" "13476841841" (list_byte_of_string "Test message")
                    valid_record)).
    vm_compute. reflexivity.
  - apply (proj2 (submit_valid_rejected_invalid_accepted default_settings 0
                    "1234" "40722570240999" (list_byte_of_string "Test message")
                    invalid_record)).
    vm_compute. reflexivity.
Defined.

(** C3, at the configuration src/config.py ships: a timeout. *)
Lemma submit_lookup_error_rejected_witness :
  handle_submit_sm default_settings 0 RaisedTimeout "1234" "13476841841" [] =
  (Some {| command_status := 0x08; message_id := None |}, []).
Proof.
  apply (submit_lookup_error_rejected default_settings 0 "1234" "13476841841" []
           RaisedTimeout).
  left. split; reflexivity.
Defined.

(** C10, at a cache entry holding only the provider's fields. *)
Lemma submit_unclassified_accepted_witness :
  handle_submit_sm default_settings 0
    (Returned (PDict {[ "error" := PInt 1 ]})) "1234" "40722570240999" [] =
  (Some {| command_status := 0x00;
           message_id := Some (generate_message_id 0) |},
   [ {| task_message_id := generate_message_id 0;
        task_destination_addr := "40722570240999";
        task_source_addr := "1234";
        task_hlr_result := {[ "error" := PInt 1 ]} |} ]).
Proof.
  apply (submit_unclassified_accepted default_settings 0 "1234" "40722570240999" []
           {[ "error" := PInt 1 ]}).
  vm_compute. reflexivity.
Defined.

(* ===================================================================== *)
(** * From the HLR answer to the submit decision                          *)
(* ===================================================================== *)

Section Lookup.

Variables (ttl : Z) (redis : option (gmap string entry)).
Variables (calls : lookup_calls) (msisdn : string).

(** A cached value that is truthy is returned as it is, whatever it
    holds, and nothing is asked of the provider. *)
Lemma lookup_cache_hit (cached : pyval) (response : http_outcome) :
  cache_get ttl redis (first_get calls) msisdn = Some cached ->
  truthy cached = true ->
  HLRClient.lookup ttl redis calls msisdn response = (Returned cached, redis).
Proof.
  intros Hget Htrue. unfold HLRClient.lookup. rewrite Hget, Htrue.
  reflexivity.
Qed.

(** When both looks at the cache miss, the provider is asked. *)
Lemma lookup_cache_miss (response : http_outcome) :
  cache_miss ttl redis (first_get calls) msisdn ->
  cache_miss ttl redis (second_get calls) msisdn ->
  HLRClient.lookup ttl redis calls msisdn response =
  request_and_cache ttl redis (set_call calls) msisdn response.
Proof.
  unfold cache_miss, HLRClient.lookup. intros H1 H2.
  destruct (cache_get ttl redis (first_get calls) msisdn) as [c1 |];
    [rewrite (H1 c1 eq_refl) |];
    (destruct (cache_get ttl redis (second_get calls) msisdn) as [c2 |];
     [rewrite (H2 c2 eq_refl) |]); reflexivity.
Qed.

Lemma truthy_dict (d : gmap string pyval) : d <> ∅ -> truthy (PDict d) = true.
Proof.
  intros Hne. simpl. rewrite bool_decide_eq_false_2 by exact Hne.
  reflexivity.
Qed.

(** A non-empty record in the provider's answer comes back stamped with
    its classification. *)
Lemma sync_hlr_request_stamps (data record : gmap string pyval) :
  data !! msisdn = Some (PDict record) ->
  record <> ∅ ->
  _sync_hlr_request msisdn (HttpJson (PDict data)) =
  Returned (PDict (<["classification" := PStr (_classify_result record)]> record)).
Proof.
  intros Hdata Hne. unfold _sync_hlr_request, Py.get.
  rewrite Hdata. simpl default. rewrite truthy_dict by exact Hne.
  reflexivity.
Qed.

(** A failed request caches nothing. *)
Lemma lookup_failure_caches_nothing (response : http_outcome) :
  cache_miss ttl redis (first_get calls) msisdn ->
  cache_miss ttl redis (second_get calls) msisdn ->
  response = HttpTimeout \/ response = HttpFailure ->
  snd (HLRClient.lookup ttl redis calls msisdn response) = redis.
Proof.
  intros H1 H2 Hr. rewrite lookup_cache_miss by assumption.
  destruct Hr as [-> | ->]; reflexivity.
Qed.

(** On a fresh answer the submit decision follows the record: rejected
    when [_classify_result] says "valid", accepted otherwise. *)
Lemma fresh_answer_decides (settings : Settings) (rnd : Z)
    (source_addr : string) (short_message : list byte)
    (data record : gmap string pyval) :
  data !! msisdn = Some (PDict record) ->
  record <> ∅ ->
  let stamped := <["classification" := PStr (_classify_result record)]> record in
  handle_submit_sm settings rnd
    (_sync_hlr_request msisdn (HttpJson (PDict data)))
    source_addr msisdn short_message =
  if eq_int (Py.get record "error" (PInt 0)) 0 &&
     eq_int (Py.get record "status" (PInt 1)) 0
  then rejected ESME_RINVDSTADR
  else accepted rnd source_addr msisdn stamped.
Proof.
  intros Hdata Hne stamped.
  rewrite (sync_hlr_request_stamps data record Hdata Hne).
  rewrite handle_submit_sm_dict. fold stamped.
  unfold Py.get at 1. unfold stamped at 1. rewrite lookup_insert_eq.
  unfold _classify_result.
  destruct (eq_int _ 0 && eq_int _ 0); reflexivity.
Qed.

End Lookup.

(* ===================================================================== *)
(** * Message ids                                                         *)
(* ===================================================================== *)

Section MessageId.

Local Open Scope list_scope.

Lemma length_string_of_list_ascii (l : list ascii) :
  String.length (string_of_list_ascii l) = length l.
Proof. induction l as [| c l IH]; simpl; [reflexivity | now rewrite IH]. Qed.

Lemma list_ascii_of_string_app (s1 s2 : string) :
  list_ascii_of_string (s1 ++ s2)%string =
  list_ascii_of_string s1 ++ list_ascii_of_string s2.
Proof. induction s1 as [| c s1 IH]; simpl; [reflexivity | now rewrite IH]. Qed.

Lemma length_hex_digits (k : nat) (n : Z) : length (hex_digits k n) = k.
Proof.
  revert n. induction k as [| k IH]; intros n; simpl; [reflexivity |].
  rewrite length_app, IH. simpl. lia.
Qed.

Lemma land_15_range (n : Z) : 0 <= Z.land n 15 < 16.
Proof.
  change 15 with (Z.ones 4). rewrite Z.land_ones by lia.
  apply Z.mod_pos_bound. reflexivity.
Qed.

(** Every digit [hex_digits] produces is taken from the alphabet. *)
Lemma hex_digit_alphabet (P : ascii -> bool) (n : Z) :
  forallb P hex_alphabet = true -> P (hex_digit (Z.land n 15)) = true.
Proof.
  intros HP. rewrite forallb_forall in HP. apply HP.
  unfold hex_digit. apply nth_In.
  pose proof (land_15_range n). change (length hex_alphabet) with 16%nat. lia.
Qed.

Lemma hex_digits_alphabet (P : ascii -> bool) (k : nat) (n : Z) :
  forallb P hex_alphabet = true ->
  Forall (fun c => P c = true) (hex_digits k n).
Proof.
  intros HP. revert n. induction k as [| k IH]; intros n; simpl.
  - constructor.
  - apply Forall_app. split; [apply IH |].
    constructor; [apply hex_digit_alphabet, HP | constructor].
Qed.

Lemma generate_message_id_alphabet (P : ascii -> bool) (rnd : Z) :
  forallb P uuid_alphabet = true ->
  Forall (fun c => P c = true)
    (list_ascii_of_string (generate_message_id rnd)).
Proof.
  intros HP. unfold uuid_alphabet in HP. rewrite forallb_app in HP.
  apply andb_prop in HP as [Hhex Hdash]. simpl in Hdash.
  rewrite Bool.andb_true_r in Hdash.
  unfold generate_message_id, uuid_str.
  rewrite list_ascii_of_string_of_list_ascii.
  pose proof (hex_digits_alphabet P 32 (uuid4_int rnd) Hhex) as Hall.
  unfold slice.
  repeat (apply Forall_app; split);
    try (apply Forall_take); try (apply Forall_drop); try exact Hall;
    repeat constructor; exact Hdash.
Qed.

(** A message id is the 36-character text of a UUID, 8-4-4-4-12. *)
Lemma generate_message_id_length (rnd : Z) :
  String.length (generate_message_id rnd) = 36%nat.
Proof.
  unfold generate_message_id, uuid_str, slice.
  rewrite length_string_of_list_ascii.
  repeat rewrite length_app. repeat rewrite length_firstn.
  repeat rewrite length_skipn. rewrite length_hex_digits. reflexivity.
Qed.

Lemma generate_message_id_nonempty (rnd : Z) :
  exists c s, generate_message_id rnd = String c s.
Proof.
  pose proof (generate_message_id_length rnd) as H.
  destruct (generate_message_id rnd) as [| c s]; [discriminate | eauto].
Qed.

Lemma generate_message_id_non_space (rnd : Z) :
  Forall (fun c => non_space c = true)
    (list_ascii_of_string (generate_message_id rnd)).
Proof. apply generate_message_id_alphabet. reflexivity. Qed.

(** [message_id.encode('ascii')] never raises. *)
Lemma generate_message_id_encodes (rnd : Z) :
  Bytes.encode_ascii (generate_message_id rnd) =
  Some (list_byte_of_string (generate_message_id rnd)).
Proof.
  unfold Bytes.encode_ascii.
  assert (H : forallb (fun b => Bytes.to_Z b <? 128)
                (list_byte_of_string (generate_message_id rnd)) = true).
  { unfold list_byte_of_string. rewrite forallb_forall.
    intros b Hb. apply in_map_iff in Hb as [c [<- Hc]].
    pose proof (generate_message_id_alphabet
                  (fun c => Bytes.to_Z (byte_of_ascii c) <? 128) rnd) as Hall.
    rewrite Forall_forall in Hall. apply Hall; [reflexivity |].
    apply list_elem_of_In. exact Hc. }
  rewrite H. reflexivity.
Qed.

End MessageId.

(* ===================================================================== *)
(** * The matcher agrees with the language of a regular expression        *)
(* ===================================================================== *)

Section RegexCorrect.

Local Open Scope list_scope.

Lemma nullable_matches (r : regex) : nullable r = true <-> matches r [].
Proof.
  split.
  - induction r as [| | p | r1 IH1 r2 IH2 | r1 IH1 r2 IH2 | r IH]; simpl;
      intros H; try discriminate.
    + constructor.
    + apply andb_prop in H as [H1 H2].
      change (matches (Cat r1 r2) ([] ++ [])). constructor; auto.
    + apply Bool.orb_prop in H as [H | H];
        [apply MAltL | apply MAltR]; auto.
    + constructor.
  - intros H. remember [] as s eqn:Hs.
    induction H as [| p c Hp | r1 r2 s1 s2 H1 IH1 H2 IH2
                    | r1 r2 s H IH | r1 r2 s H IH | r | r s1 s2 H1 IH1 H2 IH2];
      simpl; try reflexivity; try discriminate.
    + apply app_eq_nil in Hs as [-> ->]. rewrite IH1, IH2; reflexivity.
    + rewrite IH; [reflexivity | assumption].
    + rewrite IH; [apply Bool.orb_true_r | assumption].
Qed.

Lemma derive_sound (c : ascii) (r : regex) (s : list ascii) :
  matches (derive c r) s -> matches r (c :: s).
Proof.
  revert s.
  induction r as [| | p | r1 IH1 r2 IH2 | r1 IH1 r2 IH2 | r IH]; simpl;
    intros s H.
  - inversion H.
  - inversion H.
  - destruct (p c) eqn:Hp; inversion H; subst. constructor. exact Hp.
  - destruct (nullable r1) eqn:Hn.
    + inversion H as [| | | ? ? ? HL | ? ? ? HR | |]; subst.
      * inversion HL as [| | ? ? s1 s2 H1 H2 | | | |]; subst.
        change (matches (Cat r1 r2) ((c :: s1) ++ s2)). constructor; auto.
      * change (matches (Cat r1 r2) ([] ++ c :: s)).
        constructor; [apply nullable_matches, Hn | auto].
    + inversion H as [| | ? ? s1 s2 H1 H2 | | | |]; subst.
      change (matches (Cat r1 r2) ((c :: s1) ++ s2)). constructor; auto.
  - inversion H; subst; [apply MAltL | apply MAltR]; auto.
  - inversion H as [| | ? ? s1 s2 H1 H2 | | | |]; subst.
    change (matches (Star r) ((c :: s1) ++ s2)). constructor; auto.
Qed.

Lemma derive_complete (c : ascii) (r : regex) (s : list ascii) :
  matches r (c :: s) -> matches (derive c r) s.
Proof.
  intros H. remember (c :: s) as cs eqn:Hcs. revert c s Hcs.
  induction H as [| p c0 Hp | r1 r2 s1 s2 H1 IH1 H2 IH2
                  | r1 r2 s0 H IH | r1 r2 s0 H IH | r | r s1 s2 H1 IH1 H2 IH2];
    intros c s Hcs; simpl.
  - discriminate.
  - injection Hcs as -> <-. rewrite Hp. constructor.
  - destruct s1 as [| c1 s1]; simpl in Hcs.
    + subst s2. apply nullable_matches in H1. rewrite H1.
      apply MAltR. apply IH2. reflexivity.
    + injection Hcs as -> <-.
      assert (Hd : matches (Cat (derive c r1) r2) (s1 ++ s2))
        by (constructor; auto).
      destruct (nullable r1); [apply MAltL |]; exact Hd.
  - apply MAltL. auto.
  - apply MAltR. auto.
  - discriminate.
  - destruct s1 as [| c1 s1]; simpl in Hcs.
    + apply (IH2 c s Hcs).
    + injection Hcs as -> <-. constructor; auto.
Qed.

Theorem re_match_matches (r : regex) (s : list ascii) :
  re_match r s = true <-> matches r s.
Proof.
  revert r. induction s as [| c s IH]; intros r; simpl.
  - apply nullable_matches.
  - rewrite IH. split; [apply derive_sound | apply derive_complete].
Qed.

Lemma matches_Lit (l : list ascii) : matches (Lit l) l.
Proof.
  induction l as [| c l IH]; simpl; [constructor |].
  change (matches (Cat (Chr c) (Lit l)) ([c] ++ l)).
  constructor; [| exact IH]. constructor. apply Ascii.eqb_refl.
Qed.

Lemma matches_Star_Class (p : ascii -> bool) (l : list ascii) :
  Forall (fun c => p c = true) l -> matches (Star (Class p)) l.
Proof.
  induction 1 as [| c l Hc _ IH]; [constructor |].
  change (matches (Star (Class p)) ([c] ++ l)).
  constructor; [constructor; exact Hc | exact IH].
Qed.

Lemma matches_Plus_Class (p : ascii -> bool) (l : list ascii) :
  l <> [] -> Forall (fun c => p c = true) l -> matches (Plus (Class p)) l.
Proof.
  intros Hne Hall. destruct Hall as [| c l Hc Hl]; [contradiction |].
  change (matches (Cat (Class p) (Star (Class p))) ([c] ++ l)).
  constructor; [constructor; exact Hc | apply matches_Star_Class, Hl].
Qed.

Lemma matches_Rep_Class (p : ascii -> bool) (l : list ascii) :
  Forall (fun c => p c = true) l -> matches (Rep (length l) (Class p)) l.
Proof.
  induction 1 as [| c l Hc _ IH]; simpl; [constructor |].
  change (matches (Cat (Class p) (Rep (length l) (Class p))) ([c] ++ l)).
  constructor; [constructor; exact Hc | exact IH].
Qed.

End RegexCorrect.

(* ===================================================================== *)
(** * The DLR text                                                        *)
(* ===================================================================== *)

Section DlrText.

Local Open Scope list_scope.

Variables (submit_date done_date : option datetime) (now1 now2 : datetime).

(** Every branch of [get_error_code_from_hlr] gives "000". *)
Lemma get_error_code_from_hlr_000 (hlr_result : gmap string pyval) :
  get_error_code_from_hlr hlr_result = "000".
Proof.
  unfold get_error_code_from_hlr.
  repeat match goal with
         | |- context [if ?b then _ else _] => destruct b
         end; reflexivity.
Qed.

Lemma dec_digit_is_digit (n : Z) : is_digit (dec_digit n) = true.
Proof.
  unfold dec_digit.
  assert (H : 0 <= n mod 10 < 10) by (apply Z.mod_pos_bound; lia).
  assert (Hn : (Z.to_nat (n mod 10) < 10)%nat) by lia.
  destruct (Z.to_nat (n mod 10)) as [| [| [| [| [| [| [| [| [| [| k]]]]]]]]]];
    try reflexivity; lia.
Qed.

Lemma format_smpp_date_digits (dt : datetime) :
  matches (Rep 10 (Class is_digit))
    (list_ascii_of_string (format_smpp_date dt)).
Proof.
  unfold format_smpp_date. rewrite list_ascii_of_string_of_list_ascii.
  apply (matches_Rep_Class is_digit
           (two_digits (dt_year dt mod 100) ++ two_digits (dt_month dt) ++
            two_digits (dt_day dt) ++ two_digits (dt_hour dt) ++
            two_digits (dt_minute dt))).
  unfold two_digits. simpl. repeat constructor; apply dec_digit_is_digit.
Qed.

(** The text, field by field. *)
Lemma build_dlr_text_fields (message_id stat err : string) :
  build_dlr_text message_id stat err submit_date done_date now1 now2 =
  ("id:" ++ message_id ++ " sub:001 dlvrd:000 submit date:" ++
   format_smpp_date (default now1 submit_date) ++ " done date:" ++
   format_smpp_date (default now2 done_date) ++ " stat:" ++ stat ++
   " err:" ++ err ++ " text:")%string.
Proof.
  unfold build_dlr_text. reflexivity.
Qed.

(** A DLR built with [stat = "DELIVRD"] and the error code of any HLR
    result matches the format, for an id that is a non-empty run of
    non-space characters. *)
Lemma dlr_text_matches_token (message_id : string)
    (hlr_result : gmap string pyval) :
  message_id <> "" ->
  Forall (fun c => non_space c = true) (list_ascii_of_string message_id) ->
  matches_dlr_regex
    (build_dlr_text message_id "DELIVRD" (get_error_code_from_hlr hlr_result)
       submit_date done_date now1 now2) = true.
Proof.
  intros Hne Htoken. unfold matches_dlr_regex.
  apply re_match_matches.
  rewrite get_error_code_from_hlr_000, build_dlr_text_fields.
  repeat rewrite list_ascii_of_string_app. unfold dlr_regex.
  constructor; [apply matches_Lit |].
  constructor.
  { apply matches_Plus_Class; [| exact Htoken].
    destruct message_id; [contradiction | discriminate]. }
  constructor; [apply matches_Lit |].
  constructor; [apply format_smpp_date_digits |].
  constructor; [apply matches_Lit |].
  constructor; [apply format_smpp_date_digits |].
  apply matches_Lit.
Qed.

Lemma matches_Cat_inv (r1 r2 : regex) (s : list ascii) :
  matches (Cat r1 r2) s ->
  exists s1 s2, s = s1 ++ s2 /\ matches r1 s1 /\ matches r2 s2.
Proof. inversion 1; subst; eauto. Qed.

Lemma matches_Class_inv (p : ascii -> bool) (s : list ascii) :
  matches (Class p) s -> exists c, s = [c] /\ p c = true.
Proof. inversion 1; subst; eauto. Qed.

Lemma matches_Lit_inv (l s : list ascii) : matches (Lit l) s -> s = l.
Proof.
  revert s. induction l as [| c l IH]; intros s H; simpl in H.
  - inversion H. reflexivity.
  - apply matches_Cat_inv in H as [s1 [s2 [-> [H1 H2]]]].
    apply matches_Class_inv in H1 as [c' [-> Hc]].
    apply Ascii.eqb_eq in Hc. subst c'. rewrite (IH _ H2). reflexivity.
Qed.

Lemma matches_Rep_Class_length (n : nat) (p : ascii -> bool) (s : list ascii) :
  matches (Rep n (Class p)) s -> length s = n.
Proof.
  revert s. induction n as [| n IH]; intros s H; simpl in H.
  - inversion H. reflexivity.
  - apply matches_Cat_inv in H as [s1 [s2 [-> [H1 H2]]]].
    apply matches_Class_inv in H1 as [c [-> _]].
    simpl. rewrite (IH _ H2). reflexivity.
Qed.

Lemma matches_Star_Class_inv (p : ascii -> bool) (s : list ascii) :
  matches (Star (Class p)) s -> Forall (fun c => p c = true) s.
Proof.
  intros H. remember (Star (Class p)) as r eqn:Hr.
  induction H as [| | | | | r0 | r0 s1 s2 H1 _ H2 IH2]; try discriminate.
  - constructor.
  - injection Hr as ->.
    apply matches_Class_inv in H1 as [c [-> Hc]].
    constructor; [exact Hc | apply IH2; reflexivity].
Qed.

Lemma matches_Plus_Class_inv (p : ascii -> bool) (s : list ascii) :
  matches (Plus (Class p)) s -> s <> [] /\ Forall (fun c => p c = true) s.
Proof.
  intros H. apply matches_Cat_inv in H as [s1 [s2 [-> [H1 H2]]]].
  apply matches_Class_inv in H1 as [c [-> Hc]].
  split; [discriminate |].
  constructor; [exact Hc | apply matches_Star_Class_inv, H2].
Qed.

Lemma format_smpp_date_length (dt : datetime) :
  length (list_ascii_of_string (format_smpp_date dt)) = 10%nat.
Proof.
  apply (matches_Rep_Class_length 10 is_digit), format_smpp_date_digits.
Qed.

(** Only such an id gives a text of the format: what [\S+] takes is the
    id, and the whole of it, because what follows has a fixed length. *)
Lemma dlr_text_token_only (message_id : string)
    (hlr_result : gmap string pyval) :
  matches_dlr_regex
    (build_dlr_text message_id "DELIVRD" (get_error_code_from_hlr hlr_result)
       submit_date done_date now1 now2) = true ->
  message_id <> "" /\
  Forall (fun c => non_space c = true) (list_ascii_of_string message_id).
Proof.
  unfold matches_dlr_regex. intros H. apply re_match_matches in H.
  rewrite get_error_code_from_hlr_000, build_dlr_text_fields in H.
  repeat rewrite list_ascii_of_string_app in H. unfold dlr_regex, lit in H.
  apply matches_Cat_inv in H as [s1 [s2 [Heq [H1 H]]]].
  apply matches_Lit_inv in H1. subst s1. apply List.app_inv_head in Heq.
  apply matches_Cat_inv in H as [token [tail [Heq2 [Htoken H]]]].
  rewrite Heq2 in Heq. clear Heq2 s2.
  assert (Hlen : length tail = 89%nat).
  { apply matches_Cat_inv in H as [t1 [t2 [-> [Ht1 H]]]].
    apply matches_Lit_inv in Ht1. subst t1.
    apply matches_Cat_inv in H as [t2a [t3 [-> [Ht2 H]]]].
    apply matches_Rep_Class_length in Ht2.
    apply matches_Cat_inv in H as [t3a [t4 [-> [Ht3 H]]]].
    apply matches_Lit_inv in Ht3. subst t3a.
    apply matches_Cat_inv in H as [t4a [t5 [-> [Ht4 H]]]].
    apply matches_Rep_Class_length in Ht4.
    apply matches_Lit_inv in H. subst t5.
    rewrite !length_app, Ht2, Ht4. reflexivity. }
  apply app_inj_2 in Heq as [Hid _].
  - apply matches_Plus_Class_inv in Htoken as [Hne Hall].
    rewrite <- Hid in *. split; [| exact Hall].
    intros ->. apply Hne. reflexivity.
  - rewrite Hlen. rewrite !length_app, !format_smpp_date_length. reflexivity.
Qed.

(** C7: the DLR text built with [stat = "DELIVRD"] and the error code
    of any HLR result matches
    [^id:\S+ sub:001 dlvrd:000 submit date:\d{10} done date:\d{10} stat:DELIVRD err:000 text:$]
    for every id [generate_message_id] produces; for an arbitrary
    message id it matches if and only if the id is a non-empty run of
    characters that are not white space. *)
Theorem dlr_text_matches_format (hlr_result : gmap string pyval) :
  (forall rnd : Z,
     matches_dlr_regex
       (build_dlr_text (generate_message_id rnd) "DELIVRD"
          (get_error_code_from_hlr hlr_result)
          submit_date done_date now1 now2) = true) /\
  (forall message_id : string,
     matches_dlr_regex
       (build_dlr_text message_id "DELIVRD"
          (get_error_code_from_hlr hlr_result)
          submit_date done_date now1 now2) = true <->
     message_id <> "" /\
     Forall (fun c => non_space c = true) (list_ascii_of_string message_id)).
Proof.
  split.
  - intros rnd. apply dlr_text_matches_token.
    + destruct (generate_message_id_nonempty rnd) as [c [s ->]]. discriminate.
    + apply generate_message_id_non_space.
  - intros message_id. split.
    + apply dlr_text_token_only.
    + intros [Hne Htoken]. apply dlr_text_matches_token; assumption.
Qed.

End DlrText.

(** C7, on the id of tests/test_handler_logic.py and on a generated id. *)
Lemma dlr_text_matches_format_witness :
  matches_dlr_regex
    (build_dlr_text "ABC123DEF456" "DELIVRD"
       (get_error_code_from_hlr invalid_record) None None
       (mk_datetime 2025 10 9 14 30) (mk_datetime 2025 10 9 14 31)) = true /\
  matches_dlr_regex
    (build_dlr_text (generate_message_id 0) "DELIVRD"
       (get_error_code_from_hlr invalid_record) None None
       (mk_datetime 2025 10 9 14 30) (mk_datetime 2025 10 9 14 31)) = true.
Proof.
  split.
  - apply (proj2 (dlr_text_matches_format None None
                    (mk_datetime 2025 10 9 14 30) (mk_datetime 2025 10 9 14 31)
                    invalid_record) "ABC123DEF456").
    split; [discriminate | repeat constructor].
  - apply (proj1 (dlr_text_matches_format None None
                    (mk_datetime 2025 10 9 14 30) (mk_datetime 2025 10 9 14 31)
                    invalid_record) 0).
Defined.

Example dlr_text_of_test_id :
  build_dlr_text "ABC123DEF456" "DELIVRD"
    (get_error_code_from_hlr invalid_record) None None
    (mk_datetime 2025 10 9 14 30) (mk_datetime 2025 10 9 14 31) =
  "id:ABC123DEF456 sub:001 dlvrd:000 submit date:2510091430 done date:2510091431 stat:DELIVRD err:000 text:".
Proof. vm_compute. reflexivity. Qed.

(** Not every message id gives a text of the format: an empty id, or
    one with a space in it, gives a text the expression does not
    match. *)
Example dlr_text_needs_token :
  matches_dlr_regex
    (build_dlr_text "" "DELIVRD" "000" None None
       (mk_datetime 2025 10 9 14 30) (mk_datetime 2025 10 9 14 31)) = false /\
  matches_dlr_regex
    (build_dlr_text "a b" "DELIVRD" "000" None None
       (mk_datetime 2025 10 9 14 30) (mk_datetime 2025 10 9 14 31)) = false.
Proof. split; vm_compute; reflexivity. Qed.

(* ===================================================================== *)
(** * Framing: [struct] and the reading of a PDU                          *)
(* ===================================================================== *)

Section Framing.

Import Bytes.
Local Open Scope list_scope.

Lemma to_Z_range (b : byte) : 0 <= to_Z b < 256.
Proof. unfold to_Z. pose proof (Byte.to_N_bounded b). lia. Qed.

Lemma lor_below_pow2 (a b n : Z) :
  0 < n -> 0 <= a < 2 ^ n -> 0 <= b < 2 ^ n -> 0 <= Z.lor a b < 2 ^ n.
Proof.
  intros Hn Ha Hb. split; [apply Z.lor_nonneg; lia |].
  destruct (Z.eq_dec (Z.lor a b) 0) as [-> | Hne]; [lia |].
  assert (Hpos : 0 < Z.lor a b).
  { assert (0 <= Z.lor a b) by (apply Z.lor_nonneg; lia). lia. }
  apply Z.log2_lt_pow2; [exact Hpos |].
  rewrite Z.log2_lor by lia.
  assert (Hlog : forall x, 0 <= x < 2 ^ n -> Z.log2 x < n).
  { intros x Hx. destruct (Z.eq_dec x 0) as [-> | Hx0]; [simpl; lia |].
    apply Z.log2_lt_pow2; lia. }
  apply Z.max_lub_lt; apply Hlog; assumption.
Qed.

(** An unpacked word is a 32-bit unsigned integer. *)
Lemma unpack_I_range (b0 b1 b2 b3 : byte) :
  0 <= unpack_I b0 b1 b2 b3 < 2 ^ 32.
Proof.
  unfold unpack_I.
  pose proof (to_Z_range b0). pose proof (to_Z_range b1).
  pose proof (to_Z_range b2). pose proof (to_Z_range b3).
  repeat rewrite Z.shiftl_mul_pow2 by lia.
  repeat apply lor_below_pow2; lia.
Qed.

Lemma unpack_IIII_range (header : list byte) (a b c d : Z) :
  unpack_IIII header = Some (a, b, c, d) ->
  (0 <= a < 2 ^ 32) /\ (0 <= b < 2 ^ 32) /\
  (0 <= c < 2 ^ 32) /\ (0 <= d < 2 ^ 32).
Proof.
  unfold unpack_IIII. intros H.
  do 16 (destruct header as [| ? header]; [discriminate |]).
  destruct header; [| discriminate].
  injection H as <- <- <- <-. repeat split; apply unpack_I_range.
Qed.

Lemma pack_I_in_range (v : Z) :
  0 <= v < 2 ^ 32 -> exists bs, pack_I v = Some bs /\ length bs = 4%nat.
Proof.
  intros Hv. unfold pack_I.
  assert (H : (0 <=? v) && (v <? 2 ^ 32) = true)
    by (apply andb_true_intro; split; [apply Z.leb_le | apply Z.ltb_lt]; lia).
  rewrite H. eexists. split; reflexivity.
Qed.

Lemma pack_IIII_in_range (a b c d : Z) :
  0 <= a < 2 ^ 32 -> 0 <= b < 2 ^ 32 -> 0 <= c < 2 ^ 32 -> 0 <= d < 2 ^ 32 ->
  exists header, pack_IIII a b c d = Some header /\ length header = 16%nat.
Proof.
  intros Ha Hb Hc Hd. unfold pack_IIII.
  destruct (pack_I_in_range a Ha) as [a' [-> La]].
  destruct (pack_I_in_range b Hb) as [b' [-> Lb]].
  destruct (pack_I_in_range c Hc) as [c' [-> Lc]].
  destruct (pack_I_in_range d Hd) as [d' [-> Ld]].
  eexists. split; [reflexivity |].
  repeat rewrite length_app. lia.
Qed.

Lemma readexactly_enough (n : Z) (stream : list byte) :
  n <= len stream ->
  readexactly n stream =
  Some (firstn (Z.to_nat n) stream, skipn (Z.to_nat n) stream).
Proof.
  intros H. unfold readexactly.
  destruct (n <=? len stream) eqn:E; [reflexivity |].
  apply Z.leb_gt in E. lia.
Qed.

Lemma readexactly_short (n : Z) (stream : list byte) :
  len stream < n -> readexactly n stream = None.
Proof.
  intros H. unfold readexactly.
  destruct (n <=? len stream) eqn:E; [| reflexivity].
  apply Z.leb_le in E. lia.
Qed.

(** What [read_pdu] does on a stream that holds a header: the header is
    unpacked, and [max 0 (command_length - 16)] more bytes are asked for. *)
Lemma read_pdu_header (stream : list byte) :
  16 <= len stream ->
  exists command_length command_id command_status sequence,
    unpack_IIII (firstn 16 stream) =
      Some (command_length, command_id, command_status, sequence) /\
    read_pdu stream =
      (let n := Z.max 0 (command_length - 16) in
       if n <=? len (skipn 16 stream) then
         Pdu command_length command_id command_status sequence
           (firstn (Z.to_nat n) (skipn 16 stream))
           (skipn (Z.to_nat n) (skipn 16 stream))
       else IncompleteRead).
Proof.
  intros Hlen. unfold read_pdu.
  rewrite readexactly_enough by exact Hlen.
  change (Z.to_nat 16) with 16%nat.
  unfold len in Hlen.
  do 16 (destruct stream as [| ? stream]; [simpl in Hlen; lia |]).
  cbn [firstn skipn unpack_IIII].
  change (firstn 0 stream) with (@nil byte).
  change (skipn 0 stream) with stream.
  do 4 eexists. split; [reflexivity |].
  cbv zeta.
  match goal with |- context [?cl - 16 >? 0] => set (body_length := cl - 16) end.
  destruct (body_length >? 0) eqn:Hpos.
  - assert (0 < body_length) by (apply Z.gtb_lt; exact Hpos).
    rewrite Z.max_r by lia. unfold readexactly.
    destruct (body_length <=? len stream); reflexivity.
  - assert (body_length <= 0).
    { destruct (Z.gtb_spec body_length 0); [discriminate | lia]. }
    rewrite Z.max_l by lia.
    assert (Hz : (0 <=? len stream) = true) by (apply Z.leb_le; unfold len; lia).
    rewrite Hz. reflexivity.
Qed.

Lemma read_pdu_range (stream : list byte) cl cid cs seq body rest :
  read_pdu stream = Pdu cl cid cs seq body rest ->
  (0 <= cl < 2 ^ 32) /\ (0 <= cid < 2 ^ 32) /\
  (0 <= cs < 2 ^ 32) /\ (0 <= seq < 2 ^ 32).
Proof.
  intros H.
  destruct (Z_lt_le_dec (len stream) 16) as [Hshort | Hlong].
  - unfold read_pdu in H. rewrite readexactly_short in H by exact Hshort.
    discriminate.
  - destruct (read_pdu_header stream Hlong) as [a [b [c [d [Hu Hr]]]]].
    rewrite Hr in H. cbv zeta in H.
    destruct (_ <=? _) in H; [| discriminate].
    injection H as <- <- <- <- _ _.
    apply (unpack_IIII_range _ _ _ _ _ Hu).
Qed.

(** A PDU that was read takes at least its 16 header bytes off the
    stream. *)
Lemma read_pdu_consumes (stream : list byte) cl cid cs seq body rest :
  read_pdu stream = Pdu cl cid cs seq body rest ->
  (length rest + 16 <= length stream)%nat.
Proof.
  intros H.
  destruct (Z_lt_le_dec (len stream) 16) as [Hshort | Hlong].
  - unfold read_pdu in H. rewrite readexactly_short in H by exact Hshort.
    discriminate.
  - destruct (read_pdu_header stream Hlong) as [a [b [c [d [Hu Hr]]]]].
    rewrite Hr in H. cbv zeta in H.
    destruct (_ <=? _) in H; [| discriminate].
    injection H as _ _ _ _ _ <-.
    repeat rewrite length_skipn. unfold len in Hlong. lia.
Qed.

(** A complete PDU at the head of the stream is read whatever length
    its header announces above 16. *)
Lemma read_pdu_complete (cl cid cs seq : Z) (header body rest : list byte) :
  pack_IIII cl cid cs seq = Some header ->
  16 < cl -> len body = cl - 16 ->
  read_pdu (header ++ body ++ rest) = Pdu cl cid cs seq body rest.
Proof.
  intros Hpack Hcl Hbody.
  assert (Hlen : length header = 16%nat).
  { unfold pack_IIII, pack_I in Hpack.
    repeat match type of Hpack with
           | context [if ?b then _ else _] => destruct b; [| discriminate]
           end.
    injection Hpack as <-. reflexivity. }
  assert (Hlong : 16 <= len (header ++ body ++ rest)).
  { unfold len. rewrite length_app. lia. }
  destruct (read_pdu_header _ Hlong) as [a [b [c [d [Hu Hr]]]]].
  rewrite Hr. clear Hr.
  replace (firstn 16 (header ++ body ++ rest)) with header in Hu
    by (rewrite <- Hlen, firstn_app, Nat.sub_diag, firstn_all; simpl;
        now rewrite app_nil_r).
  replace (skipn 16 (header ++ body ++ rest)) with (body ++ rest)
    by (rewrite <- Hlen, skipn_app, Nat.sub_diag, skipn_all; reflexivity).
  assert (Hunpack : unpack_IIII header = Some (cl, cid, cs, seq)).
  { unfold pack_IIII, pack_I in Hpack.
    repeat match type of Hpack with
           | context [if ?b then _ else _] =>
               let E := fresh "E" in destruct b eqn:E; [| discriminate]
           end.
    injection Hpack as <-. cbn [app unpack_IIII]. unfold unpack_I.
    repeat match goal with
           | E : _ && _ = true |- _ =>
               apply andb_prop in E as [?%Z.leb_le ?%Z.ltb_lt]
           end.
    assert (Hw : forall v, 0 <= v < 2 ^ 32 ->
      Z.lor (Z.shiftl (to_Z (of_Z (Z.land (Z.shiftr v 24) 255))) 24)
        (Z.lor (Z.shiftl (to_Z (of_Z (Z.land (Z.shiftr v 16) 255))) 16)
           (Z.lor (Z.shiftl (to_Z (of_Z (Z.land (Z.shiftr v 8) 255))) 8)
              (to_Z (of_Z (Z.land v 255))))) = v).
    { intros v Hv.
      assert (Hb : forall x, to_Z (of_Z (Z.land x 255)) = Z.land x 255).
      { intros x. unfold to_Z, of_Z.
        assert (Hx : 0 <= Z.land x 255 < 256).
        { change 255 with (Z.ones 8). rewrite Z.land_ones by lia.
          apply Z.mod_pos_bound. reflexivity. }
        destruct (Byte.of_N (Z.to_N (Z.land x 255))) as [y |] eqn:Ey.
        - apply Byte.to_of_N in Ey. simpl. lia.
        - apply Byte.of_N_None_iff in Ey. lia. }
      repeat rewrite Hb.
      apply Z.bits_inj'. intros n Hn.
      repeat rewrite Z.lor_spec.
      repeat rewrite Z.shiftl_spec by lia.
      change 255 with (Z.ones 8).
      destruct (Z_lt_le_dec n 8).
      { rewrite (Z.testbit_neg_r _ (n - 24)), (Z.testbit_neg_r _ (n - 16)),
          (Z.testbit_neg_r _ (n - 8)) by lia.
        simpl. rewrite Z.land_spec, Z.ones_spec_low by lia.
        apply Bool.andb_true_r. }
      destruct (Z_lt_le_dec n 16).
      { rewrite (Z.testbit_neg_r _ (n - 24)), (Z.testbit_neg_r _ (n - 16)) by lia.
        repeat rewrite Z.land_spec. rewrite Z.shiftr_spec by lia.
        rewrite Z.ones_spec_low, (Z.ones_spec_high 8 n) by lia.
        replace (n - 8 + 8) with n by lia.
        simpl. rewrite Bool.andb_true_r, Bool.andb_false_r, Bool.orb_false_r.
        reflexivity. }
      destruct (Z_lt_le_dec n 24).
      { rewrite (Z.testbit_neg_r _ (n - 24)) by lia.
        repeat rewrite Z.land_spec. repeat rewrite Z.shiftr_spec by lia.
        rewrite Z.ones_spec_low, (Z.ones_spec_high 8 n),
          (Z.ones_spec_high 8 (n - 8)) by lia.
        replace (n - 16 + 16) with n by lia.
        simpl. repeat rewrite Bool.andb_false_r. rewrite Bool.andb_true_r.
        repeat rewrite Bool.orb_false_r. reflexivity. }
      destruct (Z_lt_le_dec n 32).
      { repeat rewrite Z.land_spec. repeat rewrite Z.shiftr_spec by lia.
        rewrite Z.ones_spec_low, (Z.ones_spec_high 8 n),
          (Z.ones_spec_high 8 (n - 8)), (Z.ones_spec_high 8 (n - 16)) by lia.
        replace (n - 24 + 24) with n by lia.
        simpl. repeat rewrite Bool.andb_false_r. rewrite Bool.andb_true_r.
        repeat rewrite Bool.orb_false_r. reflexivity. }
      repeat rewrite Z.land_spec. repeat rewrite Z.shiftr_spec by lia.
      rewrite (Z.ones_spec_high 8 n), (Z.ones_spec_high 8 (n - 8)),
        (Z.ones_spec_high 8 (n - 16)), (Z.ones_spec_high 8 (n - 24)) by lia.
      repeat rewrite Bool.andb_false_r. simpl.
      symmetry. apply (Z.bits_above_log2 v n); [lia |].
      destruct (Z.eq_dec v 0) as [-> | Hv0]; [simpl; lia |].
      apply Z.lt_le_trans with 32; [| exact l2].
      apply Z.log2_lt_pow2; lia. }
    repeat rewrite Hw by lia. reflexivity. }
  rewrite Hunpack in Hu. injection Hu as <- <- <- <-.
  cbv zeta. rewrite Z.max_r by lia.
  assert (Hle : (cl - 16 <=? len (body ++ rest)) = true).
  { apply Z.leb_le. unfold len in *. rewrite length_app. lia. }
  rewrite Hle.
  assert (Hn : Z.to_nat (cl - 16) = length body) by (unfold len in Hbody; lia).
  rewrite Hn, firstn_app, Nat.sub_diag, firstn_all, skipn_app, Nat.sub_diag,
    skipn_all. simpl. rewrite app_nil_r. reflexivity.
Qed.

(** C5 (as stated, refuted): a header announcing 8 bytes is taken as a
    PDU with an empty body, and a PDU of 65553 bytes (more than 64 KiB)
    is read in full; neither is a failure. *)
Lemma read_pdu_accepts_any_command_length :
  let short_pdu :=
    default [] (pack_IIII 8 SMPP_CMD_ENQUIRE_LINK 0 1) ++ [x01] in
  let large_body := repeat x00 (Z.to_nat 65537) in
  let large_pdu :=
    default [] (pack_IIII 65553 SMPP_CMD_SUBMIT_SM 0 1) ++ large_body in
  read_pdu short_pdu = Pdu 8 SMPP_CMD_ENQUIRE_LINK 0 1 [] [x01] /\
  read_pdu large_pdu = Pdu 65553 SMPP_CMD_SUBMIT_SM 0 1 large_body [] /\
  len large_body = 65537.
Proof.
  cbv zeta.
  assert (Hlen : len (repeat x00 (Z.to_nat 65537)) = 65537).
  { unfold len. rewrite repeat_length. lia. }
  split; [vm_compute; reflexivity |]. split; [| exact Hlen].
  generalize dependent (repeat x00 (Z.to_nat 65537)). intros large_body Hlen.
  rewrite <- (app_nil_r large_body) at 1.
  apply read_pdu_complete; [reflexivity | lia | rewrite Hlen; reflexivity].
Qed.

(** C5 (amended): [read_pdu] takes exactly 16 header bytes and then
    exactly [command_length - 16] body bytes when that is positive, none
    otherwise; it fails, with [IncompleteReadError], exactly when the
    stream ends before those bytes.  No value of [command_length] is
    refused. *)
Theorem read_pdu_reads_header_then_body (stream : list byte) :
  (len stream < 16 -> read_pdu stream = IncompleteRead) /\
  (16 <= len stream ->
   exists command_length command_id command_status sequence,
     unpack_IIII (firstn 16 stream) =
       Some (command_length, command_id, command_status, sequence) /\
     let n := Z.max 0 (command_length - 16) in
     (len stream < 16 + n -> read_pdu stream = IncompleteRead) /\
     (16 + n <= len stream ->
      read_pdu stream =
      Pdu command_length command_id command_status sequence
        (firstn (Z.to_nat n) (skipn 16 stream))
        (skipn (16 + Z.to_nat n) stream))).
Proof.
  split.
  - intros Hshort. unfold read_pdu.
    rewrite readexactly_short by exact Hshort. reflexivity.
  - intros Hlong.
    destruct (read_pdu_header stream Hlong) as [a [b [c [d [Hu Hr]]]]].
    exists a, b, c, d. split; [exact Hu |].
    assert (Hlen : len (skipn 16 stream) = len stream - 16).
    { unfold len in *. rewrite length_skipn. lia. }
    cbv zeta. rewrite Hr. cbv zeta. rewrite Hlen. clear Hr.
    split; intros H.
    + destruct (Z.leb_spec (Z.max 0 (a - 16)) (len stream - 16));
        [lia | reflexivity].
    + destruct (Z.leb_spec (Z.max 0 (a - 16)) (len stream - 16)); [| lia].
      rewrite skipn_skipn. f_equal. f_equal. lia.
Qed.

End Framing.

(** C5 (amended), on an ENQUIRE_LINK followed by one stray byte. *)
Lemma read_pdu_reads_header_then_body_witness :
  read_pdu (SimpleSmppClient.pdu SMPP_CMD_ENQUIRE_LINK 3 [] ++ [x01]) =
  Pdu 16 SMPP_CMD_ENQUIRE_LINK 0 3 [] [x01].
Proof.
  destruct (proj2 (read_pdu_reads_header_then_body
                     (SimpleSmppClient.pdu SMPP_CMD_ENQUIRE_LINK 3 [] ++ [x01])))
    as [cl [cid [cs [seq [Hu [_ Hr]]]]]].
  - vm_compute. discriminate.
  - vm_compute in Hu. injection Hu as <- <- <- <-.
    rewrite Hr by (vm_compute; discriminate).
    vm_compute. reflexivity.
Defined.

(* ===================================================================== *)
(** * The session loop                                                    *)
(* ===================================================================== *)

Section SessionLoop.

Import Bytes.
Local Open Scope list_scope.

Variables (settings : Settings).

(** A turn that continues has taken a whole PDU off the stream. *)
Lemma run_turn_consumes (env : submit_env) (st st' : session)
    (stream rest : list byte) :
  run_turn settings env st stream = Continue st' rest ->
  (length rest + 16 <= length stream)%nat.
Proof.
  unfold run_turn. intros H.
  destruct (read_pdu stream) as [cl cid cs seq body rest0 | | |] eqn:Hread;
    try discriminate.
  destruct (_process_pdu _ _ _ _ _ _ _) as [st0 []]; [| discriminate].
  injection H as _ <-. eapply read_pdu_consumes, Hread.
Qed.

(** With more fuel than the stream has bytes the loop is left, and by
    the same state whatever the surplus. *)
Lemma run_loop_enough (fuel : nat) (envs : nat -> submit_env) (n : nat)
    (st : session) (stream : list byte) :
  (length stream < fuel)%nat ->
  exists st', forall fuel', (length stream < fuel')%nat ->
    run_loop fuel' settings envs n st stream = Some st'.
Proof.
  revert n st stream.
  induction fuel as [| fuel IH]; intros n st stream Hfuel; [lia |].
  destruct (run_turn settings (envs n) st stream) as [st1 rest | st1] eqn:Hturn.
  - pose proof (run_turn_consumes _ _ _ _ _ Hturn) as Hrest.
    destruct (IH (S n) st1 rest ltac:(lia)) as [st' Hst'].
    exists st'. intros [| fuel'] Hfuel'; [lia |].
    simpl. rewrite Hturn. apply Hst'. lia.
  - exists st1. intros [| fuel'] Hfuel'; [lia |].
    simpl. rewrite Hturn. reflexivity.
Qed.

(** [run] returns: the loop is always left. *)
Lemma run_returns (envs : nat -> submit_env) (st : session)
    (stream : list byte) :
  exists st', run settings envs st stream = Some st'.
Proof.
  destruct (run_loop_enough (S (length stream)) envs 0 st stream ltac:(lia))
    as [st' H].
  exists st'. apply H. lia.
Qed.

(** A turn that continues hands the rest of the stream to the next turn. *)
Lemma run_continue (envs : nat -> submit_env) (st st' : session)
    (stream rest : list byte) :
  run_turn settings (envs 0%nat) st stream = Continue st' rest ->
  run settings envs st stream = run settings (fun n => envs (S n)) st' rest.
Proof.
  assert (Hshift : forall fuel n st0 s,
             run_loop fuel settings envs (S n) st0 s =
             run_loop fuel settings (fun k => envs (S k)) n st0 s).
  { induction fuel as [| fuel IH]; intros n st0 s; simpl; [reflexivity |].
    destruct (run_turn settings (envs (S n)) st0 s); [apply IH | reflexivity]. }
  intros Hturn.
  pose proof (run_turn_consumes _ _ _ _ _ Hturn) as Hrest.
  transitivity (run_loop (length stream) settings (fun k => envs (S k)) 0 st' rest).
  - unfold run. cbn [run_loop]. rewrite Hturn. apply Hshift.
  - unfold run.
    destruct (run_loop_enough (length stream) (fun k => envs (S k)) 0 st' rest
                ltac:(lia)) as [st'' H].
    rewrite (H (length stream)), (H (S (length rest))) by lia. reflexivity.
Qed.

Lemma process_pdu_bind (env : submit_env) (st : session)
    (command_id command_status sequence : Z) (body : list byte) :
  is_bind command_id ->
  _process_pdu settings env st command_id command_status sequence body =
  _handle_bind settings st body sequence (bind_response command_id).
Proof. intros [-> | [-> | ->]]; reflexivity. Qed.


(** C8 (amended): an UNBIND is answered with a header-only
    [UNBIND_RESP] of status 0 that echoes the sequence number, the
    session stops being authenticated, and the loop goes on with the rest
    of the stream. *)
Theorem unbind_answered_loop_continues (env : submit_env)
    (st : session) (stream : list byte)
    (command_length command_status sequence : Z) (body rest : list byte) :
  read_pdu stream =
    Pdu command_length SMPP_CMD_UNBIND command_status sequence body rest ->
  exists header,
    pack_IIII 16 SMPP_CMD_UNBIND_RESP 0 sequence = Some header /\
    run_turn settings env st stream =
    Continue {| authenticated := false;
                system_id := system_id st;
                sequence_number := sequence_number st;
                written := written st ++ header;
                tasks := tasks st |} rest.
Proof.
  intros Hread.
  destruct (read_pdu_range _ _ _ _ _ _ _ Hread) as [_ [_ [_ Hseq]]].
  destruct (pack_IIII_in_range 16 SMPP_CMD_UNBIND_RESP 0 sequence)
    as [header [Hpack _]]; try lia.
  { vm_compute; split; congruence. }
  exists header. split; [exact Hpack |].
  unfold run_turn. rewrite Hread.
  change (_process_pdu settings env st SMPP_CMD_UNBIND command_status sequence body)
    with (_handle_unbind st sequence).
  unfold _handle_unbind, _send_response.
  change (16 + len (@nil byte)) with 16. rewrite Hpack, app_nil_r.
  reflexivity.
Qed.

End SessionLoop.

(* ===================================================================== *)
(** * A SubmitSM on an authenticated session                              *)
(* ===================================================================== *)

Section SubmitOnSession.

Import Bytes.
Local Open Scope list_scope.

Variables (settings : Settings) (env : submit_env) (st : session).
Variables (command_status sequence : Z) (body : list byte).
Variables (parsed : parsed_submit_sm) (hlr_result : gmap string pyval).

Hypothesis Hauth : authenticated st = true.
Hypothesis Hparse : _parse_submit_sm body = Some parsed.
Hypothesis Hlookup :
  env_lookup env (destination_addr parsed) = Returned (PDict hlr_result).
Hypothesis Hseq : 0 <= sequence < 2 ^ 32.

Lemma len_message_id_bytes (rnd : Z) :
  len (list_byte_of_string (generate_message_id rnd)) = 36.
Proof.
  assert (H : forall s, length (list_ascii_of_string s) = String.length s).
  { induction s as [| c s IH]; simpl; [reflexivity | now rewrite IH]. }
  unfold len, list_byte_of_string.
  rewrite length_map, H, generate_message_id_length. reflexivity.
Qed.

(** The PDU written for a SubmitSM whose lookup result is classified
    "valid": status [ESME_RINVDSTADR], an empty message id, no task. *)
Lemma process_submit_sm_valid :
  hlr_result !! "classification" = Some (PStr "valid") ->
  _process_pdu settings env st SMPP_CMD_SUBMIT_SM command_status sequence body =
  (write st (submit_sm_resp ESME_RINVDSTADR sequence [x00]), Normal).
Proof.
  intros Hc.
  change (_process_pdu settings env st SMPP_CMD_SUBMIT_SM command_status sequence body)
    with (if authenticated st
          then _handle_submit_sm settings env st body sequence
          else _send_error_response st SMPP_CMD_SUBMIT_SM_RESP
                 SMPP_ESME_RINVBNDSTS sequence).
  rewrite Hauth. unfold _handle_submit_sm. rewrite Hparse, Hlookup.
  rewrite handle_submit_sm_dict. unfold Py.get. rewrite Hc. simpl default.
  cbn [eq_str String.eqb Ascii.eqb Bool.eqb rejected message_id
       SubmitSMHandler.command_status].
  unfold _send_response, submit_sm_resp.
  assert (Hconst : forall v, 0 <= v <= 0x80000004 -> 0 <= v < 2 ^ 32)
    by (intros v Hv; change (2 ^ 32) with 4294967296; lia).
  destruct (pack_IIII_in_range (16 + len [x00]) SMPP_CMD_SUBMIT_SM_RESP
              ESME_RINVDSTADR sequence) as [header [Hpack _]];
    [apply Hconst; unfold len; simpl; lia
    | apply Hconst; unfold SMPP_CMD_SUBMIT_SM_RESP; lia
    | apply Hconst; unfold ESME_RINVDSTADR; lia
    | exact Hseq |].
  rewrite Hpack. simpl default.
  destruct st; unfold write; simpl. rewrite app_nil_r. reflexivity.
Qed.

(** The PDU written for a SubmitSM whose lookup result is classified
    "invalid": status [ESME_ROK], the message id as a C string, and one
    more task on the session. *)
Lemma process_submit_sm_invalid :
  hlr_result !! "classification" = Some (PStr "invalid") ->
  let mid := generate_message_id (env_urandom env) in
  _process_pdu settings env st SMPP_CMD_SUBMIT_SM command_status sequence body =
  ({| authenticated := true;
      system_id := system_id st;
      sequence_number := sequence_number st;
      written := written st ++
                 submit_sm_resp ESME_ROK sequence
                   (list_byte_of_string mid ++ [x00]);
      tasks := tasks st ++
               [accepted_task (env_urandom env) (source_addr parsed)
                  (destination_addr parsed) hlr_result] |}, Normal).
Proof.
  intros Hc mid.
  change (_process_pdu settings env st SMPP_CMD_SUBMIT_SM command_status sequence body)
    with (if authenticated st
          then _handle_submit_sm settings env st body sequence
          else _send_error_response st SMPP_CMD_SUBMIT_SM_RESP
                 SMPP_ESME_RINVBNDSTS sequence).
  rewrite Hauth. unfold _handle_submit_sm. rewrite Hparse, Hlookup.
  rewrite handle_submit_sm_dict. unfold Py.get. rewrite Hc. simpl default.
  cbn [eq_str String.eqb Ascii.eqb Bool.eqb accepted message_id
       SubmitSMHandler.command_status].
  fold mid.
  pose proof (generate_message_id_encodes (env_urandom env)) as Henc.
  pose proof (len_message_id_bytes (env_urandom env)) as Hlen.
  fold mid in Henc, Hlen.
  destruct (generate_message_id_nonempty (env_urandom env)) as [c [s E]].
  fold mid in E.
  replace (match mid with
           | EmptyString => Some [x00]
           | String _ _ => option_map (fun b => b ++ [x00]) (encode_ascii mid)
           end) with (Some (list_byte_of_string mid ++ [x00]))
    by (rewrite Henc, E; reflexivity).
  unfold _send_response, submit_sm_resp.
  assert (Hbody : len (list_byte_of_string mid ++ [x00]) = 37).
  { unfold len in *. rewrite length_app. simpl. lia. }
  assert (Hconst : forall v, 0 <= v <= 0x80000004 -> 0 <= v < 2 ^ 32)
    by (intros v Hv; change (2 ^ 32) with 4294967296; lia).
  destruct (pack_IIII_in_range (16 + len (list_byte_of_string mid ++ [x00]))
              SMPP_CMD_SUBMIT_SM_RESP ESME_ROK sequence)
    as [header [Hpack _]];
    [apply Hconst; rewrite Hbody; lia
    | apply Hconst; unfold SMPP_CMD_SUBMIT_SM_RESP; lia
    | apply Hconst; unfold ESME_ROK; lia
    | exact Hseq |].
  rewrite Hpack. clear Henc E. clearbody mid.
  unfold write.
  cbn [authenticated system_id sequence_number written tasks default
       from_option].
  rewrite Hauth. reflexivity.
Qed.

End SubmitOnSession.

(* ===================================================================== *)
(** * Sessions on concrete streams                                        *)
(* ===================================================================== *)

Section Scenarios.

Import Bytes SimpleSmppClient.
Local Open Scope list_scope.


(** C8 (as stated, refuted): after UNBIND has been handled the turn
    continues; the ENQUIRE_LINK and the BIND the peer sends next are both
    processed and answered, and the session is authenticated again. *)
Lemma unbind_does_not_end_session :
  let bind := pdu SMPP_CMD_BIND_TRANSMITTER 1 (bind_body "testuser" "testpass") in
  let unbind := pdu SMPP_CMD_UNBIND 2 [] in
  let enquire := pdu SMPP_CMD_ENQUIRE_LINK 3 [] in
  let rebind := pdu SMPP_CMD_BIND_TRANSMITTER 4 (bind_body "testuser" "testpass") in
  run_turn default_settings quiet_env bound_session
      (unbind ++ enquire ++ rebind) =
    Continue {| authenticated := false; system_id := Some "testuser";
                sequence_number := 1;
                written := response SMPP_CMD_UNBIND_RESP 0 2;
                tasks := [] |} (enquire ++ rebind) /\
  run default_settings (fun _ => quiet_env) init
      (bind ++ unbind ++ enquire ++ rebind) =
    Some {| authenticated := true;
            system_id := Some "testuser";
            sequence_number := 1;
            written := bind_ok_response 1 ++
                       response SMPP_CMD_UNBIND_RESP 0 2 ++
                       response SMPP_CMD_ENQUIRE_LINK_RESP 0 3 ++
                       bind_ok_response 4;
            tasks := [] |}.
Proof. split; vm_compute; reflexivity. Qed.


(** C8 (amended), on an UNBIND followed by an ENQUIRE_LINK. *)
Lemma unbind_answered_loop_continues_witness :
  exists header,
    pack_IIII 16 SMPP_CMD_UNBIND_RESP 0 2 = Some header /\
    run_turn default_settings quiet_env init
      (pdu SMPP_CMD_UNBIND 2 [] ++ pdu SMPP_CMD_ENQUIRE_LINK 3 []) =
    Continue {| authenticated := false;
                system_id := system_id init;
                sequence_number := sequence_number init;
                written := written init ++ header;
                tasks := tasks init |} (pdu SMPP_CMD_ENQUIRE_LINK 3 []).
Proof.
  apply (unbind_answered_loop_continues default_settings quiet_env init
           (pdu SMPP_CMD_UNBIND 2 [] ++ pdu SMPP_CMD_ENQUIRE_LINK 3 [])
           16 0 2 [] (pdu SMPP_CMD_ENQUIRE_LINK 3 [])).
  vm_compute. reflexivity.
Defined.

(** A SubmitSM before any bind is answered [ESME_RINVBNDSTS] and the
    loop continues. *)
Example submit_before_bind :
  let submit :=
    pdu SMPP_CMD_SUBMIT_SM 1
      (submit_sm_body "1234" "40722570240999" (list_byte_of_string "Test")) in
  run_turn default_settings invalid_env init submit =
  Continue (write init (response SMPP_CMD_SUBMIT_SM_RESP 0x04 1)) [].
Proof. vm_compute. reflexivity. Qed.

(** Bind, then a SubmitSM to a number the HLR calls valid: the answer
    is [ESME_RINVDSTADR] with an empty message id, and no task. *)
Example valid_number_rejected :
  let bind := pdu SMPP_CMD_BIND_TRANSMITTER 1 (bind_body "testuser" "testpass") in
  let submit :=
    pdu SMPP_CMD_SUBMIT_SM 2
      (submit_sm_body "1234" "13476841841" (list_byte_of_string "Test")) in
  run default_settings (fun _ => valid_env) init (bind ++ submit) =
  Some {| authenticated := true;
          system_id := Some "testuser";
          sequence_number := 1;
          written := bind_ok_response 1 ++ submit_sm_resp 0x0B 2 [x00];
          tasks := [] |}.
Proof. vm_compute. reflexivity. Qed.

(** Bind, then a SubmitSM to a number the HLR calls invalid: the answer
    is [ESME_ROK] with the message id, one task is pending, and running
    it sends one DeliverSM from the destination to the source whose text
    is the DLR for that id. *)
Example invalid_number_accepted :
  let bind := pdu SMPP_CMD_BIND_TRANSMITTER 1 (bind_body "testuser" "testpass") in
  let submit :=
    pdu SMPP_CMD_SUBMIT_SM 2
      (submit_sm_body "1234" "40722570240999" (list_byte_of_string "Test")) in
  let mid := "00000000-0000-4000-8000-000000000000"%string in
  let task := accepted_task 0 "1234" "40722570240999" invalid_record in
  let after_submit :=
    {| authenticated := true;
       system_id := Some "testuser";
       sequence_number := 1;
       written := bind_ok_response 1 ++
                  submit_sm_resp 0x00 2 (list_byte_of_string mid ++ [x00]);
       tasks := [task] |} in
  let now := mk_datetime 2025 10 9 14 30 in
  run default_settings (fun _ => invalid_env) init (bind ++ submit) =
    Some after_submit /\
  _send_DELIVRD_dlr task now now after_submit =
    {| authenticated := true;
       system_id := Some "testuser";
       sequence_number := 2;
       written := written after_submit ++
                  deliver_sm 1 "40722570240999" "1234"
                    ("id:" ++ mid ++ " sub:001 dlvrd:000 submit date:2510091430 done date:2510091430 stat:DELIVRD err:000 text:")%string;
       tasks := [task] |}.
Proof. split; vm_compute; reflexivity. Qed.

End Scenarios.

(* ===================================================================== *)
(** * Delivery receipts on the session                                    *)
(* ===================================================================== *)

Section DeliveryReceipts.

Import Bytes.
Local Open Scope list_scope.

(** C9: [send_deliver_sm] on a session that is not authenticated writes
    nothing: the session, and with it the bytes handed to the writer, is
    left as it was. *)
Theorem send_deliver_sm_unauthenticated_writes_nothing (st : session)
    (source_addr destination_addr : string) (short_message : list byte) :
  authenticated st = false ->
  written (send_deliver_sm st source_addr destination_addr short_message) =
    written st /\
  send_deliver_sm st source_addr destination_addr short_message = st.
Proof.
  intros Hauth. unfold send_deliver_sm. rewrite Hauth. simpl.
  split; reflexivity.
Qed.

(** The whole DLR task is without effect on such a session. *)
Lemma send_DELIVRD_dlr_unauthenticated (task : dlr_task)
    (now1 now2 : datetime) (st : session) :
  authenticated st = false ->
  _send_DELIVRD_dlr task now1 now2 st = st.
Proof.
  intros Hauth. unfold _send_DELIVRD_dlr.
  destruct (get_reason _); [| reflexivity].
  destruct (encode_ascii _); [| reflexivity].
  cbn [SubmitSMHandler.send_deliver_sm session_connection].
  unfold send_deliver_sm. rewrite Hauth. reflexivity.
Qed.

(** On a bound session the same call does write a DeliverSM. *)
Example send_deliver_sm_bound_writes :
  written (send_deliver_sm bound_session "40722570240999" "1234"
             (list_byte_of_string "id:M")) =
  default [] (pack_IIII 55 SMPP_CMD_DELIVER_SM 0 1) ++
  [x00; x01; x01] ++ list_byte_of_string "40722570240999" ++ [x00] ++
  [x01; x01] ++ list_byte_of_string "1234" ++ [x00] ++
  [x04; x00; x00; x00; x00; x01; x00; x00; x00; x04] ++
  list_byte_of_string "id:M".
Proof. vm_compute. reflexivity. Qed.

(** C4 (what the code does): the id of an accepted SubmitSM is the
    36-character text of a UUID, not a 16-character token; the id in the
    response is the id the DLR task carries and the id the DLR text
    starts with. *)
Theorem accepted_message_id_is_uuid_text (settings : Settings) (rnd : Z)
    (outcome : lookup_outcome) (source_addr destination_addr : string)
    (short_message : list byte) (result : submit_result)
    (created : list dlr_task) (now1 now2 : datetime) :
  handle_submit_sm settings rnd outcome source_addr destination_addr
    short_message = (Some result, created) ->
  command_status result = ESME_ROK ->
  exists mid task,
    message_id result = Some mid /\
    created = [task] /\
    task_message_id task = mid /\
    String.length mid = 36%nat /\
    build_dlr_text (task_message_id task) "DELIVRD"
      (get_error_code_from_hlr (task_hlr_result task)) None None now1 now2 =
    ("id:" ++ mid ++ " sub:001 dlvrd:000 submit date:" ++
     format_smpp_date now1 ++ " done date:" ++ format_smpp_date now2 ++
     " stat:DELIVRD err:000 text:")%string.
Proof.
  intros Hrun Hok.
  destruct (handle_submit_sm_tasks _ _ _ _ _ _ _ _ Hrun)
    as [[hlr_result [Hres ->]] | [_ Hrej]].
  - injection Hres as ->.
    exists (generate_message_id rnd), (accepted_task rnd source_addr destination_addr hlr_result).
    do 3 (split; [reflexivity |]).
    split; [apply generate_message_id_length |].
    rewrite get_error_code_from_hlr_000. reflexivity.
  - destruct (Hrej result eq_refl) as [Hne _]. contradiction.
Qed.

End DeliveryReceipts.

(** C9, on a session that never bound. *)
Lemma send_deliver_sm_unauthenticated_witness :
  written (send_deliver_sm init "40722570240999" "1234"
             (list_byte_of_string "id:M")) = written init /\
  send_deliver_sm init "40722570240999" "1234" (list_byte_of_string "id:M") =
    init.
Proof.
  apply (send_deliver_sm_unauthenticated_writes_nothing init
           "40722570240999" "1234" (list_byte_of_string "id:M")).
  reflexivity.
Defined.

(** C4, on the invalid number of the tests with all-zero random bytes:
    the id is "00000000-0000-4000-8000-000000000000". *)
Lemma accepted_message_id_is_uuid_text_witness :
  exists mid task,
    Some (generate_message_id 0) = Some mid /\
    [ {| task_message_id := generate_message_id 0;
         task_destination_addr := "40722570240999";
         task_source_addr := "1234";
         task_hlr_result := {[ "classification" := PStr "invalid" ]} |} ] =
      [task] /\
    task_message_id task = mid /\
    String.length mid = 36%nat /\
    build_dlr_text (task_message_id task) "DELIVRD"
      (get_error_code_from_hlr (task_hlr_result task)) None None
      (mk_datetime 2025 10 9 14 30) (mk_datetime 2025 10 9 14 31) =
    ("id:" ++ mid ++ " sub:001 dlvrd:000 submit date:" ++
     format_smpp_date (mk_datetime 2025 10 9 14 30) ++ " done date:" ++
     format_smpp_date (mk_datetime 2025 10 9 14 31) ++
     " stat:DELIVRD err:000 text:")%string.
Proof.
  apply (accepted_message_id_is_uuid_text default_settings 0
           (Returned (PDict {[ "classification" := PStr "invalid" ]}))
           "1234" "40722570240999" (list_byte_of_string "Test")
           {| command_status := ESME_ROK;
              message_id := Some (generate_message_id 0) |}
           [ {| task_message_id := generate_message_id 0;
                task_destination_addr := "40722570240999";
                task_source_addr := "1234";
                task_hlr_result := {[ "classification" := PStr "invalid" ]} |} ]
           (mk_datetime 2025 10 9 14 30) (mk_datetime 2025 10 9 14 31)).
  - vm_compute. reflexivity.
  - reflexivity.
Defined.

Example generate_message_id_zero :
  generate_message_id 0 = "00000000-0000-4000-8000-000000000000".
Proof. vm_compute. reflexivity. Qed.

(* ===================================================================== *)
(** * Parsing of PDU bodies                                               *)
(* ===================================================================== *)

Section Parsing.

Import Bytes.
Local Open Scope list_scope.

Lemma len_app {A} (l1 l2 : list A) : len (l1 ++ l2) = len l1 + len l2.
Proof. unfold len. rewrite length_app. lia. Qed.

Lemma len_nonneg {A} (l : list A) : 0 <= len l.
Proof. unfold len. lia. Qed.

Lemma clamp_inside {A} (l : list A) (i : Z) :
  0 <= i <= len l -> clamp l i = i.
Proof.
  intros H. unfold clamp.
  destruct (Z.ltb_spec i 0); [lia | apply Z.min_l; lia].
Qed.

Lemma clamp_range {A} (l : list A) (i : Z) : 0 <= clamp l i <= len l.
Proof.
  unfold clamp. pose proof (len_nonneg l).
  destruct (Z.ltb_spec i 0); lia.
Qed.

Lemma index_nul_nonneg (l : list byte) (k : Z) :
  index_nul l = Some k -> 0 <= k.
Proof.
  revert k. induction l as [| b l IH]; intros k; simpl; [discriminate |].
  destruct (Byte.eqb b x00).
  - intros [= <-]. lia.
  - destruct (index_nul l) as [j |]; simpl; [| discriminate].
    intros [= <-]. specialize (IH j eq_refl). lia.
Qed.

(** The first NUL after a NUL-free run. *)
Lemma index_nul_run (l rest : list byte) :
  nul_free l -> index_nul (l ++ x00 :: rest) = Some (len l).
Proof.
  induction 1 as [| b l Hb _ IH]; simpl; [reflexivity |].
  destruct (Byte.eqb b x00) eqn:E.
  - apply Byte.byte_dec_bl in E. contradiction.
  - rewrite IH. simpl. f_equal. unfold len. simpl length. lia.
Qed.

(** [find] never returns less than -1. *)
Lemma find_nul_lower (body : list byte) (start : Z) :
  -1 <= find_nul body start.
Proof.
  unfold find_nul. pose proof (clamp_range body start).
  destruct (index_nul _) as [k |] eqn:E; [| lia].
  apply index_nul_nonneg in E. lia.
Qed.

Lemma skipn_len_app {A} (pre rest : list A) :
  skipn (Z.to_nat (len pre)) (pre ++ rest) = rest.
Proof.
  unfold len. rewrite Nat2Z.id, skipn_app, Nat.sub_diag, skipn_all.
  reflexivity.
Qed.

Lemma find_nul_split (body pre l rest : list byte) (start : Z) :
  body = pre ++ l ++ x00 :: rest ->
  start = len pre ->
  nul_free l ->
  find_nul body start = start + len l.
Proof.
  intros -> -> Hl. unfold find_nul.
  rewrite clamp_inside
    by (rewrite len_app; pose proof (len_nonneg pre);
        pose proof (len_nonneg (l ++ x00 :: rest)); lia).
  rewrite skipn_len_app, index_nul_run by exact Hl. reflexivity.
Qed.

Lemma py_slice_split {A} (body pre l rest : list A) (a b : Z) :
  body = pre ++ l ++ rest ->
  a = len pre ->
  b = a + len l ->
  py_slice body a b = l.
Proof.
  intros -> -> ->. unfold py_slice.
  pose proof (len_nonneg pre). pose proof (len_nonneg l).
  pose proof (len_nonneg rest).
  rewrite !clamp_inside by (rewrite !len_app; lia).
  rewrite skipn_len_app.
  replace (len pre + len l - len pre) with (len l) by lia.
  unfold len. rewrite Nat2Z.id, firstn_app, Nat.sub_diag, firstn_all.
  simpl. apply app_nil_r.
Qed.

(** A slice whose upper bound lies beyond the end stops at the end. *)
Lemma py_slice_to_end {A} (body pre l : list A) (a b : Z) :
  body = pre ++ l ->
  a = len pre ->
  a + len l <= b ->
  py_slice body a b = l.
Proof.
  intros -> -> Hb. unfold py_slice.
  pose proof (len_nonneg pre). pose proof (len_nonneg l).
  rewrite (clamp_inside _ (len pre)) by (rewrite len_app; lia).
  assert (Hc : clamp (pre ++ l) b = len (pre ++ l)).
  { unfold clamp. destruct (Z.ltb_spec b 0); [lia |].
    apply Z.min_r. rewrite len_app. lia. }
  rewrite Hc, skipn_len_app, len_app.
  replace (len pre + len l - len pre) with (len l) by lia.
  unfold len. rewrite Nat2Z.id. apply firstn_all.
Qed.

Lemma py_index_split (body pre rest : list byte) (x : byte) (i : Z) :
  body = pre ++ x :: rest ->
  i = len pre ->
  py_index body i = Some (to_Z x).
Proof.
  intros -> ->. unfold py_index.
  pose proof (len_nonneg pre). pose proof (len_nonneg rest).
  destruct (Z.ltb_spec (len pre) 0); [lia |].
  assert (Hin : (0 <=? len pre) && (len pre <? len (pre ++ x :: rest)) = true).
  { apply andb_true_intro. split; [apply Z.leb_le; lia |].
    apply Z.ltb_lt. rewrite len_app. unfold len in *. simpl length. lia. }
  rewrite Hin. unfold len. rewrite Nat2Z.id, nth_error_app2 by lia.
  rewrite Nat.sub_diag. reflexivity.
Qed.

Lemma py_index_beyond (body : list byte) (i : Z) :
  len body <= i -> py_index body i = None.
Proof.
  intros H. unfold py_index. pose proof (len_nonneg body).
  destruct (Z.ltb_spec i 0); [lia |].
  destruct (Z.ltb_spec i (len body)); [lia |].
  rewrite Bool.andb_false_r. reflexivity.
Qed.

Lemma to_Z_of_Z (z : Z) : 0 <= z <= 255 -> to_Z (of_Z z) = z.
Proof.
  intros H. unfold to_Z, of_Z.
  destruct (Byte.of_N (Z.to_N z)) as [y |] eqn:Ey.
  - apply Byte.to_of_N in Ey. simpl. lia.
  - apply Byte.of_N_None_iff in Ey. lia.
Qed.

(** Decoding what is already ASCII changes nothing. *)
Lemma decode_ascii_bytes (s : string) :
  ascii_bytes (list_byte_of_string s) ->
  decode_ascii_ignore (list_byte_of_string s) = s.
Proof.
  intros H. unfold decode_ascii_ignore.
  assert (Hf : List.filter (fun b => to_Z b <? 128) (list_byte_of_string s) =
               list_byte_of_string s).
  { induction H as [| b l Hb _ IH]; simpl; [reflexivity |].
    assert (E : (to_Z b <? 128) = true) by (apply Z.ltb_lt; exact Hb).
    rewrite E, IH. reflexivity. }
  rewrite Hf. apply string_of_list_byte_of_string.
Qed.

Ltac sm_body_eq :=
  unfold sm_body; rewrite <- ?app_assoc; reflexivity.

Ltac sm_offset :=
  rewrite ?len_app; unfold len; simpl length; lia.

Ltac find_step pre l rest :=
  match goal with
  | |- context [find_nul ?b ?s] =>
      lazymatch s with
      | context [find_nul] => fail
      | _ => rewrite (find_nul_split b pre l rest s)
               by (try sm_body_eq; try sm_offset; try assumption; constructor)
      end
  end.

Ltac slice_step pre l rest :=
  match goal with
  | |- context [py_slice ?b ?a ?e] =>
      rewrite (py_slice_split b pre l rest a e)
        by (try sm_body_eq; sm_offset)
  end.

(** A body laid out as [sm_body] parses into its two addresses and its
    message, whatever the type, flag and coding octets are. *)
Lemma parse_sm_body (ton1 npi1 : byte) (src : list byte) (ton2 npi2 : byte)
    (dst : list byte) (e1 e2 e3 f1 f2 f3 f4 : byte) (msg tlvs : list byte) :
  nul_free src -> nul_free dst -> len msg <= 255 ->
  _parse_submit_sm
    (sm_body ton1 npi1 src ton2 npi2 dst e1 e2 e3 f1 f2 f3 f4 msg tlvs) =
  Some {| source_addr := decode_ascii_ignore src;
          destination_addr := decode_ascii_ignore dst;
          short_message := msg |}.
Proof.
  intros Hsrc Hdst Hmsg.
  unfold _parse_submit_sm. cbv zeta.
  find_step (@nil byte) (@nil byte)
    ([ton1; npi1] ++ src ++ [x00] ++ [ton2; npi2] ++ dst ++ [x00] ++
     [e1; e2; e3] ++ [x00] ++ [x00] ++ [f1; f2; f3; f4] ++
     [of_Z (len msg)] ++ msg ++ tlvs).
  find_step [x00; ton1; npi1] src
    ([ton2; npi2] ++ dst ++ [x00] ++ [e1; e2; e3] ++ [x00] ++ [x00] ++
     [f1; f2; f3; f4] ++ [of_Z (len msg)] ++ msg ++ tlvs).
  find_step ([x00; ton1; npi1] ++ src ++ [x00; ton2; npi2]) dst
    ([e1; e2; e3] ++ [x00] ++ [x00] ++ [f1; f2; f3; f4] ++
     [of_Z (len msg)] ++ msg ++ tlvs).
  find_step ([x00; ton1; npi1] ++ src ++ [x00; ton2; npi2] ++ dst ++
             [x00; e1; e2; e3]) (@nil byte)
    ([x00] ++ [f1; f2; f3; f4] ++ [of_Z (len msg)] ++ msg ++ tlvs).
  find_step ([x00; ton1; npi1] ++ src ++ [x00; ton2; npi2] ++ dst ++
             [x00; e1; e2; e3; x00]) (@nil byte)
    ([f1; f2; f3; f4] ++ [of_Z (len msg)] ++ msg ++ tlvs).
  rewrite (py_index_split _
             ([x00; ton1; npi1] ++ src ++ [x00; ton2; npi2] ++ dst ++
              [x00; e1; e2; e3; x00; x00; f1; f2; f3; f4])
             (msg ++ tlvs) (of_Z (len msg)))
    by (try sm_body_eq; sm_offset).
  pose proof (len_nonneg msg).
  rewrite to_Z_of_Z by lia.
  slice_step [x00; ton1; npi1] src
    ([x00] ++ [ton2; npi2] ++ dst ++ [x00] ++ [e1; e2; e3] ++ [x00] ++ [x00] ++
     [f1; f2; f3; f4] ++ [of_Z (len msg)] ++ msg ++ tlvs).
  slice_step ([x00; ton1; npi1] ++ src ++ [x00; ton2; npi2]) dst
    ([x00] ++ [e1; e2; e3] ++ [x00] ++ [x00] ++ [f1; f2; f3; f4] ++
     [of_Z (len msg)] ++ msg ++ tlvs).
  slice_step ([x00; ton1; npi1] ++ src ++ [x00; ton2; npi2] ++ dst ++
              [x00; e1; e2; e3; x00; x00; f1; f2; f3; f4; of_Z (len msg)])
    msg tlvs.
  reflexivity.
Qed.

End Parsing.

Ltac forall_bytes :=
  vm_compute;
  repeat (constructor; [first [discriminate | reflexivity] |]);
  constructor.

Ltac c_string_holds := split; forall_bytes.

Section BodyRoundTrips.

Import Bytes SimpleSmppClient.
Local Open Scope list_scope.

(** X1: the body the example client builds for a SubmitSM parses back
    into the source address, the destination address and the message it
    was built from, when the addresses are ASCII without NUL and the
    message is at most 255 bytes long. *)
Theorem parse_submit_sm_client_body (source destination : string)
    (message : list byte) :
  c_string source -> c_string destination -> len message <= 255 ->
  _parse_submit_sm (submit_sm_body source destination message) =
  Some {| source_addr := source;
          destination_addr := destination;
          short_message := message |}.
Proof.
  intros [Hs1 Hs2] [Hd1 Hd2] Hlen.
  replace (submit_sm_body source destination message)
    with (sm_body x01 x01 (list_byte_of_string source) x01 x01
            (list_byte_of_string destination) x00 x00 x00 x00 x00 x00 x00
            message [])
    by (unfold sm_body, submit_sm_body; simpl repeat;
        rewrite app_nil_r, <- ?app_assoc; reflexivity).
  rewrite parse_sm_body by assumption.
  rewrite !decode_ascii_bytes by assumption. reflexivity.
Qed.

(** X2: the body [send_deliver_sm] lays out parses, with the gateway's
    own [_parse_submit_sm], into the addresses and the message it was
    given (the addresses free of NUL). *)
Theorem parse_deliver_sm_body (source destination message body : list byte) :
  nul_free source -> nul_free destination ->
  deliver_sm_body source destination message = Some body ->
  _parse_submit_sm body =
  Some {| source_addr := decode_ascii_ignore source;
          destination_addr := decode_ascii_ignore destination;
          short_message := message |}.
Proof.
  intros Hs Hd Hbody. unfold deliver_sm_body in Hbody.
  destruct (Z.leb_spec (len message) 255) as [Hlen |]; [| discriminate].
  injection Hbody as <-.
  match goal with
  | |- _parse_submit_sm ?b = _ =>
      replace b
        with (sm_body (of_Z 1) (of_Z 1) source (of_Z 1) (of_Z 1) destination
                (of_Z 4) (of_Z 0) (of_Z 0) (of_Z 1) (of_Z 0) (of_Z 0) (of_Z 0)
                message [])
        by (unfold sm_body; rewrite app_nil_r; reflexivity)
  end.
  exact (parse_sm_body _ _ _ _ _ _ _ _ _ _ _ _ _ _ _ Hs Hd Hlen).
Qed.

(** The octet [sm_length] is read at offset 4 or later. *)
Lemma parse_submit_sm_needs_five_bytes (body : list byte) :
  len body <= 4 -> _parse_submit_sm body = None.
Proof.
  intros Hlen. unfold _parse_submit_sm. cbv zeta.
  match goal with
  | |- match py_index body ?i with _ => _ end = None =>
      rewrite (py_index_beyond body i); [reflexivity |]
  end.
  match goal with
  | |- _ <= find_nul body ?s + 1 + 4 => pose proof (find_nul_lower body s)
  end.
  lia.
Qed.

Lemma split_nul_run (l rest : list byte) :
  nul_free l -> split_nul (l ++ x00 :: rest) = l :: split_nul rest.
Proof.
  induction 1 as [| b l Hb _ IH]; simpl; [reflexivity |].
  destruct (Byte.eqb b x00) eqn:E.
  - apply Byte.byte_dec_bl in E. contradiction.
  - rewrite IH. reflexivity.
Qed.

(** X4: a bind body that starts with the system id and the password as
    two C strings parses into exactly those two, whatever follows them
    (interface version, address range, ...). *)
Theorem parse_bind_body_c_strings (system_id password : string)
    (others : list byte) :
  c_string system_id -> c_string password ->
  _parse_bind_body
    (list_byte_of_string system_id ++ [x00] ++
     list_byte_of_string password ++ [x00] ++ others) =
  (system_id, password).
Proof.
  intros [Hs1 Hs2] [Hp1 Hp2]. unfold _parse_bind_body.
  change ([x00] ++ list_byte_of_string password ++ [x00] ++ others)
    with (x00 :: (list_byte_of_string password ++ x00 :: others)).
  rewrite split_nul_run by assumption.
  rewrite split_nul_run by assumption.
  rewrite !decode_ascii_bytes by assumption. reflexivity.
Qed.

End BodyRoundTrips.

(** X1, on the SubmitSM of the example client. *)
Lemma parse_submit_sm_client_body_witness :
  _parse_submit_sm
    (SimpleSmppClient.submit_sm_body "1234" "40722570240999"
       (list_byte_of_string "Test message")) =
  Some {| source_addr := "1234";
          destination_addr := "40722570240999";
          short_message := list_byte_of_string "Test message" |}.
Proof.
  apply (parse_submit_sm_client_body "1234" "40722570240999"
           (list_byte_of_string "Test message")).
  - c_string_holds.
  - c_string_holds.
  - vm_compute. discriminate.
Defined.

(** X2, on a receipt from 40722570240999 to 1234. *)
Lemma parse_deliver_sm_body_witness :
  _parse_submit_sm
    (default [] (deliver_sm_body (list_byte_of_string "40722570240999")
                   (list_byte_of_string "1234") (list_byte_of_string "id:M"))) =
  Some {| source_addr := "40722570240999";
          destination_addr := "1234";
          short_message := list_byte_of_string "id:M" |}.
Proof.
  apply (parse_deliver_sm_body (list_byte_of_string "40722570240999")
           (list_byte_of_string "1234") (list_byte_of_string "id:M")).
  - forall_bytes.
  - forall_bytes.
  - reflexivity.
Defined.

(** X4, on the bind of the example client. *)
Lemma parse_bind_body_c_strings_witness :
  _parse_bind_body (SimpleSmppClient.bind_body "testuser" "testpass") =
  ("testuser"%string, "testpass"%string).
Proof.
  apply (parse_bind_body_c_strings "testuser" "testpass" (repeat x00 10)).
  - c_string_holds.
  - c_string_holds.
Defined.

(* ===================================================================== *)
(** * Framing round trips                                                 *)
(* ===================================================================== *)

Section FramingRoundTrips.

Import Bytes SimpleSmppClient.
Local Open Scope list_scope.

Lemma to_Z_of_Z_land (x : Z) : to_Z (of_Z (Z.land x 255)) = Z.land x 255.
Proof.
  apply to_Z_of_Z.
  change 255 with (Z.ones 8) at 1 2. rewrite Z.land_ones by lia.
  pose proof (Z.mod_pos_bound x (2 ^ 8) ltac:(lia)).
  change (2 ^ 8) with 256 in *. lia.
Qed.

(** The bits of [v] that the octet at position [k] carries. *)
Lemma octet_bits (v k n : Z) :
  0 <= k -> 0 <= n ->
  Z.testbit (Z.shiftl (Z.land (Z.shiftr v k) 255) k) n =
  Z.testbit v n && (k <=? n) && (n <? k + 8).
Proof.
  intros Hk Hn. rewrite Z.shiftl_spec by lia.
  destruct (Z.leb_spec k n) as [Hle | Hlt].
  - rewrite Z.land_spec, Z.shiftr_spec by lia.
    replace (n - k + k) with n by lia.
    change 255 with (Z.ones 8).
    destruct (Z.ltb_spec n (k + 8)).
    + rewrite Z.ones_spec_low by lia.
      rewrite !Bool.andb_true_r. reflexivity.
    + rewrite Z.ones_spec_high by lia.
      rewrite !Bool.andb_false_r. reflexivity.
  - rewrite Z.testbit_neg_r by lia.
    rewrite Bool.andb_false_r. reflexivity.
Qed.

Lemma unpack_pack_I (v : Z) (b0 b1 b2 b3 : byte) :
  pack_I v = Some [b0; b1; b2; b3] -> unpack_I b0 b1 b2 b3 = v.
Proof.
  unfold pack_I. intros H.
  destruct ((0 <=? v) && (v <? 2 ^ 32)) eqn:E; [| discriminate].
  apply andb_prop in E as [Hlo%Z.leb_le Hhi%Z.ltb_lt].
  injection H as <- <- <- <-. unfold unpack_I.
  rewrite !to_Z_of_Z_land.
  replace (Z.land v 255) with (Z.shiftl (Z.land (Z.shiftr v 0) 255) 0)
    by (rewrite Z.shiftr_0_r, Z.shiftl_0_r; reflexivity).
  apply Z.bits_inj'. intros n Hn.
  rewrite !Z.lor_spec, !octet_bits by lia.
  destruct (Z.ltb_spec n 32) as [Hn32 | Hn32].
  - destruct (Z.testbit v n); [| reflexivity]. simpl.
    destruct (Z.leb_spec 24 n), (Z.leb_spec 16 n), (Z.leb_spec 8 n),
      (Z.leb_spec 0 n), (Z.ltb_spec n (24 + 8)), (Z.ltb_spec n (16 + 8)),
      (Z.ltb_spec n (8 + 8)), (Z.ltb_spec n (0 + 8));
      try reflexivity; lia.
  - assert (Hhigh : Z.testbit v n = false).
    { destruct (Z.eq_dec v 0) as [-> | Hv0]; [apply Z.bits_0 |].
      apply Z.bits_above_log2; [lia |].
      apply Z.lt_le_trans with 32; [| lia].
      apply Z.log2_lt_pow2; lia. }
    rewrite Hhigh. reflexivity.
Qed.

Lemma pack_I_length (v : Z) (bs : list byte) :
  pack_I v = Some bs -> exists b0 b1 b2 b3, bs = [b0; b1; b2; b3].
Proof.
  unfold pack_I. destruct (_ && _); [| discriminate].
  intros [= <-]. eauto.
Qed.

Lemma unpack_pack_IIII (a b c d : Z) (header : list byte) :
  pack_IIII a b c d = Some header ->
  unpack_IIII header = Some (a, b, c, d) /\ length header = 16%nat.
Proof.
  unfold pack_IIII. intros H.
  destruct (pack_I a) as [pa |] eqn:Ea; [| discriminate].
  destruct (pack_I b) as [pb |] eqn:Eb; [| discriminate].
  destruct (pack_I c) as [pc |] eqn:Ec; [| discriminate].
  destruct (pack_I d) as [pd |] eqn:Ed; [| discriminate].
  injection H as <-.
  destruct (pack_I_length _ _ Ea) as [a0 [a1 [a2 [a3 ->]]]].
  destruct (pack_I_length _ _ Eb) as [b0 [b1 [b2 [b3 ->]]]].
  destruct (pack_I_length _ _ Ec) as [c0 [c1 [c2 [c3 ->]]]].
  destruct (pack_I_length _ _ Ed) as [d0 [d1 [d2 [d3 ->]]]].
  split; [| reflexivity].
  cbn [app unpack_IIII].
  rewrite (unpack_pack_I _ _ _ _ _ Ea), (unpack_pack_I _ _ _ _ _ Eb),
    (unpack_pack_I _ _ _ _ _ Ec), (unpack_pack_I _ _ _ _ _ Ed).
  reflexivity.
Qed.

(** A packed header followed by as many bytes as it announces is read as
    that PDU, with what follows left on the stream. *)
Lemma read_pdu_framed (cl cid cs seq : Z) (header body rest : list byte) :
  pack_IIII cl cid cs seq = Some header ->
  len body = Z.max 0 (cl - 16) ->
  read_pdu (header ++ body ++ rest) = Pdu cl cid cs seq body rest.
Proof.
  intros Hpack Hbody.
  destruct (unpack_pack_IIII _ _ _ _ _ Hpack) as [Hunpack Hlen].
  assert (Hlong : 16 <= len (header ++ body ++ rest)).
  { rewrite len_app. unfold len at 1. rewrite Hlen.
    pose proof (len_nonneg (body ++ rest)). lia. }
  destruct (read_pdu_header _ Hlong) as [a [b [c [d [Hu Hr]]]]].
  rewrite Hr. clear Hr.
  replace (firstn 16 (header ++ body ++ rest)) with header in Hu
    by (rewrite <- Hlen, firstn_app, Nat.sub_diag, firstn_all; simpl;
        now rewrite app_nil_r).
  replace (skipn 16 (header ++ body ++ rest)) with (body ++ rest)
    by (rewrite <- Hlen, skipn_app, Nat.sub_diag, skipn_all; reflexivity).
  rewrite Hunpack in Hu. injection Hu as <- <- <- <-.
  cbv zeta. rewrite <- Hbody.
  assert (Hle : (len body <=? len (body ++ rest)) = true).
  { apply Z.leb_le. rewrite len_app. pose proof (len_nonneg rest). lia. }
  rewrite Hle. unfold len.
  rewrite Nat2Z.id, firstn_app, Nat.sub_diag, firstn_all, skipn_app,
    Nat.sub_diag, skipn_all.
  simpl. rewrite app_nil_r. reflexivity.
Qed.

(** X5: whatever [_send_response] writes is read back by [read_pdu] as
    one PDU with the command id, status, sequence number and body that
    were sent, and with [command_length] 16 plus the length of the body;
    bytes that follow stay on the stream. *)
Theorem send_response_reads_back (st st' : session)
    (command_id command_status sequence : Z) (body : list byte) :
  _send_response st command_id command_status sequence body = (st', Normal) ->
  exists out,
    written st' = written st ++ out /\
    forall rest,
      read_pdu (out ++ rest) =
      Pdu (16 + len body) command_id command_status sequence body rest.
Proof.
  unfold _send_response. intros H.
  destruct (pack_IIII _ _ _ _) as [header |] eqn:Hpack; [| discriminate].
  injection H as <-. exists (header ++ body). split; [reflexivity |].
  intros rest. rewrite <- app_assoc.
  apply read_pdu_framed; [exact Hpack |].
  pose proof (len_nonneg body). lia.
Qed.

(** X6: a PDU the example client sends is read by the session as the
    command id, sequence number and body the client gave it, with status
    0, provided its fields fit 32 bits. *)
Theorem client_pdu_reads_back (command_id sequence : Z)
    (body rest : list byte) :
  0 <= command_id < 2 ^ 32 -> 0 <= sequence < 2 ^ 32 ->
  16 + len body < 2 ^ 32 ->
  read_pdu (pdu command_id sequence body ++ rest) =
  Pdu (16 + len body) command_id 0 sequence body rest.
Proof.
  intros Hcid Hseq Hlen. unfold pdu.
  pose proof (len_nonneg body).
  destruct (pack_IIII_in_range (16 + len body) command_id 0 sequence)
    as [header [Hpack _]]; try lia.
  rewrite Hpack. simpl default. rewrite <- app_assoc.
  apply read_pdu_framed; [exact Hpack | lia].
Qed.

End FramingRoundTrips.

(** X5, on the answer to a failed bind. *)
Lemma send_response_reads_back_witness :
  exists out,
    written (write init (response SMPP_CMD_BIND_TRANSMITTER_RESP 0x0E 1)) =
      (written init ++ out)%list /\
    forall rest,
      read_pdu (out ++ rest)%list =
      Pdu (16 + Bytes.len (@nil byte)) SMPP_CMD_BIND_TRANSMITTER_RESP 0x0E 1
        [] rest.
Proof.
  apply (send_response_reads_back init
           (write init (response SMPP_CMD_BIND_TRANSMITTER_RESP 0x0E 1))
           SMPP_CMD_BIND_TRANSMITTER_RESP 0x0E 1 []).
  vm_compute. reflexivity.
Defined.

(** X6, on the bind of the example client. *)
Lemma client_pdu_reads_back_witness :
  read_pdu
    (SimpleSmppClient.pdu SMPP_CMD_BIND_TRANSMITTER 1
       (SimpleSmppClient.bind_body "testuser" "testpass") ++ [])%list =
  Pdu (16 + Bytes.len (SimpleSmppClient.bind_body "testuser" "testpass"))
    SMPP_CMD_BIND_TRANSMITTER 0 1
    (SimpleSmppClient.bind_body "testuser" "testpass") [].
Proof.
  apply (client_pdu_reads_back SMPP_CMD_BIND_TRANSMITTER 1
           (SimpleSmppClient.bind_body "testuser" "testpass") []);
    vm_compute; split; congruence.
Defined.

(* ===================================================================== *)
(** * One PDU at a time                                                   *)
(* ===================================================================== *)

Section Dispatch.

Import Bytes.
Local Open Scope list_scope.

Variables (settings : Settings) (env : submit_env) (st : session).
Variables (stream : list byte).
Variables (command_length command_id command_status sequence : Z).
Variables (body rest : list byte).

Hypothesis Hread :
  read_pdu stream =
  Pdu command_length command_id command_status sequence body rest.

Lemma pack_response (n command_id' status : Z) :
  0 <= n < 2 ^ 32 -> 0 <= command_id' < 2 ^ 32 -> 0 <= status < 2 ^ 32 ->
  exists header, pack_IIII n command_id' status sequence = Some header.
Proof.
  intros Hn Hc Hs.
  destruct (read_pdu_range _ _ _ _ _ _ _ Hread) as [_ [_ [_ Hseq]]].
  destruct (pack_IIII_in_range n command_id' status sequence Hn Hc Hs Hseq)
    as [header [Hpack _]].
  eauto.
Qed.

(** X7: a bind whose system id and password both match is answered
    with status 0 and the body "SMPPGateway" NUL, echoing the sequence
    number; the session becomes authenticated under the configured
    system id, and the loop goes on. *)
Theorem bind_success_authenticates :
  is_bind command_id ->
  credentials_match settings body = true ->
  exists header,
    pack_IIII 28 (bind_response command_id) 0 sequence = Some header /\
    run_turn settings env st stream =
    Continue {| authenticated := true;
                system_id := Some (smpp_system_id settings);
                sequence_number := sequence_number st;
                written := written st ++ header ++
                           list_byte_of_string "SMPPGateway" ++ [x00];
                tasks := tasks st |} rest.
Proof.
  intros Hbind Hgood.
  destruct (pack_response 28 (bind_response command_id) 0) as [header Hpack];
    try (change (2 ^ 32) with 4294967296; lia).
  { unfold bind_response. change (2 ^ 32) with 4294967296.
    destruct Hbind as [-> | [-> | ->]];
      unfold SMPP_CMD_BIND_TRANSMITTER, SMPP_CMD_BIND_RECEIVER,
        SMPP_CMD_BIND_TRANSCEIVER; lia. }
  exists header. split; [exact Hpack |].
  unfold run_turn. rewrite Hread, process_pdu_bind by exact Hbind.
  unfold _handle_bind, credentials_match in *.
  destruct (_parse_bind_body body) as [sid password]. simpl in Hgood.
  rewrite Hgood. apply andb_prop in Hgood as [Hsid _].
  apply String.eqb_eq in Hsid. subst sid.
  unfold _send_response.
  change (16 + len (list_byte_of_string "SMPPGateway" ++ [x00])) with 28.
  rewrite Hpack. reflexivity.
Qed.

(** X8: an ENQUIRE_LINK is answered on any session, bound or not, with
    a header-only ENQUIRE_LINK_RESP of status 0 echoing the sequence
    number; nothing else of the session changes and the loop goes on. *)
Theorem enquire_link_answered :
  command_id = SMPP_CMD_ENQUIRE_LINK ->
  exists header,
    pack_IIII 16 SMPP_CMD_ENQUIRE_LINK_RESP 0 sequence = Some header /\
    run_turn settings env st stream = Continue (write st header) rest.
Proof.
  intros Hcmd.
  destruct (pack_response 16 SMPP_CMD_ENQUIRE_LINK_RESP 0) as [header Hpack];
    try (unfold SMPP_CMD_ENQUIRE_LINK_RESP; change (2 ^ 32) with 4294967296; lia).
  exists header. split; [exact Hpack |].
  unfold run_turn. rewrite Hread, Hcmd.
  change (_process_pdu settings env st SMPP_CMD_ENQUIRE_LINK command_status
            sequence body)
    with (_handle_enquire_link st sequence).
  unfold _handle_enquire_link. rewrite Hpack. reflexivity.
Qed.

(** X9: a PDU whose command id has no branch in [_process_pdu]
    (DELIVER_SM_RESP and every unsupported command) is ignored: nothing
    is written, the session is unchanged and the loop goes on. *)
Theorem unhandled_command_ignored :
  handled_command command_id = false ->
  run_turn settings env st stream = Continue st rest.
Proof.
  unfold handled_command. intros H.
  repeat (apply Bool.orb_false_elim in H as [H ?]).
  unfold run_turn. rewrite Hread. unfold _process_pdu.
  repeat match goal with
         | E : (command_id =? ?c) = false |- _ => rewrite E; clear E
         end.
  destruct (command_id =? SMPP_CMD_DELIVER_SM_RESP); reflexivity.
Qed.

(** X10: a SubmitSM on a session that is not authenticated is answered
    [ESME_RINVBNDSTS] (0x04) with a header-only response; its body is
    not parsed, no lookup is made, no task is created, and the loop goes
    on. *)
Theorem submit_unauthenticated_refused :
  command_id = SMPP_CMD_SUBMIT_SM ->
  authenticated st = false ->
  exists header,
    pack_IIII 16 SMPP_CMD_SUBMIT_SM_RESP 0x04 sequence = Some header /\
    run_turn settings env st stream = Continue (write st header) rest.
Proof.
  intros Hcmd Hauth.
  destruct (pack_response 16 SMPP_CMD_SUBMIT_SM_RESP 0x04) as [header Hpack];
    try (unfold SMPP_CMD_SUBMIT_SM_RESP; change (2 ^ 32) with 4294967296; lia).
  exists header. split; [exact Hpack |].
  unfold run_turn. rewrite Hread, Hcmd.
  change (_process_pdu settings env st SMPP_CMD_SUBMIT_SM command_status
            sequence body)
    with (if authenticated st
          then _handle_submit_sm settings env st body sequence
          else _send_error_response st SMPP_CMD_SUBMIT_SM_RESP
                 SMPP_ESME_RINVBNDSTS sequence).
  rewrite Hauth.
  unfold _send_error_response, _send_response, SMPP_ESME_RINVBNDSTS.
  change (16 + len (@nil byte)) with 16. rewrite Hpack, app_nil_r.
  reflexivity.
Qed.

(** X11: a SubmitSM whose body has at most four bytes ends the session
    on an authenticated connection: the parse raises, nothing is
    written, no lookup is made, and the loop is left. *)
Theorem submit_short_body_ends_session :
  command_id = SMPP_CMD_SUBMIT_SM ->
  authenticated st = true ->
  len body <= 4 ->
  run_turn settings env st stream = Break st.
Proof.
  intros Hcmd Hauth Hshort.
  unfold run_turn. rewrite Hread, Hcmd.
  change (_process_pdu settings env st SMPP_CMD_SUBMIT_SM command_status
            sequence body)
    with (if authenticated st
          then _handle_submit_sm settings env st body sequence
          else _send_error_response st SMPP_CMD_SUBMIT_SM_RESP
                 SMPP_ESME_RINVBNDSTS sequence).
  rewrite Hauth. unfold _handle_submit_sm.
  rewrite parse_submit_sm_needs_five_bytes by exact Hshort. reflexivity.
Qed.

End Dispatch.

Section DispatchWitnesses.

Import Bytes SimpleSmppClient.
Local Open Scope list_scope.

(** X7, on the bind of the example client. *)
Lemma bind_success_authenticates_witness :
  exists header,
    pack_IIII 28 (bind_response SMPP_CMD_BIND_TRANSMITTER) 0 1 = Some header /\
    run_turn default_settings quiet_env init
      (pdu SMPP_CMD_BIND_TRANSMITTER 1 (bind_body "testuser" "testpass")) =
    Continue {| authenticated := true;
                system_id := Some (smpp_system_id default_settings);
                sequence_number := sequence_number init;
                written := written init ++ header ++
                           list_byte_of_string "SMPPGateway" ++ [x00];
                tasks := tasks init |} [].
Proof.
  apply (bind_success_authenticates default_settings quiet_env init
           (pdu SMPP_CMD_BIND_TRANSMITTER 1 (bind_body "testuser" "testpass"))
           44 SMPP_CMD_BIND_TRANSMITTER 0 1
           (bind_body "testuser" "testpass") []).
  - vm_compute. reflexivity.
  - left. reflexivity.
  - vm_compute. reflexivity.
Defined.

(** X8, on a session that never bound. *)
Lemma enquire_link_answered_witness :
  exists header,
    pack_IIII 16 SMPP_CMD_ENQUIRE_LINK_RESP 0 3 = Some header /\
    run_turn default_settings quiet_env init (pdu SMPP_CMD_ENQUIRE_LINK 3 []) =
    Continue (write init header) [].
Proof.
  apply (enquire_link_answered default_settings quiet_env init
           (pdu SMPP_CMD_ENQUIRE_LINK 3 []) 16 SMPP_CMD_ENQUIRE_LINK 0 3 [] []).
  - vm_compute. reflexivity.
  - reflexivity.
Defined.

(** X9, on a DELIVER_SM_RESP and on a QUERY_SM (0x03). *)
Lemma unhandled_command_ignored_witness :
  run_turn default_settings quiet_env bound_session
    (pdu SMPP_CMD_DELIVER_SM_RESP 1 [x00]) = Continue bound_session [] /\
  run_turn default_settings quiet_env bound_session (pdu 3 7 [x00]) =
    Continue bound_session [].
Proof.
  split.
  - apply (unhandled_command_ignored default_settings quiet_env bound_session
             (pdu SMPP_CMD_DELIVER_SM_RESP 1 [x00])
             17 SMPP_CMD_DELIVER_SM_RESP 0 1 [x00] []);
      vm_compute; reflexivity.
  - apply (unhandled_command_ignored default_settings quiet_env bound_session
             (pdu 3 7 [x00]) 17 3 0 7 [x00] []);
      vm_compute; reflexivity.
Defined.

(** X10, on the SubmitSM of the example client sent before any bind. *)
Lemma submit_unauthenticated_refused_witness :
  exists header,
    pack_IIII 16 SMPP_CMD_SUBMIT_SM_RESP 0x04 1 = Some header /\
    run_turn default_settings invalid_env init
      (pdu SMPP_CMD_SUBMIT_SM 1
         (submit_sm_body "1234" "40722570240999" (list_byte_of_string "Test"))) =
    Continue (write init header) [].
Proof.
  apply (submit_unauthenticated_refused default_settings invalid_env init
           (pdu SMPP_CMD_SUBMIT_SM 1
              (submit_sm_body "1234" "40722570240999"
                 (list_byte_of_string "Test")))
           55 SMPP_CMD_SUBMIT_SM 0 1
           (submit_sm_body "1234" "40722570240999" (list_byte_of_string "Test"))
           []).
  - vm_compute. reflexivity.
  - reflexivity.
  - reflexivity.
Defined.

(** X11, on a SubmitSM with an empty body. *)
Lemma submit_short_body_ends_session_witness :
  run_turn default_settings invalid_env bound_session
    (pdu SMPP_CMD_SUBMIT_SM 2 []) = Break bound_session.
Proof.
  apply (submit_short_body_ends_session default_settings invalid_env
           bound_session (pdu SMPP_CMD_SUBMIT_SM 2 [])
           16 SMPP_CMD_SUBMIT_SM 0 2 [] []).
  - vm_compute. reflexivity.
  - reflexivity.
  - reflexivity.
  - vm_compute. discriminate.
Defined.

End DispatchWitnesses.

(* ===================================================================== *)
(** * What the loop keeps                                                 *)
(* ===================================================================== *)

Section LoopInvariants.

Import Bytes.
Local Open Scope list_scope.

Variable settings : Settings.

Lemma extends_refl (st : session) : extends st st.
Proof. exists [], []. rewrite !app_nil_r. auto. Qed.

Lemma extends_trans (st1 st2 st3 : session) :
  extends st1 st2 -> extends st2 st3 -> extends st1 st3.
Proof.
  intros [o1 [n1 [Hw1 [Ht1 Hs1]]]] [o2 [n2 [Hw2 [Ht2 Hs2]]]].
  exists (o1 ++ o2), (n1 ++ n2).
  rewrite Hw2, Hw1, Ht2, Ht1, Hs2, Hs1, !app_assoc. auto.
Qed.

Lemma send_response_extends (st st' : session) (a b c : Z)
    (body : list byte) (how : completion) :
  _send_response st a b c body = (st', how) ->
  extends st st' /\ authenticated st' = authenticated st /\
  system_id st' = system_id st.
Proof.
  unfold _send_response. destruct (pack_IIII _ _ _ _) as [header |].
  - intros [= <- <-]. split; [| auto].
    exists (header ++ body), []. simpl. rewrite app_nil_r. auto.
  - intros [= <- <-]. split; [apply extends_refl | auto].
Qed.

Lemma handle_bind_keeps (st st' : session) (body : list byte)
    (sequence resp_cmd : Z) (how : completion) :
  _handle_bind settings st body sequence resp_cmd = (st', how) ->
  extends st st' /\ (bound_as_configured settings st -> bound_as_configured settings st').
Proof.
  unfold _handle_bind. destruct (_parse_bind_body body) as [sid password].
  destruct (String.eqb sid _ && String.eqb password _) eqn:E.
  - apply andb_prop in E as [E _]. apply String.eqb_eq in E. subst sid.
    intros H. apply send_response_extends in H as [Hext [Ha Hs]].
    cbn [authenticated system_id] in Ha, Hs. split.
    + destruct Hext as [out [new [Hw [Ht Hq]]]]. exists out, new. auto.
    + intros _ _. exact Hs.
  - intros H. apply send_response_extends in H as [Hext [Ha Hs]].
    split; [exact Hext |]. unfold bound_as_configured. rewrite Ha, Hs. auto.
Qed.

Lemma handle_unbind_keeps (st st' : session) (sequence : Z)
    (how : completion) :
  _handle_unbind st sequence = (st', how) ->
  extends st st' /\ (bound_as_configured settings st -> bound_as_configured settings st').
Proof.
  unfold _handle_unbind.
  destruct (_send_response st SMPP_CMD_UNBIND_RESP 0 sequence [])
    as [st1 []] eqn:E; apply send_response_extends in E as [Hext [Ha Hs]];
    intros [= <- <-].
  - split.
    + destruct Hext as [out [new [Hw [Ht Hq]]]]. exists out, new. auto.
    + intros _ Habs. discriminate.
  - split; [exact Hext |]. unfold bound_as_configured. rewrite Ha, Hs. auto.
Qed.

Lemma handle_enquire_link_keeps (st st' : session) (sequence : Z)
    (how : completion) :
  _handle_enquire_link st sequence = (st', how) ->
  extends st st' /\ (bound_as_configured settings st -> bound_as_configured settings st').
Proof.
  unfold _handle_enquire_link. destruct (pack_IIII _ _ _ _) as [header |];
    intros [= <- <-].
  - split; [| auto]. exists header, []. simpl. rewrite app_nil_r. auto.
  - split; [apply extends_refl | auto].
Qed.

Lemma handle_submit_sm_keeps (env : submit_env) (st st' : session)
    (body : list byte) (sequence : Z) (how : completion) :
  _handle_submit_sm settings env st body sequence = (st', how) ->
  extends st st' /\ (bound_as_configured settings st -> bound_as_configured settings st').
Proof.
  unfold _handle_submit_sm.
  destruct (_parse_submit_sm body) as [parsed |];
    [| intros [= <- <-]; split; [apply extends_refl | auto]].
  destruct (handle_submit_sm _ _ _ _ _ _) as [result created].
  set (st1 := {| authenticated := authenticated st;
                 system_id := system_id st;
                 sequence_number := sequence_number st;
                 written := written st;
                 tasks := tasks st ++ created |}).
  assert (H1 : extends st st1)
    by (exists [], created; simpl; rewrite app_nil_r; auto).
  assert (Hkeep : forall st2 how2,
             (st2, how2) = (st', how) ->
             extends st1 st2 /\ authenticated st2 = authenticated st1 /\
             system_id st2 = system_id st1 ->
             extends st st' /\ (bound_as_configured settings st -> bound_as_configured settings st')).
  { intros st2 how2 [= <- <-] [Hext [Ha Hs]].
    split; [eapply extends_trans; eassumption |].
    unfold bound_as_configured. rewrite Ha, Hs. auto. }
  destruct result as [result |];
    [| intros H; apply (Hkeep _ _ H); split; [apply extends_refl | auto]].
  destruct (match message_id result with
            | Some (String _ _ as mid) =>
                option_map (fun b => b ++ [x00]) (encode_ascii mid)
            | _ => Some [x00]
            end) as [resp_body |];
    [| intros H; apply (Hkeep _ _ H); split; [apply extends_refl | auto]].
  intros H.
  destruct (_send_response st1 _ _ _ _) as [st2 how2] eqn:E.
  apply (Hkeep _ _ H). apply send_response_extends in E. exact E.
Qed.

Lemma process_pdu_keeps (env : submit_env) (st st' : session)
    (command_id command_status sequence : Z) (body : list byte)
    (how : completion) :
  _process_pdu settings env st command_id command_status sequence body =
    (st', how) ->
  extends st st' /\ (bound_as_configured settings st -> bound_as_configured settings st').
Proof.
  unfold _process_pdu.
  repeat match goal with
         | |- context [if ?c =? ?k then _ else _] => destruct (c =? k)
         end;
    try apply handle_bind_keeps; try apply handle_unbind_keeps;
    try apply handle_enquire_link_keeps;
    try (intros [= <- <-]; split; [apply extends_refl | auto]).
  destruct (authenticated st); [apply handle_submit_sm_keeps |].
  intros H. apply send_response_extends in H as [Hext [Ha Hs]].
  split; [exact Hext |]. unfold bound_as_configured. rewrite Ha, Hs. auto.
Qed.

Lemma run_loop_keeps (fuel : nat) (envs : nat -> submit_env) (n : nat)
    (st st' : session) (stream : list byte) :
  run_loop fuel settings envs n st stream = Some st' ->
  extends st st' /\ (bound_as_configured settings st -> bound_as_configured settings st').
Proof.
  revert n st stream.
  induction fuel as [| fuel IH]; intros n st stream; simpl; [discriminate |].
  unfold run_turn.
  destruct (read_pdu stream) as [cl cid cs seq body rest | | |];
    try (intros [= <-]; split; [apply extends_refl | auto]).
  destruct (_process_pdu settings (envs n) st cid cs seq body)
    as [st1 how] eqn:E.
  apply process_pdu_keeps in E as [Hext Hinv].
  destruct how.
  - intros H. apply IH in H as [Hext' Hinv'].
    split; [eapply extends_trans; eassumption | auto].
  - intros [= <-]. auto.
Qed.

(** A turn, however it ends, only adds to the session. *)
Lemma run_turn_keeps (env : submit_env) (st : session) (stream : list byte) :
  match run_turn settings env st stream with
  | Continue st' _ | Break st' => extends st st'
  end.
Proof.
  unfold run_turn.
  destruct (read_pdu stream) as [cl cid cs seq body rest | | |];
    try apply extends_refl.
  destruct (_process_pdu settings env st cid cs seq body) as [st1 how] eqn:E.
  apply process_pdu_keeps in E as [Hext _]. destruct how; exact Hext.
Qed.

Lemma created_extends (st st' : session) (new : list dlr_task) :
  tasks st' = tasks st ++ new -> created st st' = new.
Proof. intros H. unfold created. rewrite H. apply drop_app_length. Qed.

(** [send_deliver_sm] appends to the output and takes at most one
    sequence number. *)
Lemma send_deliver_sm_steps (st : session) (source_addr destination_addr : string)
    (short_message : list byte) :
  let st' := send_deliver_sm st source_addr destination_addr short_message in
  (exists out, written st' = written st ++ out) /\
  tasks st' = tasks st /\
  sequence_number st <= sequence_number st' <= sequence_number st + 1.
Proof.
  unfold send_deliver_sm.
  assert (Hsame : (exists out, written st = written st ++ out) /\
                  tasks st = tasks st /\
                  sequence_number st <= sequence_number st
                    <= sequence_number st + 1).
  { split; [exists []; rewrite app_nil_r; reflexivity | split; [reflexivity | lia]]. }
  destruct (authenticated st); [| exact Hsame]. cbn [negb].
  destruct (encode_ascii source_addr) as [src |]; [| exact Hsame].
  destruct (encode_ascii destination_addr) as [dst |]; [| exact Hsame].
  destruct (deliver_sm_body src dst short_message) as [body |]; [| exact Hsame].
  unfold _send_response.
  destruct (pack_IIII _ _ _ _) as [header |]; cbn [fst].
  - split; [exists (header ++ body); reflexivity | split; [reflexivity |]].
    cbn [sequence_number write]. lia.
  - split; [exists []; cbn [written]; rewrite app_nil_r; reflexivity |].
    split; [reflexivity |]. cbn [sequence_number]. lia.
Qed.

(** A task that runs appends to the output and takes at most one
    sequence number; it leaves the list of pending tasks. *)
Lemma run_task_steps (w : wakeup) (st : session) (pending : list dlr_task) :
  let '(st', pending') := run_task w st pending in
  (exists out, written st' = written st ++ out) /\
  tasks st' = tasks st /\
  sequence_number st <= sequence_number st' /\
  sequence_number st' + Z.of_nat (length pending') <=
    sequence_number st + Z.of_nat (length pending).
Proof.
  unfold run_task.
  destruct (pending !! wake_task w) as [task |] eqn:Hlook.
  - assert (Hlen : S (length (delete (wake_task w) pending)) = length pending).
    { rewrite length_delete by (eexists; exact Hlook).
      apply lookup_lt_Some in Hlook. lia. }
    unfold _send_DELIVRD_dlr.
    assert (Hsame : (exists out, written st = written st ++ out) /\
                    tasks st = tasks st /\
                    sequence_number st <= sequence_number st /\
                    sequence_number st +
                      Z.of_nat (length (delete (wake_task w) pending)) <=
                    sequence_number st + Z.of_nat (length pending)).
    { split; [exists []; rewrite app_nil_r; reflexivity |].
      split; [reflexivity |]. lia. }
    destruct (get_reason _); [| exact Hsame].
    destruct (encode_ascii _) as [short_message |]; [| exact Hsame].
    cbn [SubmitSMHandler.send_deliver_sm session_connection].
    destruct (send_deliver_sm_steps st (task_destination_addr task)
                (task_source_addr task) short_message) as [Hw [Ht Hs]].
    split; [exact Hw | split; [exact Ht |]]. lia.
  - split; [exists []; rewrite app_nil_r; reflexivity |].
    split; [reflexivity |]. lia.
Qed.

Lemma run_tasks_steps (ws : list wakeup) (st : session)
    (pending : list dlr_task) :
  let '(st', pending') := run_tasks ws st pending in
  (exists out, written st' = written st ++ out) /\
  tasks st' = tasks st /\
  sequence_number st <= sequence_number st' /\
  sequence_number st' + Z.of_nat (length pending') <=
    sequence_number st + Z.of_nat (length pending).
Proof.
  revert st pending. induction ws as [| w ws IH]; intros st pending.
  - cbn [run_tasks]. split; [exists []; rewrite app_nil_r; reflexivity |].
    split; [reflexivity |]. lia.
  - cbn [run_tasks]. pose proof (run_task_steps w st pending) as H1.
    destruct (run_task w st pending) as [st1 pending1].
    specialize (IH st1 pending1).
    destruct (run_tasks ws st1 pending1) as [st2 pending2].
    destruct H1 as [[o1 Hw1] [Ht1 [Hs1 Hp1]]].
    destruct IH as [[o2 Hw2] [Ht2 [Hs2 Hp2]]].
    split; [exists (o1 ++ o2); rewrite Hw2, Hw1, app_assoc; reflexivity |].
    split; [congruence |]. lia.
Qed.

(** With more fuel than the stream has bytes the event loop is left,
    and between its start and its end the session has only grown. *)
Lemma event_loop_keeps (fuel : nat) (envs : nat -> submit_env)
    (ready : nat -> list wakeup) (n : nat) (st : session)
    (pending : list dlr_task) (stream : list byte) :
  (length stream < fuel)%nat ->
  exists st' pending' out new,
    event_loop fuel settings envs ready n st pending stream =
      Some (st', pending') /\
    written st' = written st ++ out /\
    tasks st' = tasks st ++ new /\
    sequence_number st <= sequence_number st' /\
    sequence_number st' + Z.of_nat (length pending') <=
      sequence_number st + Z.of_nat (length pending) + Z.of_nat (length new).
Proof.
  revert n st pending stream.
  induction fuel as [| fuel IH]; intros n st pending stream Hfuel; [lia |].
  cbn [event_loop].
  pose proof (run_tasks_steps (ready n) st pending) as Hrun.
  destruct (run_tasks (ready n) st pending) as [st1 pending1].
  destruct Hrun as [[o1 Hw1] [Ht1 [Hs1 Hp1]]].
  pose proof (run_turn_keeps (envs n) st1 stream) as Hturn.
  destruct (run_turn settings (envs n) st1 stream) as [st2 rest | st2] eqn:E;
    destruct Hturn as [o2 [n2 [Hw2 [Ht2 Hs2]]]];
    rewrite (created_extends st1 st2 n2 Ht2).
  - apply run_turn_consumes in E.
    destruct (IH (S n) st2 (pending1 ++ n2) rest ltac:(lia))
      as [st' [pending' [o3 [n3 [Hloop [Hw3 [Ht3 [Hs3 Hp3]]]]]]]].
    exists st', pending', (o1 ++ o2 ++ o3), (n2 ++ n3).
    split; [exact Hloop |].
    split; [rewrite Hw3, Hw2, Hw1, !app_assoc; reflexivity |].
    split; [rewrite Ht3, Ht2, Ht1, app_assoc; reflexivity |].
    rewrite length_app in Hp3. rewrite length_app. lia.
  - exists st2, (pending1 ++ n2), (o1 ++ o2), n2.
    split; [reflexivity |].
    split; [rewrite Hw2, Hw1, app_assoc; reflexivity |].
    split; [rewrite Ht2, Ht1; reflexivity |].
    rewrite length_app. lia.
Qed.

(** The loop on its own is the event loop that resumes no task. *)
Lemma event_loop_quiet (fuel : nat) (envs : nat -> submit_env) (n : nat)
    (st : session) (pending : list dlr_task) (stream : list byte) :
  event_loop fuel settings envs (fun _ => []) n st pending stream =
  option_map (fun st' => (st', pending ++ created st st'))
    (run_loop fuel settings envs n st stream).
Proof.
  revert n st pending stream.
  induction fuel as [| fuel IH]; intros n st pending stream; [reflexivity |].
  cbn [event_loop run_loop run_tasks].
  pose proof (run_turn_keeps (envs n) st stream) as Hturn.
  destruct (run_turn settings (envs n) st stream) as [st1 rest | st1];
    [| reflexivity].
  rewrite IH.
  destruct (run_loop fuel settings envs (S n) st1 rest) as [st' |] eqn:E;
    [| reflexivity].
  apply run_loop_keeps in E as [[o2 [n2 [_ [Ht2 _]]]] _].
  destruct Hturn as [o1 [n1 [_ [Ht1 _]]]].
  cbn [option_map]. rewrite (created_extends st st1 n1 Ht1).
  rewrite (created_extends st1 st' n2 Ht2).
  rewrite (created_extends st st' (n1 ++ n2))
    by (rewrite Ht2, Ht1, app_assoc; reflexivity).
  rewrite app_assoc. reflexivity.
Qed.

(** X12: [run] inside the event loop, which resumes pending DLR tasks
    while the loop awaits, is left on every finite stream, and over the
    whole run the bytes given to the writer are only ever appended to,
    the list of created DLR tasks only grows, and the counter for
    DeliverSM sequence numbers only moves forward, by at most one for
    each task that has run (the tasks that were pending or were created,
    less those still pending at the end).  Handling PDUs on its own
    never consumes a sequence number: if no task has run the counter is
    where it was. *)
Theorem run_appends_only (envs : nat -> submit_env)
    (ready : nat -> list wakeup) (st : session) (pending : list dlr_task)
    (stream : list byte) :
  exists st' pending' out new,
    run_in_event_loop settings envs ready st pending stream =
      Some (st', pending') /\
    written st' = written st ++ out /\
    tasks st' = tasks st ++ new /\
    sequence_number st <= sequence_number st' /\
    sequence_number st' + Z.of_nat (length pending') <=
      sequence_number st + Z.of_nat (length pending) + Z.of_nat (length new).
Proof. apply event_loop_keeps. lia. Qed.

(** X13: whatever the peer sends, a session that ends its loop
    authenticated carries the configured system id: authentication is
    only ever granted together with it. *)
Theorem run_authenticated_as_configured (envs : nat -> submit_env)
    (st' : session) (stream : list byte) :
  run settings envs init stream = Some st' ->
  authenticated st' = true ->
  system_id st' = Some (smpp_system_id settings).
Proof.
  intros H. apply run_loop_keeps in H as [_ Hinv].
  apply Hinv. intros Habs. discriminate.
Qed.

(** X14: the loop of [run] is always left: on every finite stream
    [run] returns a final session; and a stream shorter than a header is
    left at once, the session untouched. *)
Theorem run_always_returns (envs : nat -> submit_env) (st : session)
    (stream : list byte) :
  (exists st', run settings envs st stream = Some st') /\
  (len stream < 16 -> run settings envs st stream = Some st).
Proof.
  split.
  - destruct (run_loop_enough settings (S (length stream)) envs 0 st stream
                ltac:(lia)) as [st' H].
    exists st'. apply H. lia.
  - intros Hshort. unfold run. cbn [run_loop]. unfold run_turn, read_pdu.
    rewrite readexactly_short by exact Hshort. reflexivity.
Qed.

End LoopInvariants.

Section LoopInvariantWitnesses.

Import Bytes SimpleSmppClient.
Local Open Scope list_scope.

(** A bind and an accepted SubmitSM, the DLR task resumed while the
    loop awaits the next PDU: the receipt follows the two responses and
    the counter has moved from 1 to 2; with no task resumed the counter
    stays and the task is still pending. *)
Example run_in_event_loop_sends_receipt :
  let stream :=
    pdu SMPP_CMD_BIND_TRANSMITTER 1 (bind_body "testuser" "testpass") ++
    pdu SMPP_CMD_SUBMIT_SM 2
      (submit_sm_body "1234" "40722570240999" (list_byte_of_string "Test")) in
  let now := mk_datetime 2025 10 9 14 30 in
  let task := accepted_task 0 "1234" "40722570240999" invalid_record in
  let after (sequence_number : Z) (receipts : list byte) :=
    {| authenticated := true;
       system_id := Some "testuser"%string;
       sequence_number := sequence_number;
       written := bind_ok_response 1 ++
                  submit_sm_resp 0x00 2
                    (list_byte_of_string (generate_message_id 0) ++ [x00]) ++
                  receipts;
       tasks := [task] |} in
  run_in_event_loop default_settings (fun _ => invalid_env)
    (fun n => if Nat.eqb n 2
              then [ {| wake_task := 0; wake_now1 := now; wake_now2 := now |} ]
              else [])
    init [] stream =
  Some (after 2
          (deliver_sm 1 "40722570240999" "1234"
             (build_dlr_text (generate_message_id 0) "DELIVRD" "000"
                None None now now)),
        []) /\
  run_in_event_loop default_settings (fun _ => invalid_env) (fun _ => [])
    init [] stream =
  Some (after 1 [], [task]).
Proof. split; vm_compute; reflexivity. Qed.

(** X13, on a failed bind followed by a good one. *)
Lemma run_authenticated_as_configured_witness :
  system_id
    {| authenticated := true;
       system_id := Some "testuser";
       sequence_number := 1;
       written := response SMPP_CMD_BIND_TRANSMITTER_RESP 0x0E 1 ++
                  bind_ok_response 2;
       tasks := [] |} = Some (smpp_system_id default_settings).
Proof.
  apply (run_authenticated_as_configured default_settings
           (fun _ => quiet_env) _
           (pdu SMPP_CMD_BIND_TRANSMITTER 1 (bind_body "testuser" "wrong") ++
            pdu SMPP_CMD_BIND_TRANSMITTER 2 (bind_body "testuser" "testpass"))).
  - vm_compute. reflexivity.
  - reflexivity.
Defined.

End LoopInvariantWitnesses.

(* ===================================================================== *)
(** * DeliverSM                                                           *)
(* ===================================================================== *)

Section DeliverSM.

Import Bytes.
Local Open Scope list_scope.

Variables (st : session) (source_addr destination_addr : string).
Variables (short_message : list byte).

(** What a successful [send_deliver_sm] does to the session. *)
Lemma send_deliver_sm_sends (src dst body : list byte) :
  authenticated st = true ->
  encode_ascii source_addr = Some src ->
  encode_ascii destination_addr = Some dst ->
  deliver_sm_body src dst short_message = Some body ->
  16 + len body < 2 ^ 32 ->
  0 <= sequence_number st < 2 ^ 32 ->
  exists header,
    pack_IIII (16 + len body) SMPP_CMD_DELIVER_SM 0 (sequence_number st) =
      Some header /\
    send_deliver_sm st source_addr destination_addr short_message =
    {| authenticated := true;
       system_id := system_id st;
       sequence_number := sequence_number st + 1;
       written := written st ++ header ++ body;
       tasks := tasks st |}.
Proof.
  intros Hauth Hsrc Hdst Hbody Hlen Hseq.
  pose proof (len_nonneg body).
  destruct (pack_IIII_in_range (16 + len body) SMPP_CMD_DELIVER_SM 0
              (sequence_number st)) as [header [Hpack _]];
    try (unfold SMPP_CMD_DELIVER_SM; change (2 ^ 32) with 4294967296 in *; lia).
  exists header. split; [exact Hpack |].
  unfold send_deliver_sm. rewrite Hauth, Hsrc, Hdst, Hbody.
  cbn [negb]. unfold _send_response.
  cbn [authenticated system_id sequence_number written tasks].
  rewrite Hpack. unfold write. cbn [fst authenticated system_id
    sequence_number written tasks]. reflexivity.
Qed.

(** X15: on an authenticated session, with addresses that encode as
    ASCII, a message of at most 255 bytes and a sequence counter within
    32 bits, [send_deliver_sm] writes exactly one PDU, which reads back
    as a DELIVER_SM of status 0 carrying the laid-out body under the
    current value of the counter, and moves the counter on by one. *)
Theorem send_deliver_sm_writes_one_pdu (src dst body : list byte) :
  authenticated st = true ->
  encode_ascii source_addr = Some src ->
  encode_ascii destination_addr = Some dst ->
  deliver_sm_body src dst short_message = Some body ->
  16 + len body < 2 ^ 32 ->
  0 <= sequence_number st < 2 ^ 32 ->
  exists header,
    pack_IIII (16 + len body) SMPP_CMD_DELIVER_SM 0 (sequence_number st) =
      Some header /\
    send_deliver_sm st source_addr destination_addr short_message =
    {| authenticated := true;
       system_id := system_id st;
       sequence_number := sequence_number st + 1;
       written := written st ++ header ++ body;
       tasks := tasks st |} /\
    forall rest,
      read_pdu ((header ++ body) ++ rest) =
      Pdu (16 + len body) SMPP_CMD_DELIVER_SM 0 (sequence_number st) body rest.
Proof.
  intros Hauth Hsrc Hdst Hbody Hlen Hseq.
  destruct (send_deliver_sm_sends src dst body Hauth Hsrc Hdst Hbody Hlen Hseq)
    as [header [Hpack Hsend]].
  exists header. split; [exact Hpack |]. split; [exact Hsend |].
  intros rest. rewrite <- app_assoc.
  pose proof (len_nonneg body).
  apply read_pdu_framed; [exact Hpack | lia].
Qed.

(** X16: when an address does not encode as ASCII or the message is
    longer than 255 bytes, [send_deliver_sm] gives up before taking a
    sequence number: the session is left exactly as it was. *)
Theorem send_deliver_sm_gives_up :
  encode_ascii source_addr = None \/
  encode_ascii destination_addr = None \/
  255 < len short_message ->
  send_deliver_sm st source_addr destination_addr short_message = st.
Proof.
  intros H. unfold send_deliver_sm.
  destruct (negb (authenticated st)); [reflexivity |].
  destruct (encode_ascii source_addr) as [src |]; [| reflexivity].
  destruct (encode_ascii destination_addr) as [dst |]; [| reflexivity].
  destruct H as [H | [H | H]]; try discriminate.
  unfold deliver_sm_body.
  destruct (Z.leb_spec (len short_message) 255); [lia | reflexivity].
Qed.

(** X17: once the sequence counter has left the 32-bit range the
    header can no longer be packed: [send_deliver_sm] writes nothing,
    yet still moves the counter on, so no later DeliverSM can be sent on
    that session.  The counter does not wrap. *)
Theorem send_deliver_sm_counter_exhausted (src dst body : list byte) :
  authenticated st = true ->
  encode_ascii source_addr = Some src ->
  encode_ascii destination_addr = Some dst ->
  deliver_sm_body src dst short_message = Some body ->
  2 ^ 32 <= sequence_number st ->
  send_deliver_sm st source_addr destination_addr short_message =
  {| authenticated := true;
     system_id := system_id st;
     sequence_number := sequence_number st + 1;
     written := written st;
     tasks := tasks st |}.
Proof.
  intros Hauth Hsrc Hdst Hbody Hseq.
  unfold send_deliver_sm. rewrite Hauth, Hsrc, Hdst, Hbody.
  cbn [negb]. unfold _send_response, pack_IIII.
  cbn [authenticated system_id sequence_number written tasks].
  assert (Hnone : pack_I (sequence_number st) = None).
  { unfold pack_I.
    destruct (Z.ltb_spec (sequence_number st) (2 ^ 32)); [lia |].
    rewrite Bool.andb_false_r. reflexivity. }
  rewrite Hnone.
  destruct (pack_I (16 + len body)), (pack_I SMPP_CMD_DELIVER_SM), (pack_I 0);
    cbn [fst]; reflexivity.
Qed.

End DeliverSM.

Section DeliverSMWitnesses.

Import Bytes.
Local Open Scope list_scope.

(** X15, on a receipt sent on a bound session. *)
Lemma send_deliver_sm_writes_one_pdu_witness :
  exists header,
    pack_IIII (16 + len (default [] (deliver_sm_body
                 (list_byte_of_string "40722570240999")
                 (list_byte_of_string "1234") (list_byte_of_string "id:M"))))
      SMPP_CMD_DELIVER_SM 0 (sequence_number bound_session) = Some header /\
    send_deliver_sm bound_session "40722570240999" "1234"
      (list_byte_of_string "id:M") =
    {| authenticated := true;
       system_id := system_id bound_session;
       sequence_number := sequence_number bound_session + 1;
       written := written bound_session ++ header ++
                  default [] (deliver_sm_body
                    (list_byte_of_string "40722570240999")
                    (list_byte_of_string "1234") (list_byte_of_string "id:M"));
       tasks := tasks bound_session |} /\
    forall rest,
      read_pdu
        ((header ++
          default [] (deliver_sm_body
            (list_byte_of_string "40722570240999")
            (list_byte_of_string "1234") (list_byte_of_string "id:M"))) ++
         rest) =
      Pdu (16 + len (default [] (deliver_sm_body
                 (list_byte_of_string "40722570240999")
                 (list_byte_of_string "1234") (list_byte_of_string "id:M"))))
        SMPP_CMD_DELIVER_SM 0 (sequence_number bound_session)
        (default [] (deliver_sm_body
           (list_byte_of_string "40722570240999")
           (list_byte_of_string "1234") (list_byte_of_string "id:M"))) rest.
Proof.
  apply (send_deliver_sm_writes_one_pdu bound_session "40722570240999" "1234"
           (list_byte_of_string "id:M")
           (list_byte_of_string "40722570240999")
           (list_byte_of_string "1234")).
  - reflexivity.
  - reflexivity.
  - reflexivity.
  - reflexivity.
  - vm_compute. reflexivity.
  - vm_compute. split; congruence.
Defined.

(** X16, on a message of 256 bytes. *)
Lemma send_deliver_sm_gives_up_witness :
  send_deliver_sm bound_session "40722570240999" "1234" (repeat x00 256) =
  bound_session.
Proof.
  apply (send_deliver_sm_gives_up bound_session "40722570240999" "1234"
           (repeat x00 256)).
  right. right. vm_compute. reflexivity.
Defined.

(** X17, on a session whose counter has reached 2^32. *)
Lemma send_deliver_sm_counter_exhausted_witness :
  send_deliver_sm
    {| authenticated := true; system_id := Some "testuser";
       sequence_number := 4294967296; written := []; tasks := [] |}
    "40722570240999" "1234" (list_byte_of_string "id:M") =
  {| authenticated := true; system_id := Some "testuser";
     sequence_number := 4294967296 + 1; written := []; tasks := [] |}.
Proof.
  apply (send_deliver_sm_counter_exhausted
           {| authenticated := true; system_id := Some "testuser";
              sequence_number := 4294967296; written := []; tasks := [] |}
           "40722570240999" "1234" (list_byte_of_string "id:M")
           (list_byte_of_string "40722570240999")
           (list_byte_of_string "1234")
           (default [] (deliver_sm_body
              (list_byte_of_string "40722570240999")
              (list_byte_of_string "1234") (list_byte_of_string "id:M")))).
  - reflexivity.
  - reflexivity.
  - reflexivity.
  - reflexivity.
  - vm_compute. discriminate.
Defined.

End DeliverSMWitnesses.

(* ===================================================================== *)
(** * The DLR task                                                        *)
(* ===================================================================== *)

Section DlrTask.

Import Bytes.
Local Open Scope list_scope.

Variables (now1 now2 : datetime).

Lemma get_reason_not_a_number (hlr_result : gmap string pyval) (v : pyval) :
  hlr_result !! "error" = Some v -> is_number v = false ->
  get_reason hlr_result = None.
Proof.
  intros Hv Hn. unfold get_reason, Py.get. rewrite Hv. simpl default.
  destruct v; try discriminate; reflexivity.
Qed.

Lemma get_reason_number (hlr_result : gmap string pyval) :
  (forall v, hlr_result !! "error" = Some v -> is_number v = true) ->
  get_reason hlr_result = Some "invalid_number"%string.
Proof.
  intros Hn. unfold get_reason, Py.get.
  destruct (hlr_result !! "error") as [v |]; simpl default.
  - specialize (Hn v eq_refl).
    destruct (eq_int v 0); [reflexivity |].
    destruct v; try discriminate; simpl;
      match goal with |- context [if ?b then _ else _] => destruct b end;
      reflexivity.
  - reflexivity.
Qed.

Lemma eq_str_valid (v : pyval) :
  eq_str v "valid" = true <-> v = PStr "valid".
Proof.
  destruct v; simpl; try (split; [discriminate | intros [=]]).
  rewrite String.eqb_eq. split; [intros -> | intros [= ->]]; reflexivity.
Qed.

Lemma handle_submit_sm_not_valid (settings : Settings) (rnd : Z)
    (source_addr destination_addr : string) (short_message : list byte)
    (hlr_result : gmap string pyval) :
  hlr_result !! "classification" <> Some (PStr "valid") ->
  handle_submit_sm settings rnd (Returned (PDict hlr_result))
    source_addr destination_addr short_message =
  accepted rnd source_addr destination_addr hlr_result.
Proof.
  intros Hc. rewrite handle_submit_sm_dict.
  destruct (eq_str _ "valid") eqn:E; [| reflexivity].
  apply eq_str_valid in E. unfold Py.get in E.
  destruct (hlr_result !! "classification") as [v |]; simpl in E;
    [subst v; contradiction | discriminate].
Qed.

(** X18: a record whose error field is present but not a number (a
    string such as "191", or null) and that is not stamped "valid" is
    accepted with [ESME_ROK] and a message id, yet its DLR task sends
    nothing on any connection: [get_reason] raises [TypeError] before
    the send, and the task only logs it. *)
Theorem dlr_lost_when_error_not_a_number {C} `{Connection C}
    (settings : Settings) (rnd : Z) (source_addr destination_addr : string)
    (short_message : list byte) (hlr_result : gmap string pyval) (v : pyval)
    (connection : C) :
  hlr_result !! "error" = Some v ->
  is_number v = false ->
  hlr_result !! "classification" <> Some (PStr "valid") ->
  handle_submit_sm settings rnd (Returned (PDict hlr_result))
    source_addr destination_addr short_message =
    accepted rnd source_addr destination_addr hlr_result /\
  _send_DELIVRD_dlr
    (accepted_task rnd source_addr destination_addr hlr_result)
    now1 now2 connection = connection.
Proof.
  intros Hv Hn Hc. split; [apply handle_submit_sm_not_valid, Hc |].
  unfold _send_DELIVRD_dlr. cbn [task_hlr_result accepted_task].
  rewrite (get_reason_not_a_number hlr_result v Hv Hn). reflexivity.
Qed.

Lemma dec_digit_alphabet (P : ascii -> bool) (n : Z) :
  forallb P (list_ascii_of_string "0123456789") = true ->
  P (dec_digit n) = true.
Proof.
  intros HP. rewrite forallb_forall in HP. apply HP.
  unfold dec_digit.
  assert (H : 0 <= n mod 10 < 10) by (apply Z.mod_pos_bound; lia).
  assert (Hn : (Z.to_nat (n mod 10) < 10)%nat) by lia.
  destruct (Z.to_nat (n mod 10)) as [| [| [| [| [| [| [| [| [| [| k]]]]]]]]]];
    simpl; try lia; tauto.
Qed.

Lemma format_smpp_date_alphabet (P : ascii -> bool) (dt : datetime) :
  forallb P (list_ascii_of_string "0123456789") = true ->
  Forall (fun c => P c = true) (list_ascii_of_string (format_smpp_date dt)) /\
  length (list_ascii_of_string (format_smpp_date dt)) = 10%nat.
Proof.
  intros HP. unfold format_smpp_date.
  rewrite list_ascii_of_string_of_list_ascii. unfold two_digits. simpl.
  split; [| reflexivity].
  repeat constructor; apply dec_digit_alphabet, HP.
Qed.

(** The characters of the DLR text of a generated id all satisfy a
    predicate that holds of the fixed parts, of hexadecimal digits and
    the hyphen; and there are 128 of them. *)
Lemma dlr_text_chars (P : ascii -> bool) (rnd : Z) :
  forallb P
    (list_ascii_of_string
       "0123456789abcdef-id: sub:001 dlvrd:000 submit date: done date: stat:DELIVRD err:000 text:") = true ->
  let text :=
    build_dlr_text (generate_message_id rnd) "DELIVRD" "000" None None
      now1 now2 in
  Forall (fun c => P c = true) (list_ascii_of_string text) /\
  length (list_ascii_of_string text) = 128%nat.
Proof.
  intros HP text. subst text.
  rewrite build_dlr_text_fields. cbn [default from_option].
  rewrite !list_ascii_of_string_app.
  assert (Hall : forall c,
             In c (list_ascii_of_string
                     "0123456789abcdef-id: sub:001 dlvrd:000 submit date: done date: stat:DELIVRD err:000 text:") ->
             P c = true)
    by (apply forallb_forall; exact HP).
  assert (Hdig : forallb P (list_ascii_of_string "0123456789") = true).
  { apply forallb_forall. intros c Hc. apply Hall. simpl in *. tauto. }
  assert (Hhex : forallb P uuid_alphabet = true).
  { apply forallb_forall. intros c Hc. apply Hall.
    unfold uuid_alphabet, hex_alphabet in Hc. simpl in *. tauto. }
  destruct (format_smpp_date_alphabet P now1 Hdig) as [Hd1 Hl1].
  destruct (format_smpp_date_alphabet P now2 Hdig) as [Hd2 Hl2].
  pose proof (generate_message_id_alphabet P rnd Hhex) as Hmid.
  assert (Hlmid : length (list_ascii_of_string (generate_message_id rnd)) = 36%nat).
  { rewrite <- (generate_message_id_length rnd).
    generalize (generate_message_id rnd).
    induction s as [| c s IH]; simpl; [reflexivity | now rewrite IH]. }
  split.
  - repeat (apply Forall_app; split); try assumption;
      apply Forall_forall; intros c Hc; apply Hall;
      apply list_elem_of_In in Hc; simpl in *; tauto.
  - rewrite !length_app, Hl1, Hl2, Hlmid. reflexivity.
Qed.

(** The DLR text of a generated id encodes as 128 ASCII bytes. *)
Lemma dlr_text_encodes (rnd : Z) :
  let text :=
    build_dlr_text (generate_message_id rnd) "DELIVRD" "000" None None
      now1 now2 in
  encode_ascii text = Some (list_byte_of_string text) /\
  len (list_byte_of_string text) = 128.
Proof.
  intros text.
  destruct (dlr_text_chars (fun c => to_Z (byte_of_ascii c) <? 128) rnd
              eq_refl) as [Hall Hlen].
  fold text in Hall, Hlen. split.
  - unfold encode_ascii.
    assert (H : forallb (fun b => to_Z b <? 128) (list_byte_of_string text) = true).
    { unfold list_byte_of_string. rewrite forallb_forall.
      intros b Hb. apply in_map_iff in Hb as [c [<- Hc]].
      rewrite Forall_forall in Hall. apply Hall.
      apply list_elem_of_In. exact Hc. }
    rewrite H. reflexivity.
  - unfold len, list_byte_of_string. rewrite length_map, Hlen. reflexivity.
Qed.

Lemma c_string_encodes (s : string) :
  c_string s -> encode_ascii s = Some (list_byte_of_string s).
Proof.
  intros [_ Hascii]. unfold encode_ascii.
  assert (H : forallb (fun b => to_Z b <? 128) (list_byte_of_string s) = true).
  { apply forallb_forall. intros b Hb.
    unfold ascii_bytes in Hascii. rewrite Forall_forall in Hascii.
    apply Z.ltb_lt, Hascii, list_elem_of_In, Hb. }
  rewrite H. reflexivity.
Qed.

(** X19: on an authenticated session whose sequence counter is within
    32 bits, when the source and the destination address are ASCII
    strings without NUL (together shorter than 2^31 bytes) and the
    record has no error field or a numeric one, the DLR task of an
    accepted SubmitSM writes exactly one DeliverSM: from the original
    destination to the original source, under the session's current
    sequence counter (which moves on by one), carrying the DLR text of
    the message id, which is 128 bytes long.  Outside these conditions
    the receipt can be lost (a counter that has left 32 bits, an
    address that does not encode, an error field that is not a
    number). *)
Theorem dlr_task_sends_receipt (st : session) (rnd : Z)
    (source_addr destination_addr : string)
    (hlr_result : gmap string pyval) :
  authenticated st = true ->
  c_string source_addr -> c_string destination_addr ->
  len (list_byte_of_string source_addr) +
    len (list_byte_of_string destination_addr) < 2 ^ 31 ->
  0 <= sequence_number st < 2 ^ 32 ->
  (forall v, hlr_result !! "error" = Some v -> is_number v = true) ->
  let text :=
    build_dlr_text (generate_message_id rnd) "DELIVRD" "000" None None
      now1 now2 in
  len (list_byte_of_string text) = 128 /\
  _send_DELIVRD_dlr
    (accepted_task rnd source_addr destination_addr hlr_result)
    now1 now2 st =
  {| authenticated := true;
     system_id := system_id st;
     sequence_number := sequence_number st + 1;
     written := written st ++
                deliver_sm (sequence_number st) destination_addr source_addr
                  text;
     tasks := tasks st |}.
Proof.
  intros Hauth Hsrc Hdst Hlen Hseq Herr text.
  destruct (dlr_text_encodes rnd) as [Henc Htext]. fold text in Henc, Htext.
  split; [exact Htext |].
  unfold _send_DELIVRD_dlr.
  cbn [task_hlr_result task_message_id task_destination_addr
       task_source_addr accepted_task].
  rewrite get_error_code_from_hlr_000, (get_reason_number hlr_result Herr).
  fold text. rewrite Henc.
  cbn [SubmitSMHandler.send_deliver_sm session_connection].
  assert (Hbody : deliver_sm_body (list_byte_of_string destination_addr)
                    (list_byte_of_string source_addr)
                    (list_byte_of_string text) <> None).
  { unfold deliver_sm_body. rewrite Htext. discriminate. }
  destruct (deliver_sm_body _ _ _) as [body |] eqn:Ebody; [| contradiction].
  assert (Hblen : len body =
                  17 + len (list_byte_of_string destination_addr) +
                  len (list_byte_of_string source_addr) + 128).
  { unfold deliver_sm_body in Ebody. rewrite Htext in Ebody.
    cbn [Z.leb Z.compare Pos.compare Pos.compare_cont] in Ebody.
    injection Ebody as <-. unfold len in *.
    repeat (rewrite length_app || rewrite length_cons).
    cbn [length]. lia. }
  destruct (send_deliver_sm_sends st destination_addr source_addr
              (list_byte_of_string text)
              (list_byte_of_string destination_addr)
              (list_byte_of_string source_addr) body Hauth
              (c_string_encodes _ Hdst) (c_string_encodes _ Hsrc) Ebody)
    as [header [Hpack Hsend]].
  { pose proof (len_nonneg (list_byte_of_string destination_addr)).
    pose proof (len_nonneg (list_byte_of_string source_addr)).
    change (2 ^ 32) with 4294967296. change (2 ^ 31) with 2147483648 in Hlen.
    lia. }
  { exact Hseq. }
  rewrite Hsend. unfold deliver_sm. rewrite Ebody. simpl default.
  rewrite Hpack. reflexivity.
Qed.

End DlrTask.

Section DlrTaskWitnesses.

Import Bytes.
Local Open Scope list_scope.

(** X18, on a record whose error is the string "191". *)
Lemma dlr_lost_when_error_not_a_number_witness :
  handle_submit_sm default_settings 0
    (Returned (PDict {[ "error" := PStr "191" ]}))
    "1234" "40722570240999" (list_byte_of_string "Test") =
    accepted 0 "1234" "40722570240999" {[ "error" := PStr "191" ]} /\
  _send_DELIVRD_dlr
    (accepted_task 0 "1234" "40722570240999" {[ "error" := PStr "191" ]})
    (mk_datetime 2025 10 9 14 30) (mk_datetime 2025 10 9 14 30)
    bound_session = bound_session.
Proof.
  apply (dlr_lost_when_error_not_a_number
           (mk_datetime 2025 10 9 14 30) (mk_datetime 2025 10 9 14 30)
           default_settings 0 "1234" "40722570240999"
           (list_byte_of_string "Test") {[ "error" := PStr "191" ]}
           (PStr "191") bound_session).
  - vm_compute. reflexivity.
  - reflexivity.
  - vm_compute. discriminate.
Defined.

(** X19, on the invalid record of the tests. *)
Lemma dlr_task_sends_receipt_witness :
  len (list_byte_of_string
         (build_dlr_text (generate_message_id 0) "DELIVRD" "000" None None
            (mk_datetime 2025 10 9 14 30) (mk_datetime 2025 10 9 14 30))) =
    128 /\
  _send_DELIVRD_dlr
    (accepted_task 0 "1234" "40722570240999" invalid_record)
    (mk_datetime 2025 10 9 14 30) (mk_datetime 2025 10 9 14 30)
    bound_session =
  {| authenticated := true;
     system_id := system_id bound_session;
     sequence_number := sequence_number bound_session + 1;
     written := written bound_session ++
                deliver_sm (sequence_number bound_session)
                  "40722570240999" "1234"
                  (build_dlr_text (generate_message_id 0) "DELIVRD" "000"
                     None None
                     (mk_datetime 2025 10 9 14 30)
                     (mk_datetime 2025 10 9 14 30));
     tasks := tasks bound_session |}.
Proof.
  apply (dlr_task_sends_receipt
           (mk_datetime 2025 10 9 14 30) (mk_datetime 2025 10 9 14 30)
           bound_session 0 "1234" "40722570240999" invalid_record).
  - reflexivity.
  - c_string_holds.
  - c_string_holds.
  - vm_compute. reflexivity.
  - vm_compute. split; congruence.
  - intros v Hv. vm_compute in Hv. injection Hv as <-. reflexivity.
Defined.

End DlrTaskWitnesses.

(* ===================================================================== *)
(** * The shape of every submit decision                                  *)
(* ===================================================================== *)

Section SubmitDecisions.

Import Bytes.
Local Open Scope list_scope.

Variables (settings : Settings) (rnd : Z).
Variables (source_addr destination_addr : string) (short_message : list byte).

(** X20: only the exact string "valid" rejects.  A lookup result whose
    classification is anything else (absent, null, a number, "VALID",
    "invalid") is accepted: [ESME_ROK], the message id, one DLR task. *)
Theorem submit_accepts_all_but_valid (hlr_result : gmap string pyval) :
  hlr_result !! "classification" <> Some (PStr "valid") ->
  handle_submit_sm settings rnd (Returned (PDict hlr_result))
    source_addr destination_addr short_message =
  (Some {| command_status := 0x00;
           message_id := Some (generate_message_id rnd) |},
   [ {| task_message_id := generate_message_id rnd;
        task_destination_addr := destination_addr;
        task_source_addr := source_addr;
        task_hlr_result := hlr_result |} ]).
Proof. apply handle_submit_sm_not_valid. Qed.

(** X21: a lookup that returns something other than a dict (a list, a
    string or a number decoded from the cache) is answered
    [ESME_RSYSERR] without message id and schedules nothing: the
    [AttributeError] of [.get] is caught like any other error. *)
Theorem submit_non_dict_result_rejected (v : pyval) :
  (forall d, v <> PDict d) ->
  handle_submit_sm settings rnd (Returned v)
    source_addr destination_addr short_message =
  (Some {| command_status := 0x08; message_id := None |}, []).
Proof.
  intros Hv. unfold handle_submit_sm.
  destruct v; try reflexivity. exfalso. eapply Hv. reflexivity.
Qed.

(** The ways [handle_submit_sm] can end. *)
Lemma handle_submit_sm_cases (outcome : lookup_outcome) :
  (exists hlr_result,
     handle_submit_sm settings rnd outcome
       source_addr destination_addr short_message =
     accepted rnd source_addr destination_addr hlr_result) \/
  handle_submit_sm settings rnd outcome
    source_addr destination_addr short_message = rejected ESME_RINVDSTADR \/
  handle_submit_sm settings rnd outcome
    source_addr destination_addr short_message = rejected ESME_RSYSERR \/
  (handle_submit_sm settings rnd outcome
     source_addr destination_addr short_message = (None, []) /\
   outcome = RaisedTimeout /\ hlr_timeout_policy settings <> "reject"%string).
Proof.
  unfold handle_submit_sm.
  destruct outcome as [v | |].
  - destruct v; try (right; right; left; reflexivity).
    destruct (eq_str _ "valid").
    + right. left. reflexivity.
    + left. eexists. reflexivity.
  - destruct (String.eqb_spec (hlr_timeout_policy settings) "reject").
    + right. right. left. reflexivity.
    + right. right. right. auto.
  - right. right. left. reflexivity.
Qed.

(** X22: whatever the lookup does, [handle_submit_sm] ends in one of
    four ways and no other: accepted ([ESME_ROK] with the generated id
    and exactly one task for it), rejected with [ESME_RINVDSTADR] or
    with [ESME_RSYSERR] (no id, no task), or, only on a timeout under a
    policy other than "reject", no result at all and no task.  A task
    is never created without the id being returned, and an id is never
    returned without its task. *)
Theorem submit_outcomes (outcome : lookup_outcome) :
  (exists hlr_result,
     handle_submit_sm settings rnd outcome
       source_addr destination_addr short_message =
     accepted rnd source_addr destination_addr hlr_result) \/
  handle_submit_sm settings rnd outcome
    source_addr destination_addr short_message = rejected ESME_RINVDSTADR \/
  handle_submit_sm settings rnd outcome
    source_addr destination_addr short_message = rejected ESME_RSYSERR \/
  (handle_submit_sm settings rnd outcome
     source_addr destination_addr short_message = (None, []) /\
   outcome = RaisedTimeout /\ hlr_timeout_policy settings <> "reject"%string).
Proof. apply handle_submit_sm_cases. Qed.

End SubmitDecisions.

(** X20, on a record stamped "VALID" in capitals. *)
Lemma submit_accepts_all_but_valid_witness :
  handle_submit_sm default_settings 0
    (Returned (PDict {[ "classification" := PStr "VALID" ]}))
    "1234" "13476841841" [] =
  (Some {| command_status := 0x00;
           message_id := Some (generate_message_id 0) |},
   [ {| task_message_id := generate_message_id 0;
        task_destination_addr := "13476841841";
        task_source_addr := "1234";
        task_hlr_result := {[ "classification" := PStr "VALID" ]} |} ]).
Proof.
  apply (submit_accepts_all_but_valid default_settings 0 "1234" "13476841841"
           [] {[ "classification" := PStr "VALID" ]}).
  vm_compute. discriminate.
Defined.

(** X21, on a cached JSON list. *)
Lemma submit_non_dict_result_rejected_witness :
  handle_submit_sm default_settings 0 (Returned (PList [PInt 1]))
    "1234" "13476841841" [] =
  (Some {| command_status := 0x08; message_id := None |}, []).
Proof.
  apply (submit_non_dict_result_rejected default_settings 0 "1234"
           "13476841841" [] (PList [PInt 1])).
  intros d. discriminate.
Defined.

(* ===================================================================== *)
(** * The HLR resolver and its cache                                      *)
(* ===================================================================== *)

Section Resolver.

Variables (ttl : Z) (redis : option (gmap string entry)) (msisdn : string).

Lemma classify_result_stamped (record : gmap string pyval) (c : pyval) :
  _classify_result (<["classification" := c]> record) =
  _classify_result record.
Proof.
  unfold _classify_result, Py.get.
  rewrite !lookup_insert_ne by discriminate. reflexivity.
Qed.

(** What a returning request returns: some record with its
    classification written over whatever was under that key. *)
Lemma sync_hlr_request_returned (response : http_outcome) (v : pyval) :
  _sync_hlr_request msisdn response = Returned v ->
  exists record,
    v = PDict (<["classification" := PStr (_classify_result record)]> record).
Proof.
  unfold _sync_hlr_request.
  destruct response as [data | |]; try discriminate.
  destruct data; try discriminate.
  destruct (if truthy _ then _ else _); try discriminate.
  intros [= <-]. eauto.
Qed.

Lemma truthy_stamped (record : gmap string pyval) (c : pyval) :
  truthy (PDict (<["classification" := c]> record)) = true.
Proof. apply truthy_dict, insert_non_empty. Qed.

Lemma classify_empty_response :
  _classify_result (empty_response msisdn) = "invalid"%string.
Proof. reflexivity. Qed.

(** X23: when the provider's answer has no entry for the number, or
    an empty or otherwise falsy one, the request returns the synthesised
    record [{number, error: 1, status: 1, status_message}] stamped
    "invalid", and the SubmitSM for it is accepted. *)
Theorem empty_answer_is_invalid (data : gmap string pyval)
    (settings : Settings) (rnd : Z) (source_addr : string)
    (short_message : list byte) :
  (forall v, data !! msisdn = Some v -> truthy v = false) ->
  let record := <["classification" := PStr "invalid"]> (empty_response msisdn) in
  _sync_hlr_request msisdn (HttpJson (PDict data)) = Returned (PDict record) /\
  handle_submit_sm settings rnd (Returned (PDict record))
    source_addr msisdn short_message =
  accepted rnd source_addr msisdn record.
Proof.
  intros Hfalsy record. split.
  - unfold _sync_hlr_request, Py.get.
    destruct (data !! msisdn) as [v |] eqn:E; simpl default.
    + rewrite (Hfalsy v eq_refl), classify_empty_response. reflexivity.
    + assert (Hempty : truthy (PDict ∅) = false).
      { simpl. rewrite bool_decide_eq_true_2 by reflexivity. reflexivity. }
      rewrite Hempty, classify_empty_response. reflexivity.
  - apply handle_submit_sm_not_valid. subst record.
    rewrite lookup_insert_eq. discriminate.
Qed.

(** X24: every record a request returns is a dict that carries a
    "classification", and that classification is what
    [_classify_result] says of the returned record itself: a value the
    provider put under that key is overwritten. *)
Theorem returned_record_is_classified (response : http_outcome) (v : pyval) :
  _sync_hlr_request msisdn response = Returned v ->
  exists record,
    v = PDict record /\
    record !! "classification" = Some (PStr (_classify_result record)).
Proof.
  intros H. apply sync_hlr_request_returned in H as [r0 ->].
  eexists. split; [reflexivity |].
  rewrite lookup_insert_eq, classify_result_stamped. reflexivity.
Qed.

(** What a look at the cache gives when the key is there. *)
Lemma cache_get_entry (keys : gmap string entry) (call : redis_call)
    (e : entry) :
  ttl <> 0 ->
  keys !! _make_key msisdn = Some e ->
  cache_get ttl (Some keys) call msisdn =
  if finds call (entry_expires e) then Some (entry_data e) else None.
Proof.
  intros Httl Hkey. unfold cache_get, finds. rewrite Hkey.
  destruct (Z.eqb_spec ttl 0); [contradiction |].
  destruct (call_ok call); reflexivity.
Qed.

(** A lookup of a number whose key holds a truthy value: the value,
    when one of the two looks finds the key; the provider otherwise. *)
Lemma lookup_entry (keys : gmap string entry) (calls : lookup_calls)
    (e : entry) (response : http_outcome) :
  ttl <> 0 ->
  keys !! _make_key msisdn = Some e ->
  truthy (entry_data e) = true ->
  HLRClient.lookup ttl (Some keys) calls msisdn response =
  if finds (first_get calls) (entry_expires e) ||
     finds (second_get calls) (entry_expires e)
  then (Returned (entry_data e), Some keys)
  else request_and_cache ttl (Some keys) (set_call calls) msisdn response.
Proof.
  intros Httl Hkey Htrue. unfold HLRClient.lookup.
  rewrite !(cache_get_entry keys _ e Httl Hkey).
  destruct (finds (first_get calls) _); [rewrite Htrue; reflexivity |].
  destruct (finds (second_get calls) _); [rewrite Htrue |]; reflexivity.
Qed.

(** X25: on a cache miss with Redis connected and a positive TTL, a
    record the provider returns is stored, when the [SETEX] comes back,
    to expire TTL seconds later.  A later lookup of the same number on
    those keys returns the same record and leaves the keys as they are,
    whatever the provider would now answer, exactly when one of its two
    looks at the cache comes back before the key has expired; when
    neither does (Redis fails, or the TTL has passed) the provider is
    asked again. *)
Theorem lookup_then_cached (keys : gmap string entry)
    (calls calls' : lookup_calls) (response1 response2 : http_outcome)
    (v : pyval) :
  0 < ttl ->
  cache_miss ttl (Some keys) (first_get calls) msisdn ->
  cache_miss ttl (Some keys) (second_get calls) msisdn ->
  _sync_hlr_request msisdn response1 = Returned v ->
  call_ok (set_call calls) = true ->
  let expires := call_now (set_call calls) + ttl in
  let redis' :=
    Some (<[_make_key msisdn :=
              {| entry_data := v; entry_expires := expires |}]> keys) in
  HLRClient.lookup ttl (Some keys) calls msisdn response1 =
    (Returned v, redis') /\
  HLRClient.lookup ttl redis' calls' msisdn response2 =
    if finds (first_get calls') expires || finds (second_get calls') expires
    then (Returned v, redis')
    else request_and_cache ttl redis' (set_call calls') msisdn response2.
Proof.
  intros Httl H1 H2 Hsync Hok expires redis'. split.
  - rewrite lookup_cache_miss by assumption.
    unfold request_and_cache, cache_set. rewrite Hsync, Hok.
    destruct (Z.eqb_spec ttl 0); [lia |].
    destruct (Z.ltb_spec 0 ttl); [reflexivity | lia].
  - apply sync_hlr_request_returned in Hsync as [r0 ->].
    apply (lookup_entry _ calls'
             {| entry_data := PDict (<["classification" :=
                                         PStr (_classify_result r0)]> r0);
                entry_expires := expires |}).
    + lia.
    + apply lookup_insert_eq.
    + apply truthy_stamped.
Qed.

(** X26: with a TTL of 0, or before Redis is connected, nothing is
    served from or written to the cache: every lookup is the provider's
    answer, and the cache is left as it was. *)
Theorem lookup_without_cache (calls : lookup_calls) (response : http_outcome) :
  HLRClient.lookup 0 redis calls msisdn response =
    (_sync_hlr_request msisdn response, redis) /\
  HLRClient.lookup ttl None calls msisdn response =
    (_sync_hlr_request msisdn response, None).
Proof.
  split.
  - unfold HLRClient.lookup, request_and_cache, cache_get, cache_set.
    destruct redis; simpl;
      destruct (_sync_hlr_request msisdn response); reflexivity.
  - unfold HLRClient.lookup, request_and_cache, cache_get, cache_set.
    destruct (_sync_hlr_request msisdn response); reflexivity.
Qed.

(** X27: when both looks at the cache miss, a failing request is
    passed on as it is (a timeout as a timeout, anything else as an
    error) and caches nothing, so the next lookup asks the provider
    again. *)
Theorem lookup_failure_not_cached (calls : lookup_calls) :
  cache_miss ttl redis (first_get calls) msisdn ->
  cache_miss ttl redis (second_get calls) msisdn ->
  HLRClient.lookup ttl redis calls msisdn HttpTimeout = (RaisedTimeout, redis) /\
  HLRClient.lookup ttl redis calls msisdn HttpFailure = (RaisedError, redis).
Proof.
  intros H1 H2. rewrite !lookup_cache_miss by assumption.
  split; reflexivity.
Qed.

(** X28: a lookup touches the cache entry of its own number only: what
    a look at the cache gives for any other number is the same before
    and after, at any time and whether Redis answers or not. *)
Theorem lookup_keeps_other_entries (calls : lookup_calls) (call : redis_call)
    (other : string) (response : http_outcome) :
  other <> msisdn ->
  cache_get ttl (snd (HLRClient.lookup ttl redis calls msisdn response))
    call other =
  cache_get ttl redis call other.
Proof.
  intros Hne.
  assert (Hset : forall c v,
             cache_get ttl (cache_set ttl redis c msisdn v) call other =
             cache_get ttl redis call other).
  { intros c v. unfold cache_get, cache_set.
    destruct redis as [keys |]; [| reflexivity].
    destruct (ttl =? 0); [reflexivity |].
    destruct (call_ok c && (0 <? ttl)); [| reflexivity].
    rewrite lookup_insert_ne; [reflexivity |].
    unfold _make_key. intros Heq.
    apply (inj (String.app "hlr:")) in Heq. congruence. }
  assert (Hreq : forall c,
             cache_get ttl (snd (request_and_cache ttl redis c msisdn response))
               call other =
             cache_get ttl redis call other).
  { intros c. unfold request_and_cache.
    destruct (_sync_hlr_request msisdn response); simpl;
      [apply Hset | reflexivity | reflexivity]. }
  unfold HLRClient.lookup.
  destruct (cache_get ttl redis (first_get calls) msisdn) as [c1 |];
    [destruct (truthy c1); [reflexivity |] |];
    (destruct (cache_get ttl redis (second_get calls) msisdn) as [c2 |];
     [destruct (truthy c2); [reflexivity |] |]); apply Hreq.
Qed.

End Resolver.

(** X23, on an answer that has no entry for the number. *)
Lemma empty_answer_is_invalid_witness :
  let record :=
    <["classification" := PStr "invalid"]> (empty_response "40722570240999") in
  _sync_hlr_request "40722570240999" (HttpJson (PDict ∅)) =
    Returned (PDict record) /\
  handle_submit_sm default_settings 0 (Returned (PDict record))
    "1234" "40722570240999" [] =
  accepted 0 "1234" "40722570240999" record.
Proof.
  apply (empty_answer_is_invalid "40722570240999" ∅ default_settings 0
           "1234" []).
  intros v Hv. vm_compute in Hv. discriminate.
Defined.

(** X24, on the provider's answer for a valid number that came with a
    classification of its own. *)
Lemma returned_record_is_classified_witness :
  exists record,
    PDict (<["classification" := PStr "valid"]>
             (<["classification" := PStr "bogus"]>
                (<["error" := PInt 0]> (<["status" := PInt 0]> ∅)))) =
      PDict record /\
    record !! "classification" = Some (PStr (_classify_result record)).
Proof.
  apply (returned_record_is_classified "13476841841"
           (HttpJson (PDict {[ "13476841841" :=
              PDict (<["classification" := PStr "bogus"]>
                       (<["error" := PInt 0]> (<["status" := PInt 0]> ∅))) ]}))).
  vm_compute. reflexivity.
Defined.

(** X25, on a first lookup at second 1000 that asked the provider, one
    an hour later during an outage of the provider, and one after the
    day the entry lives. *)
Lemma lookup_then_cached_witness :
  let valid :=
    PDict (<["classification" := PStr "valid"]>
             (<["error" := PInt 0]> (<["status" := PInt 0]> ∅))) in
  let at_ (now : Z) :=
    {| first_get := {| call_now := now; call_ok := true |};
       second_get := {| call_now := now; call_ok := true |};
       set_call := {| call_now := now; call_ok := true |} |} in
  let redis' :=
    Some (<[_make_key "13476841841" :=
              {| entry_data := valid; entry_expires := 1000 + 86400 |}]> ∅) in
  (HLRClient.lookup 86400 (Some ∅) (at_ 1000) "13476841841"
     (HttpJson (PDict {[ "13476841841" :=
        PDict (<["error" := PInt 0]> (<["status" := PInt 0]> ∅)) ]})) =
   (Returned valid, redis') /\
   HLRClient.lookup 86400 redis' (at_ 4600) "13476841841" HttpFailure =
   (Returned valid, redis')) /\
  HLRClient.lookup 86400 redis' (at_ 87400) "13476841841" HttpFailure =
  (RaisedError, redis').
Proof.
  intros valid at_ redis'.
  assert (Hmiss : forall call, cache_miss 86400 (Some ∅) call "13476841841").
  { intros call v Hv. unfold cache_get in Hv. simpl in Hv.
    destruct (call_ok call); discriminate. }
  assert (Hsync :
    _sync_hlr_request "13476841841"
      (HttpJson (PDict {[ "13476841841" :=
         PDict (<["error" := PInt 0]> (<["status" := PInt 0]> ∅)) ]})) =
    Returned valid) by (vm_compute; reflexivity).
  pose proof (fun calls' =>
    lookup_then_cached 86400 "13476841841" ∅ (at_ 1000) calls' _
      HttpFailure valid eq_refl (Hmiss _) (Hmiss _) Hsync eq_refl) as H.
  split; [split |].
  - exact (proj1 (H (at_ 4600))).
  - exact (proj2 (H (at_ 4600))).
  - exact (proj2 (H (at_ 87400))).
Defined.

(** X27, on an empty cache. *)
Lemma lookup_failure_not_cached_witness :
  let calls :=
    {| first_get := {| call_now := 0; call_ok := true |};
       second_get := {| call_now := 0; call_ok := true |};
       set_call := {| call_now := 0; call_ok := true |} |} in
  HLRClient.lookup 86400 (Some ∅) calls "13476841841" HttpTimeout =
    (RaisedTimeout, Some ∅) /\
  HLRClient.lookup 86400 (Some ∅) calls "13476841841" HttpFailure =
    (RaisedError, Some ∅).
Proof.
  intros calls.
  apply (lookup_failure_not_cached 86400 (Some ∅) "13476841841" calls).
  - intros v Hv. vm_compute in Hv. discriminate.
  - intros v Hv. vm_compute in Hv. discriminate.
Defined.

(** X28, on two numbers. *)
Lemma lookup_keeps_other_entries_witness :
  let call := {| call_now := 0; call_ok := true |} in
  let calls :=
    {| first_get := call; second_get := call; set_call := call |} in
  cache_get 86400
    (snd (HLRClient.lookup 86400 (Some ∅) calls "13476841841"
            (HttpJson (PDict {[ "13476841841" :=
               PDict (<["error" := PInt 0]> (<["status" := PInt 0]> ∅)) ]}))))
    call "40722570240999" =
  cache_get 86400 (Some ∅) call "40722570240999".
Proof.
  intros call calls.
  apply (lookup_keeps_other_entries 86400 (Some ∅) "13476841841" calls call
           "40722570240999").
  discriminate.
Defined.

(** The scenario of [test_cache_expiration] in
    tests/test_integration.py, with a TTL of one second: the entry is
    found at once and is gone two seconds later. *)
Example cache_entry_expires :
  let test_data :=
    PDict (<["test" := PStr "data"]> {[ "classification" := PStr "valid" ]}) in
  let stored :=
    cache_set 1 (Some ∅) {| call_now := 10; call_ok := true |}
      "test_expiry" test_data in
  cache_get 1 stored {| call_now := 10; call_ok := true |} "test_expiry" =
    Some test_data /\
  cache_get 1 stored {| call_now := 12; call_ok := true |} "test_expiry" =
    None.
Proof. split; vm_compute; reflexivity. Qed.

(* ===================================================================== *)
(** * Cache warmup                                                        *)
(* ===================================================================== *)

Section Warmup.

Import Application.

Variable ttl : Z.

(** Before Redis is connected a warmup stores nothing. *)
Lemma warmup_rows_unconnected (calls : nat -> redis_call) (n : nat)
    (lookups : list (string * pyval)) :
  warmup_rows ttl calls n None lookups = None.
Proof.
  revert n. induction lookups as [| [msisdn resp] rest IH]; intros n;
    [reflexivity |].
  cbn [warmup_rows fst snd]. destruct resp; apply IH.
Qed.

(** Without a positive TTL a warmup stores nothing. *)
Lemma warmup_rows_off (calls : nat -> redis_call) (n : nat)
    (keys : gmap string entry) (lookups : list (string * pyval)) :
  ttl <= 0 ->
  warmup_rows ttl calls n (Some keys) lookups = Some keys.
Proof.
  intros Httl. revert n.
  induction lookups as [| [msisdn resp] rest IH]; intros n; [reflexivity |].
  cbn [warmup_rows fst snd].
  assert (Hset : cache_set ttl (Some keys) (calls n) msisdn resp = Some keys).
  { unfold cache_set. destruct (ttl =? 0); [reflexivity |].
    destruct (Z.ltb_spec 0 ttl); [lia |].
    rewrite Bool.andb_false_r. reflexivity. }
  destruct resp; try apply IH. rewrite Hset. apply IH.
Qed.

(** What is under a key after a warmup: the entry of the last dict row
    stored under it, or what was there before. *)
Lemma warmup_rows_lookup (calls : nat -> redis_call) (n : nat)
    (keys : gmap string entry) (lookups : list (string * pyval)) :
  0 < ttl ->
  exists keys',
    warmup_rows ttl calls n (Some keys) lookups = Some keys' /\
    forall key,
      keys' !! key =
      match last_warm ttl calls n lookups key with
      | Some e => Some e
      | None => keys !! key
      end.
Proof.
  intros Httl. revert n keys.
  induction lookups as [| [msisdn resp] rest IH]; intros n keys.
  - exists keys. split; reflexivity.
  - cbn [warmup_rows fst snd last_warm].
    assert (Hset : forall r,
               cache_set ttl (Some keys) (calls n) msisdn r =
               if call_ok (calls n)
               then Some (<[_make_key msisdn :=
                              {| entry_data := r;
                                 entry_expires := call_now (calls n) + ttl |}]>
                            keys)
               else Some keys).
    { intros r. unfold cache_set.
      destruct (Z.eqb_spec ttl 0); [lia |].
      destruct (Z.ltb_spec 0 ttl); [| lia].
      rewrite Bool.andb_true_r. reflexivity. }
    destruct resp;
      try (destruct (IH (S n) keys) as [keys' [Hrun Hkeys]];
           exists keys'; split; [exact Hrun |];
           intros key; rewrite Hkeys;
           destruct (last_warm ttl calls (S n) rest key); reflexivity).
    rewrite Hset. destruct (call_ok (calls n)).
    + destruct (IH (S n)
                  (<[_make_key msisdn :=
                       {| entry_data := PDict d;
                          entry_expires := call_now (calls n) + ttl |}]> keys))
        as [keys' [Hrun Hkeys]].
      exists keys'. split; [exact Hrun |].
      intros key. rewrite Hkeys.
      destruct (last_warm ttl calls (S n) rest key); [reflexivity |].
      rewrite Bool.andb_true_r.
      destruct (String.eqb_spec (_make_key msisdn) key) as [-> | Hne].
      * apply lookup_insert_eq.
      * apply lookup_insert_ne. exact Hne.
    + destruct (IH (S n) keys) as [keys' [Hrun Hkeys]].
      exists keys'. split; [exact Hrun |].
      intros key. rewrite Hkeys.
      destruct (last_warm ttl calls (S n) rest key); [reflexivity |].
      rewrite Bool.andb_false_r. reflexivity.
Qed.

(** Whether a warmup leaves an entry under a key depends on which of
    its commands come back, not on when. *)
Lemma last_warm_none (calls1 calls2 : nat -> redis_call) (n : nat)
    (lookups : list (string * pyval)) (key : string) :
  (forall k, call_ok (calls1 k) = call_ok (calls2 k)) ->
  last_warm ttl calls2 n lookups key = None ->
  last_warm ttl calls1 n lookups key = None.
Proof.
  intros Hsame. revert n.
  induction lookups as [| [msisdn resp] rest IH]; intros n; [reflexivity |].
  cbn [last_warm].
  destruct (last_warm ttl calls2 (S n) rest key) eqn:E2; [discriminate |].
  rewrite (IH (S n) E2). rewrite Hsame.
  destruct resp; try reflexivity.
  destruct (String.eqb (_make_key msisdn) key && call_ok (calls2 n));
    [discriminate | reflexivity].
Qed.

(** X29: warming the cache a second time from the same rows, with the
    same commands coming back, gives the cache a single warmup at the
    second time gives: the same records, their expiry counted from the
    second pass.  In particular two warmups under the same conditions
    give what one gives. *)
Theorem warmup_idempotent (redis : option (gmap string entry))
    (calls1 calls2 : nat -> redis_call) (lookups : list (string * pyval)) :
  (forall n, call_ok (calls1 n) = call_ok (calls2 n)) ->
  _warmup_cache ttl (_warmup_cache ttl redis calls1 lookups) calls2 lookups =
  _warmup_cache ttl redis calls2 lookups.
Proof.
  intros Hsame. unfold _warmup_cache.
  destruct redis as [keys |];
    [| rewrite !warmup_rows_unconnected; reflexivity].
  destruct (Z.lt_ge_cases 0 ttl) as [Httl | Httl];
    [| rewrite !warmup_rows_off by lia; reflexivity].
  destruct (warmup_rows_lookup calls1 0 keys lookups Httl)
    as [keys1 [-> H1]].
  destruct (warmup_rows_lookup calls2 0 keys1 lookups Httl)
    as [keys12 [-> H12]].
  destruct (warmup_rows_lookup calls2 0 keys lookups Httl)
    as [keys2 [-> H2]].
  f_equal. apply map_eq. intros key. rewrite H12, H2, H1.
  destruct (last_warm ttl calls2 0 lookups key) eqn:E; [reflexivity |].
  rewrite (last_warm_none calls1 calls2 0 lookups key Hsame E). reflexivity.
Qed.

(** X30: after a warmup with Redis connected and a positive TTL, a
    number whose last stored row (a dict whose [SETEX] came back)
    carried a non-empty record is resolved from the cache, exactly when
    one of the two looks of the lookup comes back before that entry has
    expired: the lookup then returns the record whatever the provider
    would answer and leaves the cache as it is; otherwise the provider
    is asked.  Rows whose response is not a dict have no part in it. *)
Theorem warmup_then_lookup_hits (keys : gmap string entry)
    (calls : nat -> redis_call) (lookups : list (string * pyval))
    (msisdn : string) (e : entry) (lcalls : lookup_calls)
    (response : http_outcome) :
  0 < ttl ->
  last_warm ttl calls 0 lookups (_make_key msisdn) = Some e ->
  truthy (entry_data e) = true ->
  let warm := _warmup_cache ttl (Some keys) calls lookups in
  HLRClient.lookup ttl warm lcalls msisdn response =
  if finds (first_get lcalls) (entry_expires e) ||
     finds (second_get lcalls) (entry_expires e)
  then (Returned (entry_data e), warm)
  else request_and_cache ttl warm (set_call lcalls) msisdn response.
Proof.
  intros Httl Hlast Htrue warm. unfold warm, _warmup_cache.
  destruct (warmup_rows_lookup calls 0 keys lookups Httl)
    as [keys' [-> Hkeys]].
  apply lookup_entry; [lia | | exact Htrue].
  rewrite Hkeys, Hlast. reflexivity.
Qed.

End Warmup.

(** X29, on a warmup at second 0 and another at second 100, the third
    command failing both times. *)
Lemma warmup_idempotent_witness :
  let rows :=
    [("13476841841"%string, PDict {[ "classification" := PStr "invalid" ]});
     ("40722570240999"%string, PStr "not a dict");
     ("13476841841"%string, PDict {[ "classification" := PStr "valid" ]})] in
  let calls (now : Z) (n : nat) :=
    {| call_now := now; call_ok := negb (Nat.eqb n 2) |} in
  Application._warmup_cache 86400
    (Application._warmup_cache 86400 (Some ∅) (calls 0) rows)
    (calls 100) rows =
  Application._warmup_cache 86400 (Some ∅) (calls 100) rows.
Proof.
  intros rows calls.
  apply (warmup_idempotent 86400 (Some ∅) (calls 0) (calls 100) rows).
  intros n. reflexivity.
Defined.

(** X30, on two rows for one number and a row that is not a dict,
    warmed at second 0 and looked up an hour later. *)
Lemma warmup_then_lookup_hits_witness :
  let rows :=
    [("13476841841"%string, PDict {[ "classification" := PStr "invalid" ]});
     ("40722570240999"%string, PStr "not a dict");
     ("13476841841"%string, PDict {[ "classification" := PStr "valid" ]})] in
  let call (now : Z) := {| call_now := now; call_ok := true |} in
  let lcalls :=
    {| first_get := call 3600; second_get := call 3600;
       set_call := call 3600 |} in
  let warm :=
    Application._warmup_cache 86400 (Some ∅) (fun _ => call 0) rows in
  HLRClient.lookup 86400 warm lcalls "13476841841" HttpFailure =
  (Returned (PDict {[ "classification" := PStr "valid" ]}), warm).
Proof.
  intros rows call lcalls warm.
  apply (warmup_then_lookup_hits 86400 ∅ (fun _ => call 0) rows
           "13476841841"
           {| entry_data := PDict {[ "classification" := PStr "valid" ]};
              entry_expires := 86400 |}
           lcalls HttpFailure).
  - lia.
  - vm_compute. reflexivity.
  - vm_compute. reflexivity.
Defined.

(* ===================================================================== *)
(** * Every SubmitSM that parses is answered                              *)
(* ===================================================================== *)

Section SubmitAnswered.

Import Bytes.
Local Open Scope list_scope.

Variables (settings : Settings) (env : submit_env) (st : session).
Variables (body : list byte) (sequence : Z) (parsed : parsed_submit_sm).

Hypothesis Hparse : _parse_submit_sm body = Some parsed.
Hypothesis Hseq : 0 <= sequence < 2 ^ 32.

Lemma handle_submit_sm_on_session_rejected (status : Z) :
  status = ESME_RINVDSTADR \/ status = ESME_RSYSERR ->
  handle_submit_sm settings (env_urandom env)
    (env_lookup env (destination_addr parsed))
    (source_addr parsed) (destination_addr parsed) (short_message parsed) =
  rejected status ->
  _handle_submit_sm settings env st body sequence =
  ({| authenticated := authenticated st;
      system_id := system_id st;
      sequence_number := sequence_number st;
      written := written st ++ submit_sm_resp status sequence [x00];
      tasks := tasks st ++ [] |}, Normal).
Proof.
  intros Hstatus Hrej. unfold _handle_submit_sm. rewrite Hparse, Hrej.
  unfold rejected. cbn [message_id SubmitSMHandler.command_status].
  unfold _send_response, submit_sm_resp.
  destruct (pack_IIII_in_range (16 + len [x00]) SMPP_CMD_SUBMIT_SM_RESP
              status sequence) as [header [Hpack _]];
    try exact Hseq;
    try (change (2 ^ 32) with 4294967296;
         unfold SMPP_CMD_SUBMIT_SM_RESP, ESME_RINVDSTADR, ESME_RSYSERR in *;
         unfold len; simpl length; lia).
  rewrite Hpack. reflexivity.
Qed.

Lemma handle_submit_sm_on_session_accepted (hlr_result : gmap string pyval) :
  handle_submit_sm settings (env_urandom env)
    (env_lookup env (destination_addr parsed))
    (source_addr parsed) (destination_addr parsed) (short_message parsed) =
  accepted (env_urandom env) (source_addr parsed) (destination_addr parsed)
    hlr_result ->
  _handle_submit_sm settings env st body sequence =
  ({| authenticated := authenticated st;
      system_id := system_id st;
      sequence_number := sequence_number st;
      written := written st ++
                 submit_sm_resp ESME_ROK sequence
                   (list_byte_of_string (generate_message_id (env_urandom env))
                    ++ [x00]);
      tasks := tasks st ++
               [accepted_task (env_urandom env) (source_addr parsed)
                  (destination_addr parsed) hlr_result] |}, Normal).
Proof.
  intros Hacc. unfold _handle_submit_sm. rewrite Hparse, Hacc.
  unfold accepted. cbn [message_id SubmitSMHandler.command_status].
  pose proof (generate_message_id_encodes (env_urandom env)) as Henc.
  pose proof (len_message_id_bytes (env_urandom env)) as Hlen.
  destruct (generate_message_id_nonempty (env_urandom env)) as [c [s E]].
  set (mid := generate_message_id (env_urandom env)) in *.
  replace (match mid with
           | EmptyString => Some [x00]
           | String _ _ => option_map (fun b => b ++ [x00]) (encode_ascii mid)
           end) with (Some (list_byte_of_string mid ++ [x00]))
    by (rewrite Henc, E; reflexivity).
  unfold _send_response, submit_sm_resp.
  assert (Hbody : len (list_byte_of_string mid ++ [x00]) = 37).
  { rewrite len_app, Hlen. reflexivity. }
  destruct (pack_IIII_in_range (16 + len (list_byte_of_string mid ++ [x00]))
              SMPP_CMD_SUBMIT_SM_RESP ESME_ROK sequence)
    as [header [Hpack _]];
    try exact Hseq;
    try (change (2 ^ 32) with 4294967296;
         unfold SMPP_CMD_SUBMIT_SM_RESP, ESME_ROK; rewrite ?Hbody; lia).
  rewrite Hpack. clear Henc E. clearbody mid. reflexivity.
Qed.

(** X3: under the policy "reject", a SubmitSM whose body parses is
    answered on an authenticated session with exactly one
    SUBMIT_SM_RESP that echoes its sequence number, whatever the HLR
    lookup does: status [ESME_ROK] with the message id as a C string and
    one new DLR task, or status [ESME_RINVDSTADR] or [ESME_RSYSERR] with
    an empty message id and no task.  Nothing else of the session
    changes. *)
Theorem parsed_submit_always_answered :
  authenticated st = true ->
  hlr_timeout_policy settings = "reject"%string ->
  exists status resp_body new,
    _process_pdu settings env st SMPP_CMD_SUBMIT_SM 0 sequence body =
    ({| authenticated := true;
        system_id := system_id st;
        sequence_number := sequence_number st;
        written := written st ++ submit_sm_resp status sequence resp_body;
        tasks := tasks st ++ new |}, Normal) /\
    ((status = 0x00 /\
      resp_body =
        list_byte_of_string (generate_message_id (env_urandom env)) ++ [x00] /\
      exists hlr_result,
        new = [accepted_task (env_urandom env) (source_addr parsed)
                 (destination_addr parsed) hlr_result]) \/
     ((status = 0x0B \/ status = 0x08) /\ resp_body = [x00] /\ new = [])).
Proof.
  intros Hauth Hpolicy.
  change (_process_pdu settings env st SMPP_CMD_SUBMIT_SM 0 sequence body)
    with (if authenticated st
          then _handle_submit_sm settings env st body sequence
          else _send_error_response st SMPP_CMD_SUBMIT_SM_RESP
                 SMPP_ESME_RINVBNDSTS sequence).
  rewrite Hauth.
  destruct (handle_submit_sm_cases settings (env_urandom env)
              (source_addr parsed) (destination_addr parsed)
              (short_message parsed)
              (env_lookup env (destination_addr parsed)))
    as [[hlr_result Hacc] | [Hrej | [Hrej | [_ [_ Hno]]]]].
  - rewrite (handle_submit_sm_on_session_accepted hlr_result Hacc), Hauth.
    do 3 eexists. split; [reflexivity |]. left. eauto.
  - rewrite (handle_submit_sm_on_session_rejected ESME_RINVDSTADR
               ltac:(auto) Hrej), Hauth.
    do 3 eexists. split; [reflexivity |]. right. auto.
  - rewrite (handle_submit_sm_on_session_rejected ESME_RSYSERR
               ltac:(auto) Hrej), Hauth.
    do 3 eexists. split; [reflexivity |]. right. auto.
  - contradiction.
Qed.

End SubmitAnswered.

Section SubmitAnsweredWitness.

Import Bytes SimpleSmppClient.
Local Open Scope list_scope.

(** X3, on the SubmitSM of the example client while the HLR times out. *)
Lemma parsed_submit_always_answered_witness :
  exists status resp_body new,
    _process_pdu default_settings
      {| env_lookup := fun _ => RaisedTimeout; env_urandom := 0 |}
      bound_session SMPP_CMD_SUBMIT_SM 0 2
      (submit_sm_body "1234" "13476841841" (list_byte_of_string "Test")) =
    ({| authenticated := true;
        system_id := system_id bound_session;
        sequence_number := sequence_number bound_session;
        written := written bound_session ++ submit_sm_resp status 2 resp_body;
        tasks := tasks bound_session ++ new |}, Normal) /\
    ((status = 0x00 /\
      resp_body = list_byte_of_string (generate_message_id 0) ++ [x00] /\
      exists hlr_result,
        new = [accepted_task 0 "1234" "13476841841" hlr_result]) \/
     ((status = 0x0B \/ status = 0x08) /\ resp_body = [x00] /\ new = [])).
Proof.
  apply (parsed_submit_always_answered default_settings
           {| env_lookup := fun _ => RaisedTimeout; env_urandom := 0 |}
           bound_session
           (submit_sm_body "1234" "13476841841" (list_byte_of_string "Test"))
           2 {| source_addr := "1234"; destination_addr := "13476841841";
                short_message := list_byte_of_string "Test" |}).
  - vm_compute. reflexivity.
  - vm_compute. split; congruence.
  - reflexivity.
  - reflexivity.
Defined.

End SubmitAnsweredWitness.
